(** * SceneCollection.stack / SceneCollection.mosaic

    A shallow embedding of [descarteslabs/scenes/scenecollection.py]:
    the pre-flight checks, the single raster call of [mosaic] with its
    client-side nodata/alpha masking and final axis move, and the slot
    placement of [stack] over a serial or a thread-pool fetch.

    Conventions.
    - Pixel values and nodata sentinels are integers ([Z]); floating
      point pixels are outside the model.
    - A NumPy array is a shape together with an indexing function, the
      way NumPy keeps a view over a buffer: slicing and [np.moveaxis]
      change the shape and the index map, never the stored values.
    - Python exceptions are values of [exn]; a call either raises or
      returns, and it records every request that reaches the raster
      service client in a log (a writer monad, [M]).
    - [Scene], [Collection] and the raster service are collaborators of
      this module; their methods are the fields of [Collaborators]. *)

From Stdlib Require Import ZArith List Bool Ascii String Lia Permutation.
From stdpp Require Import base option list gmap sets strings fin_maps.

Local Open Scope string_scope.
Local Open Scope list_scope.
Local Open Scope nat_scope.

(** ** Scenes *)

(** One entry of [scene.properties["bands"]]: [band_nodata] is what
    [.get('nodata')] returns ([None] when the key is absent or null). *)
Record band_properties := BandProperties {
  band_dtype : string;
  band_nodata : option Z;
}.

Record Scene := MkScene {
  scene_id : string;                         (* properties["id"] *)
  scene_bands : gmap string band_properties; (* properties["bands"] *)
}.

(** [ctx.raster_params]: the keyword arguments a GeoContext contributes
    to a raster call (srs, resolution, bounds, ...), kept symbolic. *)
Definition raster_params := list (string * string).

Record GeoContext := MkGeoContext { ctx_raster_params : raster_params }.

(** The raster information dict returned next to an array. *)
Definition raster_meta := list (string * string).

(** The [bands] argument: one space-separated string or a sequence. *)
Inductive bands_arg :=
| BandsStr (s : string)
| BandsSeq (l : list string).

(** A [Collection.groupby] predicate: an attribute path or a callable. *)
Inductive predicate :=
| PredPath (path : string)
| PredFn (f : Scene -> string).

(** The [flatten] argument when it is not [None]. *)
Inductive flatten_arg :=
| FlattenOne (p : predicate)
| FlattenSeq (ps : list predicate).

(** ** Requests and exceptions *)

(** [full_raster_args], the keyword arguments of [Raster.ndarray]. *)
Record raster_args := RasterArgs {
  ra_inputs : list string;
  ra_order : string;
  ra_bands : list string;
  ra_scales : option (list Z);
  ra_data_type : option string;
  ra_params : raster_params;
}.

Definition shape3 : Type := nat * nat * nat.

Inductive message :=
| MsgEmptyCollection            (* "This SceneCollection is empty" *)
| MsgStackBandsAxis             (* "bands_axis of 0 is currently unsupported for `SceneCollection.stack`. ..." *)
| MsgInvalidBandsAxis (bands_axis : Z)
                                (* "Invalid bands_axis; axis {} would not exist in a 3D array" *)
| MsgAlphaNotLast               (* "Alpha must be the last band in order to reduce rasterization errors" *)
| MsgDtypeMismatch (i : nat) (data_type common_data_type : string)
                                (* "Bands must all have the same dtype in every Scene. ..." *)
| MsgIdsNotFound (inputs : list string)
                                (* "Some or all of these IDs don't exist in the Descartes catalog: {}" *)
| MsgBadRequest (err : message) (args : raster_args)
                                (* "Error with request:\n{err}\n..." *)
| MsgMaxWorkers                 (* ThreadPoolExecutor: "max_workers must be greater than 0" *)
| MsgBroadcast (src dst : shape3)
                                (* NumPy: "could not broadcast input array from shape ... into shape ..." *)
| MsgNoneItemAssignment         (* "'NoneType' object does not support item assignment" *)
| MsgIndex (i : nat)            (* index out of bounds / out of range *)
| MsgAxis (axis : Z)            (* NumPy: "destination: axis {} is out of bounds ..." *)
| MsgText (s : string).

Inductive exn :=
| ValueError (m : message)
| NotImplementedError (m : message)
| NotFoundError (m : message)
| BadRequestError (m : message)
| KeyError (key : string)
| IndexError (m : message)
| TypeError (m : message)
| AxisError (m : message)
| OtherError (class : string) (m : message).

(** The error names of the design document, and the exception of this
    module each of them stands for. *)
Inductive spec_error :=
| EmptyCollectionError
| InconsistentDataTypeError
| UnsupportedAxisError
| AlphaOrderError.

Definition spec_error_of (e : exn) : option spec_error :=
  match e with
  | ValueError MsgEmptyCollection => Some EmptyCollectionError
  | ValueError (MsgDtypeMismatch _ _ _) => Some InconsistentDataTypeError
  | NotImplementedError MsgStackBandsAxis => Some UnsupportedAxisError
  | ValueError MsgAlphaNotLast => Some AlphaOrderError
  | _ => None
  end.

(** ** The call monad: a result or an exception, and the requests sent

    A computation can add to the log of requests and cannot read it: what
    a fetch returns does not depend on the requests sent before it, as
    with a deterministic service. *)

Inductive call := RasterCall (args : raster_args).

Definition M (A : Type) : Type := list call * (exn + A).

Definition ret {A} (a : A) : M A := ([], inr a).
Definition raise {A} (e : exn) : M A := ([], inl e).
Definition lift {A} (r : exn + A) : M A := ([], r).

Definition bind {A B} (m : M A) (k : A -> M B) : M B :=
  match m with
  | (log, inl e) => (log, inl e)
  | (log, inr a) => let '(log', r) := k a in (log ++ log', r)
  end.

Notation "x <- c1 ;; c2" := (bind c1 (fun x => c2))
  (at level 100, c1 at next level, right associativity).

(** The requests that reached the raster service client, and the outcome. *)
Definition calls {A} (m : M A) : list call := fst m.
Definition outcome {A} (m : M A) : exn + A := snd m.

(** ** NumPy arrays *)

Record array3 (A : Type) := Array3 {
  a3_shape : shape3;
  a3_at : nat -> nat -> nat -> A;
}.
Arguments Array3 {A} _ _.
Arguments a3_shape {A} _.
Arguments a3_at {A} _ _ _ _.

Record array2 (A : Type) := Array2 {
  a2_shape : nat * nat;
  a2_at : nat -> nat -> A;
}.
Arguments Array2 {A} _ _.
Arguments a2_shape {A} _.
Arguments a2_at {A} _ _ _.

(** A plain [np.ndarray] of three axes. *)
Record ndarray := NdArray {
  nd_dtype : string;
  nd_values : array3 Z;
}.

(** What [mosaic] and [Scene.ndarray] return: an [np.ndarray] or an
    [np.ma.MaskedArray] ([arr.data], [arr.mask]). *)
Inductive array :=
| Plain (a : ndarray)
| MaskedArray (data : ndarray) (mask : array3 bool).

(** What the raster service returns: two axes when one band was asked
    for, three otherwise. *)
Inductive raster_array :=
| Raster2D (dtype : string) (a : array2 Z)
| Raster3D (a : ndarray).

(** [arr[np.newaxis]] *)
Definition newaxis (dtype : string) (a : array2 Z) : ndarray :=
  let '(h, w) := a2_shape a in
  NdArray dtype (Array3 (1, h, w) (fun _ y x => a2_at a y x)).

(** [if len(arr.shape) == 2: arr = arr[np.newaxis]] *)
Definition as_3d (arr : raster_array) : ndarray :=
  match arr with
  | Raster2D dtype a => newaxis dtype a
  | Raster3D a => a
  end.

(** [arr[-1]] *)
Definition last_band {A} (a : array3 A) : exn + array2 A :=
  let '(nb, h, w) := a3_shape a in
  match nb with
  | O => inl (IndexError (MsgIndex 0))
  | S k => inr (Array2 (h, w) (a3_at a k))
  end.

(** [arr[:-1]] *)
Definition drop_last_band {A} (a : array3 A) : array3 A :=
  let '(nb, h, w) := a3_shape a in
  Array3 (Nat.pred nb, h, w) (a3_at a).

(** [np.zeros_like(arr, dtype=bool)] *)
Definition zeros_like (a : array3 Z) : array3 bool :=
  Array3 (a3_shape a) (fun _ _ _ => false).

(** [mask[i] |= arr[i] == nodata] *)
Definition mask_band_eq (mask : array3 bool) (arr : array3 Z) (i : nat) (nodata : Z)
  : exn + array3 bool :=
  let '(nb, _, _) := a3_shape mask in
  if i <? nb then
    inr (Array3 (a3_shape mask)
           (fun b y x =>
              if b =? i then a3_at mask b y x || (a3_at arr b y x =? nodata)%Z
              else a3_at mask b y x))
  else inl (IndexError (MsgIndex i)).

(** [mask |= alpha == 0], the two-axis [alpha] broadcast over the bands *)
Definition mask_alpha_zero (mask : array3 bool) (alpha : array2 Z) : array3 bool :=
  Array3 (a3_shape mask)
    (fun b y x => a3_at mask b y x || (a2_at alpha y x =? 0)%Z).

(** [np.moveaxis(arr, 0, destination)] on three axes: a negative
    destination counts from the end. *)
Definition moveaxis3 {A} (a : array3 A) (destination : Z) : exn + array3 A :=
  let '(nb, h, w) := a3_shape a in
  let d := (if destination <? 0 then destination + 3 else destination)%Z in
  if (d =? 0)%Z then inr a
  else if (d =? 1)%Z then inr (Array3 (h, nb, w) (fun y b x => a3_at a b y x))
  else if (d =? 2)%Z then inr (Array3 (h, w, nb) (fun y x b => a3_at a b y x))
  else inl (AxisError (MsgAxis destination)).

Definition moveaxis (arr : array) (destination : Z) : exn + array :=
  match arr with
  | Plain a =>
      match moveaxis3 (nd_values a) destination with
      | inl e => inl e
      | inr v => inr (Plain (NdArray (nd_dtype a) v))
      end
  | MaskedArray d m =>
      match moveaxis3 (nd_values d) destination, moveaxis3 m destination with
      | inr v, inr m' => inr (MaskedArray (NdArray (nd_dtype d) v) m')
      | inl e, _ => inl e
      | _, inl e => inl e
      end
  end.

Definition arr_data (arr : array) : ndarray :=
  match arr with Plain a => a | MaskedArray d _ => d end.

Definition arr_mask (arr : array) : option (array3 bool) :=
  match arr with Plain _ => None | MaskedArray _ m => Some m end.

Definition arr_shape (arr : array) : shape3 := a3_shape (nd_values (arr_data arr)).
Definition arr_dtype (arr : array) : string := nd_dtype (arr_data arr).

(** ** Exceptions in pure code *)

Definition bind_sum {A B} (r : exn + A) (k : A -> exn + B) : exn + B :=
  match r with
  | inl e => inl e
  | inr a => k a
  end.

Notation "x <~ c1 ;; c2" := (bind_sum c1 (fun x => c2))
  (at level 100, c1 at next level, right associativity).

(** A [for] loop whose body may raise: the first exception ends it. *)
Fixpoint for_each {A B} (body : A -> B -> exn + A) (a : A) (l : list B) : exn + A :=
  match l with
  | [] => inr a
  | x :: l' => a' <~ body a x ;; for_each body a' l'
  end.

(** A list comprehension whose element expression may raise. *)
Fixpoint comprehension {A B} (f : A -> exn + B) (l : list A) : exn + list B :=
  match l with
  | [] => inr []
  | x :: l' => y <~ f x ;; ys <~ comprehension f l' ;; inr (y :: ys)
  end.

(** ** Stack buffers *)

(** An item of the stack: a Scene, or the SceneCollection of a
    [flatten] group of more than one Scene. *)
Inductive item :=
| ItemScene (scene : Scene)
| ItemCollection (sc : list Scene).

(** [(len(scenes),) + arr.shape] buffers from [np.empty]: a slot per
    item, [None] while the memory of the slot has not been written. *)
Record buffer (A : Type) := Buffer {
  buf_shape : nat * shape3;
  buf_slots : list (option (array3 A));
}.
Arguments Buffer {A} _ _.
Arguments buf_shape {A} _.
Arguments buf_slots {A} _.

Definition np_empty {A} (stack_shape : nat * shape3) : buffer A :=
  Buffer stack_shape (replicate (fst stack_shape) None).

(** NumPy broadcasting of a three-axis value into a slot: an axis of
    the value fits when it has the length of the slot's or length 1. *)
Definition broadcast3 {A} (dst : shape3) (a : array3 A) : exn + array3 A :=
  let '(nb, h, w) := a3_shape a in
  let '(nb', h', w') := dst in
  let fits (d d' : nat) := (d =? d') || (d =? 1) in
  let pick (d d' i : nat) := if d =? d' then i else 0 in
  if fits nb nb' && fits h h' && fits w w'
  then inr (Array3 dst (fun b y x => a3_at a (pick nb nb' b) (pick h h' y) (pick w w' x)))
  else inl (ValueError (MsgBroadcast (a3_shape a) dst)).

(** [buf[i] = a] on a NumPy buffer. *)
Definition setitem {A} (buf : buffer A) (i : nat) (a : array3 A) : exn + buffer A :=
  if i <? fst (buf_shape buf) then
    v <~ (if bool_decide (a3_shape a = snd (buf_shape buf)) then inr a
          else broadcast3 (snd (buf_shape buf)) a) ;;
    inr (Buffer (buf_shape buf) (<[i := Some v]> (buf_slots buf)))
  else inl (IndexError (MsgIndex i)).

(** [l[i] = x] on a Python list. *)
Definition list_setitem {A} (l : list A) (i : nat) (x : A) : exn + list A :=
  if i <? length l then inr (<[i := x]> l) else inl (IndexError (MsgIndex i)).

(** Whether [concurrent.futures] can be imported and, when it can, the
    order in which the submitted futures complete
    ([futures.as_completed]). *)
Inductive futures_env :=
| FuturesUnavailable
| FuturesAvailable (completion : list nat).

(** The stacked array [stack] returns. *)
Inductive stack_array :=
| StackPlain (dtype : string) (data : buffer Z)
| StackMasked (dtype : string) (data : buffer Z) (mask : buffer bool).

Definition stack_result : Type := option stack_array * option (list (option raster_meta)).

(** ** Collaborators *)

(** The keyword arguments [stack] hands to each per-item fetch. *)
Record fetch_kwargs := Kwargs {
  kw_mask_nodata : bool;
  kw_mask_alpha : bool;
  kw_bands_axis : Z;
  kw_raster_info : bool;
}.

(** What a fetch returns: [arr], or [(arr, info)] when [raster_info]. *)
Definition fetched : Type := array * option raster_meta.

(** The methods this module calls on other classes, and the element
    cast NumPy applies when it stores into a buffer of another dtype.
    [_bands_to_list] returns a list of its own (the caller's sequence is
    never the one [mosaic] appends to); [_common_data_type_of_bands]
    reads the scene's properties and sends nothing. *)
Class Collaborators := {
  _bands_to_list : bands_arg -> exn + list string;
  _common_data_type_of_bands : Scene -> list string -> exn + string;
  Scene_ndarray : Scene -> list string -> GeoContext -> fetch_kwargs -> M fetched;
  groupby : list Scene -> list predicate -> exn + list (string * list Scene);
  raster_client_ndarray : raster_args -> exn + (raster_array * raster_meta);
  np_cast : string -> string -> Z -> Z;
}.

Section SceneCollection.

Context `{Collaborators}.

(** ** [SceneCollection._common_data_type] *)

Fixpoint check_data_types (common_data_type : option string) (i : nat)
    (data_types : list string) : exn + option string :=
  match data_types with
  | [] => inr common_data_type
  | data_type :: rest =>
      match common_data_type with
      | None => check_data_types (Some data_type) (S i) rest
      | Some common =>
          if String.eqb data_type common
          then check_data_types common_data_type (S i) rest
          else inl (ValueError (MsgDtypeMismatch i data_type common))
      end
  end.

Definition _common_data_type (self : list Scene) (bands : list string)
  : exn + option string :=
  data_types <~ comprehension (fun scene => _common_data_type_of_bands scene bands) self ;;
  check_data_types None 0 data_types.

(** ** [SceneCollection.mosaic] *)

(** [if not (-3 < bands_axis < 3)] *)
Definition valid_bands_axis (bands_axis : Z) : bool :=
  ((-3 <? bands_axis) && (bands_axis <? 3))%Z.

(** The [if mask_alpha:] block on the band list: the bands to request
    and [drop_alpha] (unbound in the source when [mask_alpha] is false,
    where it is never read). *)
Definition mosaic_alpha_bands (mask_alpha : bool) (bands : list string)
  : exn + (list string * bool) :=
  if mask_alpha then
    match list_find (fun b => b = "alpha") bands with
    | None => inr (bands ++ ["alpha"], true)
    | Some (alpha_i, _) =>
        if alpha_i =? length bands - 1 then inr (bands, false)
        else inl (ValueError MsgAlphaNotLast)
    end
  else inr (bands, false).

(** The [try: ... except NotFoundError ... except BadRequestError] call. *)
Definition raster_call (full_raster_args : raster_args) : M (raster_array * raster_meta) :=
  ([RasterCall full_raster_args],
   match raster_client_ndarray full_raster_args with
   | inl (NotFoundError _) =>
       inl (NotFoundError (MsgIdsNotFound (ra_inputs full_raster_args)))
   | inl (BadRequestError e) =>
       inl (BadRequestError (MsgBadRequest e full_raster_args))
   | r => r
   end).

(** [band_nodata_values[bandname].add(scene_bands[bandname].get('nodata'))];
    [band_nodata_values] is a [defaultdict(set)]. *)
Definition add_nodata_value (scene : Scene)
    (band_nodata_values : gmap string (gset (option Z))) (bandname : string)
  : exn + gmap string (gset (option Z)) :=
  match scene_bands scene !! bandname with
  | None => inl (KeyError bandname)
  | Some props =>
      inr (<[bandname :=
             {[band_nodata props]} ∪ default ∅ (band_nodata_values !! bandname)]>
           band_nodata_values)
  end.

(** [for scene in self: for bandname in bands: ...] *)
Definition collect_nodata_values (self : list Scene) (bands : list string)
  : exn + gmap string (gset (option Z)) :=
  for_each (fun band_nodata_values scene =>
              for_each (add_nodata_value scene) band_nodata_values bands) ∅ self.

(** [for i, bandname in enumerate(bands): for nodata in
    band_nodata_values[bandname]: if nodata is not None: mask[i] |=
    arr[i] == nodata], from index [i] on. *)
Fixpoint mask_nodata_bands (band_nodata_values : gmap string (gset (option Z)))
    (arr : array3 Z) (i : nat) (bands : list string) (mask : array3 bool)
  : exn + array3 bool :=
  match bands with
  | [] => inr mask
  | bandname :: rest =>
      mask' <~ for_each (fun mask nodata =>
                 match nodata with
                 | None => inr mask
                 | Some v => mask_band_eq mask arr i v
                 end) mask (elements (default ∅ (band_nodata_values !! bandname))) ;;
      mask_nodata_bands band_nodata_values arr (S i) rest mask'
  end.

(** The [if mask_nodata or mask_alpha:] block; [bands] is the requested
    list (with the appended alpha when [drop_alpha]). *)
Definition mosaic_mask (self : list Scene) (bands : list string) (drop_alpha : bool)
    (mask_nodata mask_alpha : bool) (arr : ndarray) : exn + array :=
  r <~
     (if mask_alpha then
        alpha <~ last_band (nd_values arr) ;;
        if drop_alpha
        then inr (Some alpha,
                  NdArray (nd_dtype arr) (drop_last_band (nd_values arr)),
                  removelast bands)
        else inr (Some alpha, arr, bands)
      else inr (None, arr, bands)) ;;
  let '(alpha, arr, bands) := r in
  let mask := zeros_like (nd_values arr) in
  mask <~ (if mask_nodata then
             band_nodata_values <~ collect_nodata_values self bands ;;
             mask_nodata_bands band_nodata_values (nd_values arr) 0 bands mask
           else inr mask) ;;
  let mask := match alpha with
              | Some alpha => mask_alpha_zero mask alpha
              | None => mask
              end in
  inr (MaskedArray arr mask).

(** [full_raster_args] *)
Definition mosaic_raster_args (self : list Scene) (bands : list string)
    (common_data_type : option string) (ctx : GeoContext) : raster_args :=
  {| ra_inputs := map scene_id self;
     ra_order := "gdal";
     ra_bands := bands;
     ra_scales := None;
     ra_data_type := common_data_type;
     ra_params := ctx_raster_params ctx |}.

(** Everything after the two guards on [self] and [bands_axis]. *)
Definition mosaic_load (self : list Scene) (bands : bands_arg) (ctx : GeoContext)
    (mask_nodata mask_alpha : bool) (bands_axis : Z) (raster_info : bool)
  : M fetched :=
  bands <- lift (_bands_to_list bands) ;;
  ba <- lift (mosaic_alpha_bands mask_alpha bands) ;;
  let '(bands, drop_alpha) := ba in
  common_data_type <- lift (_common_data_type self bands) ;;
  let full_raster_args := mosaic_raster_args self bands common_data_type ctx in
  r <- raster_call full_raster_args ;;
  let '(arr, info) := r in
  let arr := as_3d arr in
  arr <- lift (if mask_nodata || mask_alpha
               then mosaic_mask self bands drop_alpha mask_nodata mask_alpha arr
               else inr (Plain arr)) ;;
  arr <- lift (if (bands_axis =? 0)%Z then inr arr else moveaxis arr bands_axis) ;;
  ret (arr, if raster_info then Some info else None).

Definition mosaic (self : list Scene) (bands : bands_arg) (ctx : GeoContext)
    (mask_nodata mask_alpha : bool) (bands_axis : Z) (raster_info : bool)
  : M fetched :=
  if length self =? 0 then raise (ValueError MsgEmptyCollection)
  else if negb (valid_bands_axis bands_axis)
  then raise (ValueError (MsgInvalidBandsAxis bands_axis))
  else mosaic_load self bands ctx mask_nodata mask_alpha bands_axis raster_info.

(** ** [SceneCollection.stack] *)

(** [full_stack[i] = a]: the values are cast to the dtype of the buffer. *)
Definition setitem_cast (dtype : string) (buf : buffer Z) (i : nat) (a : ndarray)
  : exn + buffer Z :=
  setitem buf i
    (if String.eqb (nd_dtype a) dtype then nd_values a
     else Array3 (a3_shape (nd_values a))
            (fun b y x => np_cast (nd_dtype a) dtype (a3_at (nd_values a) b y x))).

(** The local variables the loop over [threaded_ndarrays()] updates;
    [full_stack] carries the dtype it was allocated with. *)
Record stack_state := StackState {
  full_stack : option (string * buffer Z);
  mask : option (buffer bool);
  raster_infos : list (option raster_meta);
}.

(** The body of [for i, arr in threaded_ndarrays():], for a stack of
    [n] items. *)
Definition place (n : nat) (raster_info : bool) (st : stack_state)
    (i : nat) (result : fetched) : exn + stack_state :=
  let '(arr, raster_meta) := result in
  raster_infos <~ (if raster_info then list_setitem (raster_infos st) i raster_meta
                   else inr (raster_infos st)) ;;
  let '(dtype, full_stack, mask) :=
    match full_stack st with
    | None =>
        let stack_shape := (n, arr_shape arr) in
        (arr_dtype arr, np_empty stack_shape,
         match arr with
         | MaskedArray _ _ => Some (np_empty stack_shape)
         | Plain _ => mask st
         end)
    | Some (dtype, full_stack) => (dtype, full_stack, mask st)
    end in
  match arr with
  | MaskedArray data arr_mask =>
      full_stack <~ setitem_cast dtype full_stack i data ;;
      match mask with
      | None => inl (TypeError MsgNoneItemAssignment)
      | Some mask =>
          mask <~ setitem mask i arr_mask ;;
          inr (StackState (Some (dtype, full_stack)) (Some mask) raster_infos)
      end
  | Plain a =>
      full_stack <~ setitem_cast dtype full_stack i a ;;
      inr (StackState (Some (dtype, full_stack)) mask raster_infos)
  end.

(** [data_loader(scene_or_scenecollection, bands, ctx, **kwargs)()] *)
Definition data_loader (scene_or_scenecollection : item) (bands : list string)
    (ctx : GeoContext) (kwargs : fetch_kwargs) : M fetched :=
  match scene_or_scenecollection with
  | ItemCollection sc =>
      mosaic sc (BandsSeq bands) ctx (kw_mask_nodata kwargs) (kw_mask_alpha kwargs)
        (kw_bands_axis kwargs) (kw_raster_info kwargs)
  | ItemScene scene => Scene_ndarray scene bands ctx kwargs
  end.

(** The serial branch: item [i] is fetched, yielded and placed before
    item [i + 1] is fetched. *)
Fixpoint serial_loop (n : nat) (raster_info : bool) (i : nat)
    (loaders : list (M fetched)) (st : stack_state) : M stack_state :=
  match loaders with
  | [] => ret st
  | loader :: rest =>
      result <- loader ;;
      st' <- lift (place n raster_info st i result) ;;
      serial_loop n raster_info (S i) rest st'
  end.

(** The pool branch, consumer side: results are taken in completion
    order; [future.result()] re-raises the exception of its loader. *)
Fixpoint completed_loop (n : nat) (raster_info : bool)
    (results : list (exn + fetched)) (completion : list nat) (st : stack_state)
  : exn + stack_state :=
  match completion with
  | [] => inr st
  | i :: rest =>
      match results !! i with
      | None => inl (KeyError "future") (* not a submitted future *)
      | Some (inl e) => inl e
      | Some (inr result) =>
          st' <~ place n raster_info st i result ;;
          completed_loop n raster_info results rest st'
      end
  end.

(** The pool branch: every loader is submitted and runs to its end
    (leaving the [with] block waits for all of them), so all their
    requests are sent; the log lists them in submission order. *)
Definition pool_loop (n : nat) (raster_info : bool) (max_workers : option Z)
    (completion : list nat) (loaders : list (M fetched)) (st : stack_state)
  : M stack_state :=
  _ <- match max_workers with
       | Some w => if (w <=? 0)%Z then raise (ValueError MsgMaxWorkers) else ret tt
       | None => ret tt
       end ;;
  (concat (map calls loaders),
   completed_loop n raster_info (map outcome loaders) completion st).

(** [scenes]: the collection itself, or its [flatten] groups. *)
Definition stack_items (self : list Scene) (flatten : option flatten_arg)
  : exn + list item :=
  match flatten with
  | Some flatten =>
      let flatten := match flatten with
                     | FlattenOne p => [p]
                     | FlattenSeq ps => ps
                     end in
      groups <~ groupby self flatten ;;
      comprehension (fun g : string * list Scene =>
        match snd g with
        | [] => inl (IndexError (MsgIndex 0))
        | [scene] => inr (ItemScene scene)
        | sc => inr (ItemCollection sc)
        end) groups
  | None => inr (map ItemScene self)
  end.

(** The bands whose dtypes [stack] pre-checks: alpha is appended for
    the check when masking needs it, and popped again after it. *)
Definition stack_check_bands (mask_nodata mask_alpha : bool) (bands : list string)
  : list string :=
  if (mask_nodata || mask_alpha) && negb (bool_decide ("alpha" ∈ bands))
  then bands ++ ["alpha"] else bands.

(** [kwargs] as handed to every loader. *)
Definition stack_kwargs (mask_nodata mask_alpha : bool) (bands_axis : Z)
    (raster_info : bool) : fetch_kwargs :=
  Kwargs mask_nodata mask_alpha
    (if (0 <? bands_axis)%Z then (bands_axis - 1)%Z else bands_axis) raster_info.

(** The [return] of [stack]: [full_stack] is still [None] when there
    was no item. *)
Definition stack_return (raster_info : bool) (st : stack_state) : stack_result :=
  (match full_stack st, mask st with
   | None, _ => None
   | Some (dtype, data), None => Some (StackPlain dtype data)
   | Some (dtype, data), Some mask => Some (StackMasked dtype data mask)
   end,
   if raster_info then Some (raster_infos st) else None).

(** Everything after the two guards on [self] and [bands_axis]. *)
Definition stack_load (self : list Scene) (bands : bands_arg) (ctx : GeoContext)
    (flatten : option flatten_arg) (mask_nodata mask_alpha : bool) (bands_axis : Z)
    (raster_info : bool) (max_workers : option Z) (futures : futures_env)
  : M stack_result :=
  let kwargs := stack_kwargs mask_nodata mask_alpha bands_axis raster_info in
  scenes <- lift (stack_items self flatten) ;;
  let st := StackState None None
              (if raster_info then replicate (length scenes) None else []) in
  bands <- lift (_bands_to_list bands) ;;
  _ <- lift (_common_data_type self (stack_check_bands mask_nodata mask_alpha bands)) ;;
  let loaders := map (fun s => data_loader s bands ctx kwargs) scenes in
  st <- match futures with
        | FuturesUnavailable => serial_loop (length scenes) raster_info 0 loaders st
        | FuturesAvailable completion =>
            pool_loop (length scenes) raster_info max_workers completion loaders st
        end ;;
  ret (stack_return raster_info st).

Definition stack (self : list Scene) (bands : bands_arg) (ctx : GeoContext)
    (flatten : option flatten_arg) (mask_nodata mask_alpha : bool) (bands_axis : Z)
    (raster_info : bool) (max_workers : option Z) (futures : futures_env)
  : M stack_result :=
  if length self =? 0 then raise (ValueError MsgEmptyCollection)
  else if ((bands_axis =? 0) || (bands_axis =? -4))%Z
  then raise (NotImplementedError MsgStackBandsAxis)
  else stack_load self bands ctx flatten mask_nodata mask_alpha bands_axis
         raster_info max_workers futures.

(** ** Vocabulary of the statements *)

(** The per-scene data types of [bands] are resolved for every scene
    and are not all the same. *)
Definition inconsistent_data_types (self : list Scene) (bands : list string) : Prop :=
  exists data_types d d',
    comprehension (fun scene => _common_data_type_of_bands scene bands) self
      = inr data_types
    /\ d ∈ data_types /\ d' ∈ data_types /\ d ≠ d'.

(** Some scene of [self] declares [v] as the nodata value of the band
    called [bandname]. *)
Definition declares_nodata (self : list Scene) (bandname : string) (v : Z) : Prop :=
  exists scene props,
    scene ∈ self /\ scene_bands scene !! bandname = Some props
    /\ band_nodata props = Some v.

(** Every scene of [self] has an entry for every band of [bands]. *)
Definition bands_declared (self : list Scene) (bands : list string) : Prop :=
  forall scene bandname,
    scene ∈ self -> bandname ∈ bands -> is_Some (scene_bands scene !! bandname).

(** The dtype, the shape and the shape of the mask of a fetched array. *)
Definition layout (arr : array) : string * shape3 * option shape3 :=
  (arr_dtype arr, arr_shape arr, a3_shape <$> arr_mask arr).

(** The results have one dtype and one shape, and are all plain or all
    masked with a mask of the shape of the data. *)
Definition uniform (dtype : string) (shape : shape3) (masked : bool)
    (results : list fetched) : Prop :=
  Forall (fun r => layout (fst r) = (dtype, shape, if masked then Some shape else None))
    results.

(** The slot a result fills in [full_stack] and in [mask]. *)
Definition data_slot (r : fetched) : option (array3 Z) :=
  Some (nd_values (arr_data (fst r))).
Definition mask_slot (r : fetched) : option (array3 bool) := arr_mask (fst r).

(** The slots of a buffer once the results of the items [placed] have
    been placed. *)
Definition filled {X} (slot : fetched -> option X) (results : list fetched)
    (placed : list nat) : list (option X) :=
  imap (fun i r => if bool_decide (i ∈ placed) then slot r else None) results.

(** The loop variables of [stack] once the results of the items [placed]
    have been placed. *)
Definition state_after (dtype : string) (shape : shape3) (masked raster_info : bool)
    (results : list fetched) (placed : list nat) : stack_state :=
  let n := length results in
  match placed with
  | [] => StackState None None (if raster_info then replicate n None else [])
  | _ =>
      StackState
        (Some (dtype, Buffer (n, shape) (filled data_slot results placed)))
        (if masked then Some (Buffer (n, shape) (filled mask_slot results placed))
         else None)
        (if raster_info then filled snd results placed else [])
  end.

(** The stack that holds the array of item [i] at position [i]. *)
Definition stacked (dtype : string) (shape : shape3) (masked : bool)
    (results : list fetched) : stack_array :=
  let n := length results in
  if masked
  then StackMasked dtype (Buffer (n, shape) (map data_slot results))
         (Buffer (n, shape) (map mask_slot results))
  else StackPlain dtype (Buffer (n, shape) (map data_slot results)).

Definition stack_data (a : stack_array) : buffer Z :=
  match a with
  | StackPlain _ data => data
  | StackMasked _ data _ => data
  end.

Definition stack_mask (a : stack_array) : option (buffer bool) :=
  match a with
  | StackPlain _ _ => None
  | StackMasked _ _ mask => Some mask
  end.

(** The item whose result the loop of [stack] takes first. *)
Definition first_taken (futures : futures_env) : option nat :=
  match futures with
  | FuturesUnavailable => Some 0
  | FuturesAvailable completion => head completion
  end.

(** [a'] is [a] with its first axis moved to the innermost position. *)
Definition axis_moved_last {A} (a a' : array3 A) : Prop :=
  (let '(nb, h, w) := a3_shape a in a3_shape a' = (h, w, nb))
  /\ forall b y x, a3_at a' y x b = a3_at a b y x.

Definition band_axis_moved_last (arr arr' : array) : Prop :=
  arr_dtype arr' = arr_dtype arr
  /\ axis_moved_last (nd_values (arr_data arr)) (nd_values (arr_data arr'))
  /\ match arr_mask arr, arr_mask arr' with
     | Some m, Some m' => axis_moved_last m m'
     | None, None => True
     | _, _ => False
     end.

(** [ThreadPoolExecutor] accepts [max_workers]. *)
Definition workers_ok (max_workers : option Z) : Prop :=
  match max_workers with
  | Some w => (0 < w)%Z
  | None => True
  end.

(** The pool, when there is one, accepts [max_workers] and completes
    each of the [n] submitted futures once, in any order. *)
Definition futures_ok (n : nat) (max_workers : option Z) (futures : futures_env)
  : Prop :=
  match futures with
  | FuturesUnavailable => True
  | FuturesAvailable completion =>
      workers_ok max_workers /\ completion ≡ₚ seq 0 n
  end.

End SceneCollection.

(** ** A concrete environment

    Stand-ins for the collaborators, to run the definitions above on
    concrete collections. The methods of [Scene] and [Collection] are
    not part of the sources at hand; each stand-in follows what the
    design document and the docstrings say about the method. *)

Module Example.

(** Modelled from the spec: [Scene._bands_to_list] is not in the
    sources. The bands are "a single string of band names separated by
    spaces, or a sequence of band names" (docstring of [stack]), and
    "requested band names [are] non-empty". *)
Fixpoint split_spaces (s : string) (word : string) : list string :=
  match s with
  | EmptyString => [word]
  | String c s' =>
      if Ascii.eqb c " "%char then word :: split_spaces s' EmptyString
      else split_spaces s' (word +:+ String c EmptyString)
  end.

Definition bands_to_list (bands : bands_arg) : exn + list string :=
  match bands with
  | BandsStr s => inr (split_spaces s EmptyString)
  | BandsSeq [] => inl (ValueError (MsgText "No bands specified to load"))
  | BandsSeq l => inr l
  end.

(** Modelled from the spec: [Scene._common_data_type_of_bands] is not
    in the sources. "common_data_type(band_list) -> DataType, raising
    ValueError if a requested band is absent from this scene's catalog
    entry"; how bands of different types combine is not said, and this
    stand-in raises on them. *)
Fixpoint common_data_type_of_bands_from (common : option string)
    (scene : Scene) (bands : list string) : exn + string :=
  match bands with
  | [] => match common with
          | Some dtype => inr dtype
          | None => inl (ValueError (MsgText "no bands"))
          end
  | band :: rest =>
      match scene_bands scene !! band with
      | None => inl (ValueError (MsgText ("band not available: " +:+ band)))
      | Some props =>
          match common with
          | None => common_data_type_of_bands_from (Some (band_dtype props)) scene rest
          | Some dtype =>
              if String.eqb (band_dtype props) dtype
              then common_data_type_of_bands_from common scene rest
              else inl (ValueError (MsgText "bands of different dtypes"))
          end
      end
  end.

(** The raster service, an external collaborator. This one answers
    every request with a 2 x 2 raster per band:
    band [b] holds [b] at the pixels of its diagonal and [b + 1]
    elsewhere; one band comes back with two axes. *)
Definition pixel (b y x : nat) : Z :=
  if y =? x then Z.of_nat b else Z.of_nat (S b).

Definition raster_service (args : raster_args) : exn + (raster_array * raster_meta) :=
  let dtype := default "Float64" (ra_data_type args) in
  let info := [("order", ra_order args)] in
  match ra_bands args with
  | [_] => inr (Raster2D dtype (Array2 (2, 2) (pixel 0)), info)
  | bands => inr (Raster3D (NdArray dtype (Array3 (length bands, 2, 2) pixel)), info)
  end.

(** Modelled from the spec: [Collection.groupby] is not in the sources.
    "Group order becomes output order; within a group, original
    collection order is preserved". Here the key is that of the first
    predicate (an attribute path stands for the scene id) and groups
    come in order of first appearance. *)
Definition group_key (preds : list predicate) (scene : Scene) : string :=
  match preds with
  | PredFn f :: _ => f scene
  | _ => scene_id scene
  end.

Fixpoint add_to_group (key : string) (scene : Scene)
    (groups : list (string * list Scene)) : list (string * list Scene) :=
  match groups with
  | [] => [(key, [scene])]
  | (k, sc) :: rest =>
      if String.eqb k key then (k, sc ++ [scene]) :: rest
      else (k, sc) :: add_to_group key scene rest
  end.

Definition group_scenes (self : list Scene) (preds : list predicate)
  : exn + list (string * list Scene) :=
  inr (foldl (fun groups scene => add_to_group (group_key preds scene) scene groups)
         [] self).

(** The environment without [Scene.ndarray], to define it by [mosaic]. *)
Definition base : Collaborators := {|
  _bands_to_list := bands_to_list;
  _common_data_type_of_bands := common_data_type_of_bands_from None;
  Scene_ndarray := fun _ _ _ _ => raise (OtherError "NotImplemented" (MsgText ""));
  groupby := group_scenes;
  raster_client_ndarray := raster_service;
  np_cast := fun _ _ v => v;
|}.

(** Modelled from the spec: [Scene.ndarray] is not in the sources.
    "mosaic on a collection of one scene equals that scene's own
    single-item rasterization". *)
Definition scene_ndarray (scene : Scene) (bands : list string) (ctx : GeoContext)
    (kwargs : fetch_kwargs) : M fetched :=
  @mosaic base [scene] (BandsSeq bands) ctx (kw_mask_nodata kwargs)
    (kw_mask_alpha kwargs) (kw_bands_axis kwargs) (kw_raster_info kwargs).

Definition env : Collaborators := {|
  _bands_to_list := bands_to_list;
  _common_data_type_of_bands := common_data_type_of_bands_from None;
  Scene_ndarray := scene_ndarray;
  groupby := group_scenes;
  raster_client_ndarray := raster_service;
  np_cast := fun _ _ v => v;
|}.

Definition band (dtype : string) (nodata : option Z) : band_properties :=
  BandProperties dtype nodata.

(** Two scenes of one product, and one whose red band is wider. *)
Definition scene_a : Scene :=
  MkScene "a" (<["red" := band "UInt16" (Some 0%Z)]>
               (<["alpha" := band "UInt16" None]> ∅)).
Definition scene_b : Scene :=
  MkScene "b" (<["red" := band "UInt16" (Some 2%Z)]>
               (<["alpha" := band "UInt16" None]> ∅)).
Definition scene_wide : Scene :=
  MkScene "w" (<["red" := band "Float64" None]>
               (<["alpha" := band "Float64" None]> ∅)).

Definition ctx : GeoContext := MkGeoContext [("resolution", "120")].

Definition collection : list Scene := [scene_a; scene_b].

(** What the service answers when asked for red and alpha. *)
Definition answer : raster_array :=
  Raster3D (NdArray "UInt16" (Array3 (2, 2, 2) pixel)).
Definition answer_info : raster_meta := [("order", "gdal")].

(** The result of a loader that returns. *)
Definition result_of (loader : M fetched) : fetched :=
  match outcome loader with
  | inr r => r
  | inl _ => (Plain (NdArray "" (Array3 (0, 0, 0) (fun _ _ _ => 0%Z))), None)
  end.

(** [stack("red", ctx, bands_axis=1, raster_info=True)] on
    [collection]: its items and what their loaders fetch. *)
Definition items : list item := [ItemScene scene_a; ItemScene scene_b].
Definition kwargs : fetch_kwargs := stack_kwargs true true 1 true.
Definition results : list fetched :=
  map (fun s => result_of (@data_loader env s ["red"] ctx kwargs)) items.

(** A collection whose scenes disagree on the data type of red. *)
Definition mixed : list Scene := [scene_a; scene_wide].

(** [flatten] by a key all scenes share: one group. *)
Definition one_group : option flatten_arg :=
  Some (FlattenOne (PredFn (fun _ => "g"))).

End Example.

(** A call returns (it does not raise). *)
Definition returns {A} (m : M A) : bool :=
  match outcome m with
  | inr _ => true
  | inl _ => false
  end.

(** ** Vocabulary of the further statements *)

Section MoreVocabulary.

Context `{Collaborators}.

(** What [mosaic] does with the answer of the service: masking, the
    axis move and the [return]. *)
Definition mosaic_finish (self : list Scene) (bands : list string) (drop_alpha : bool)
    (mask_nodata mask_alpha : bool) (bands_axis : Z) (raster_info : bool)
    (raw : raster_array) (info : raster_meta) : exn + fetched :=
  arr <~ (if mask_nodata || mask_alpha
          then mosaic_mask self bands drop_alpha mask_nodata mask_alpha (as_3d raw)
          else inr (Plain (as_3d raw))) ;;
  arr <~ (if (bands_axis =? 0)%Z then inr arr else moveaxis arr bands_axis) ;;
  inr (arr, if raster_info then Some info else None).

(** The pre-flight checks of [mosaic] pass, with these intermediate
    values. *)
Definition mosaic_preflight (self : list Scene) (bands : bands_arg)
    (mask_alpha : bool) (bands_axis : Z)
    (bl req : list string) (drop_alpha : bool) (common : option string) : Prop :=
  self ≠ [] /\ (-3 < bands_axis < 3)%Z
  /\ _bands_to_list bands = inr bl
  /\ mosaic_alpha_bands mask_alpha bl = inr (req, drop_alpha)
  /\ _common_data_type self req = inr common.

(** The pre-flight checks of [stack] pass, with these intermediate
    values. *)
Definition stack_preflight (self : list Scene) (bands : bands_arg)
    (flatten : option flatten_arg) (mask_nodata mask_alpha : bool) (bands_axis : Z)
    (scenes : list item) (bl : list string) (common : option string) : Prop :=
  self ≠ [] /\ bands_axis ≠ 0%Z /\ bands_axis ≠ (-4)%Z
  /\ stack_items self flatten = inr scenes
  /\ _bands_to_list bands = inr bl
  /\ _common_data_type self (stack_check_bands mask_nodata mask_alpha bl) = inr common.

(** The predicates [stack] hands to [groupby]. *)
Definition flatten_predicates (flatten : flatten_arg) : list predicate :=
  match flatten with
  | FlattenOne p => [p]
  | FlattenSeq ps => ps
  end.

(** The item a [flatten] group of one or more scenes becomes. *)
Definition group_item (sc : list Scene) : item :=
  match sc with
  | [scene] => ItemScene scene
  | _ => ItemCollection sc
  end.

End MoreVocabulary.

(** [a'] is [a] with its first axis moved to the middle position. *)
Definition axis_moved_middle {A} (a a' : array3 A) : Prop :=
  (let '(nb, h, w) := a3_shape a in a3_shape a' = (h, nb, w))
  /\ forall b y x, a3_at a' y b x = a3_at a b y x.

(** * [descarteslabs/services/raster.py]: [Raster.raster], [Raster.ndarray]

    The HTTP session of the parent [Service], the [Places] client,
    [base64.b64decode] and [FeatureArray.deserialize] are collaborators
    ([Transport]). A call logs the requests it sends, in order. Numbers
    of a request (resolution, bounds, ...) are passed through untouched
    and kept as written. *)

Module RasterService.

Definition number := string.

(** The keyword arguments of [raster] and [ndarray] ([output_format] is
    read by [raster] only, [order] by [ndarray] only). *)
Record kwargs := Kwargs {
  inputs : list string;
  bands : option (list string);
  scales : option (list (option (list number)));
  data_type : option string;
  output_format : string;
  srs : option string;
  dimensions : option (list number);
  resolution : option number;
  bounds : option (list number);
  bounds_srs : option string;
  shape : option string;
  location : option string;
  align_pixels : bool;
  resampler : option string;
  order : string;
}.

(** The [params] dict posted as JSON; [ndarray] sends no ['of']. *)
Record params := Params {
  p_keys : list string;
  p_bands : option (list string);
  p_scales : option (list (option (list number)));
  p_ot : option string;
  p_of : option string;
  p_srs : option string;
  p_resolution : option number;
  p_shape : option string;
  p_outputBounds : option (list number);
  p_outputBoundsSRS : option string;
  p_outsize : option (list number);
  p_targetAlignedPixels : bool;
  p_resampleAlg : option string;
}.

(** An entry of the JSON object of an answer: an object of strings
    (as ['files'], which maps file names to base64 text), or any other
    value, kept as written. *)
Inductive json_value :=
| JValue (repr : string)
| JObject (fields : gmap string string).

(** The same after [raster] decoded the files. *)
Inductive raster_value :=
| RValue (repr : string)
| RObject (fields : gmap string string)
| RFiles (files : gmap string (list Byte.byte)).

Definition kept (v : json_value) : raster_value :=
  match v with
  | JValue repr => RValue repr
  | JObject fields => RObject fields
  end.

(** A [requests] response. *)
Record response := Response {
  status_code : Z;
  text : string;
  json : exn + gmap string json_value;  (* r.json() *)
  content : list Byte.byte;             (* r.content *)
}.

Inductive request :=
| PlacesShape (location : string)       (* Places().shape(location, geom='low') *)
| Post (url : string) (body : params).  (* self.session.post(url, json=params, ...) *)

Inductive error :=
| RuntimeError (status_code : Z) (text : string)  (* "%s: %s" % (status, text) *)
| Raised (e : exn).

Class Transport := {
  session_post : string -> params -> exn + response;
  (** [json.dumps(Places().shape(location, geom='low')['geometry'])] *)
  places_geometry : string -> exn + string;
  b64decode : string -> exn + list Byte.byte;
  (** [FeatureArray.deserialize(content, base64.b64decode)], an array
      of axes (band, row, column) *)
  deserialize : list Byte.byte -> exn + ndarray;
}.

Definition H (A : Type) : Type := list request * (error + A).

Definition hret {A} (a : A) : H A := ([], inr a).

Definition hbind {A B} (m : H A) (k : A -> H B) : H B :=
  match m with
  | (log, inl e) => (log, inl e)
  | (log, inr a) => (log ++ fst (k a), snd (k a))
  end.

Notation "x <<- c1 ;; c2" := (hbind c1 (fun x => c2))
  (at level 100, c1 at next level, right associativity).

(** A collaborator that sends nothing. *)
Definition local {A} (r : exn + A) : H A :=
  ([], match r with inl e => inl (Raised e) | inr a => inr a end).

Section Client.

Context `{Transport}.

(** The [Raster] object: its [url]. *)
Variable url : string.

Definition places_shape (l : string) : H (option string) :=
  ([PlacesShape l],
   match places_geometry l with
   | inl e => inl (Raised e)
   | inr geometry => inr (Some geometry)
   end).

Definition post (path : string) (body : params) : H response :=
  ([Post (url +:+ path) body],
   match session_post (url +:+ path) body with
   | inl e => inl (Raised e)
   | inr r => inr r
   end).

(** [if r.status_code != 200: raise RuntimeError(...)] *)
Definition check_status (r : response) : H unit :=
  if (status_code r =? 200)%Z then hret tt
  else ([], inl (RuntimeError (status_code r) (text r))).

Definition make_params (kw : kwargs) (shape : option string)
    (output : option string) : params :=
  {| p_keys := inputs kw;
     p_bands := bands kw;
     p_scales := scales kw;
     p_ot := data_type kw;
     p_of := output;
     p_srs := srs kw;
     p_resolution := resolution kw;
     p_shape := shape;
     p_outputBounds := bounds kw;
     p_outputBoundsSRS := bounds_srs kw;
     p_outsize := dimensions kw;
     p_targetAlignedPixels := align_pixels kw;
     p_resampleAlg := resampler kw |}.

(** [for k in json_resp['files'].keys(): json_resp['files'][k] =
    base64.b64decode(json_resp['files'][k])] *)
Definition decode_files (files : gmap string string)
  : exn + gmap string (list Byte.byte) :=
  for_each (fun (decoded : gmap string (list Byte.byte)) (kv : string * string) =>
              d <~ b64decode (snd kv) ;; inr (<[fst kv := d]> decoded))
    ∅ (map_to_list files).

(** [Raster.raster]; [if location:] holds for a non-empty string. *)
Definition raster (kw : kwargs) : H (gmap string raster_value) :=
  shape <<- match location kw with
            | Some (String c l) => places_shape (String c l)
            | _ => hret (shape kw)
            end ;;
  let params := make_params kw shape (Some (output_format kw)) in
  r <<- post "/raster" params ;;
  _ <<- check_status r ;;
  json_resp <<- local (json r) ;;
  files <<- local match json_resp !! "files" with
                  | None => inl (KeyError "files")
                  | Some (JValue _) =>
                      inl (OtherError "AttributeError" (MsgText "keys"))
                  | Some (JObject files) => inr files
                  end ;;
  decoded <<- local (decode_files files) ;;
  hret (<["files" := RFiles decoded]> (kept <$> json_resp)).

(** [fa.transpose((1, 2, 0))] *)
Definition transpose_120 {A} (a : array3 A) : array3 A :=
  let '(nb, h, w) := a3_shape a in
  Array3 (h, w, nb) (fun y x b => a3_at a b y x).

(** The request of [ndarray] and the decoding of its answer. *)
Definition feature_array (kw : kwargs) : H ndarray :=
  shape <<- match location kw with
            | Some l => places_shape l
            | None => hret (shape kw)
            end ;;
  let params := make_params kw shape None in
  r <<- post "/featurearray" params ;;
  _ <<- check_status r ;;
  local (deserialize (content r)).

(** [Raster.ndarray]; it returns [None] for an [order] it does not
    know. *)
Definition ndarray (kw : kwargs) : H (option ndarray) :=
  fa <<- feature_array kw ;;
  if String.eqb (order kw) "image"
  then hret (Some (NdArray (nd_dtype fa) (transpose_120 (nd_values fa))))
  else if String.eqb (order kw) "gdal" then hret (Some fa)
  else hret None.

End Client.

(** [kw] with another [shape], [location] or [order]. *)
Definition with_shape (s : option string) (kw : kwargs) : kwargs :=
  Kwargs (inputs kw) (bands kw) (scales kw) (data_type kw) (output_format kw)
    (srs kw) (dimensions kw) (resolution kw) (bounds kw) (bounds_srs kw)
    s (location kw) (align_pixels kw) (resampler kw) (order kw).

Definition with_location (l : option string) (kw : kwargs) : kwargs :=
  Kwargs (inputs kw) (bands kw) (scales kw) (data_type kw) (output_format kw)
    (srs kw) (dimensions kw) (resolution kw) (bounds kw) (bounds_srs kw)
    (shape kw) l (align_pixels kw) (resampler kw) (order kw).

Definition with_order (o : string) (kw : kwargs) : kwargs :=
  Kwargs (inputs kw) (bands kw) (scales kw) (data_type kw) (output_format kw)
    (srs kw) (dimensions kw) (resolution kw) (bounds kw) (bounds_srs kw)
    (shape kw) (location kw) (align_pixels kw) (resampler kw) o.

End RasterService.

(** A transport to run the client on: it answers 404 to a request
    without inputs and 200 otherwise; the stand-in for [b64decode]
    takes the bytes of the text, that of [deserialize] returns the
    2 x 2 raster of two bands of [Example.pixel]. *)
Module RasterExample.

Definition files : gmap string string :=
  <["a.tif" := "QQ=="]> (<["b.tif" := "Qg=="]> ∅).

Definition answer_json : gmap string RasterService.json_value :=
  <["files" := RasterService.JObject files]>
    (<["metadata" := RasterService.JValue "{}"]> ∅).

Definition post (url : string) (body : RasterService.params)
  : exn + RasterService.response :=
  match RasterService.p_keys body with
  | [] => inr (RasterService.Response 404 "no inputs" (inr ∅) [])
  | _ => inr (RasterService.Response 200 "OK" (inr answer_json) [])
  end.

Definition transport : RasterService.Transport := {|
  RasterService.session_post := post;
  RasterService.places_geometry := fun l => inr ("geometry of " +:+ l);
  RasterService.b64decode := fun s => inr (list_byte_of_string s);
  RasterService.deserialize :=
    fun _ => inr (NdArray "UInt16" (Array3 (2, 2, 2) Example.pixel));
|}.

Definition url : string := "https://raster".

Definition kw : RasterService.kwargs :=
  RasterService.Kwargs ["a"; "b"] (Some ["red"]) None None "GTiff" None None
    (Some "120") None None (Some "{}") None false None "image".

Definition no_inputs : RasterService.kwargs :=
  RasterService.Kwargs [] None None None "GTiff" None None None None None None None
    false None "image".

(** The same transport with a [b64decode] that rejects the text of
    [b.tif]. *)
Definition strict : RasterService.Transport := {|
  RasterService.session_post := post;
  RasterService.places_geometry := fun l => inr ("geometry of " +:+ l);
  RasterService.b64decode :=
    fun s => if String.eqb s "Qg=="
             then inl (OtherError "binascii.Error" (MsgText "Incorrect padding"))
             else inr (list_byte_of_string s);
  RasterService.deserialize :=
    fun _ => inr (NdArray "UInt16" (Array3 (2, 2, 2) Example.pixel));
|}.

(** [kw] with a named location, and with an order [ndarray] does not
    know. *)
Definition located : RasterService.kwargs :=
  RasterService.with_location (Some "iowa") kw.

Definition band_interleaved : RasterService.kwargs :=
  RasterService.with_order "bip" kw.

(** What [raster] returns for [kw]. *)
Definition decoded : gmap string (list Byte.byte) :=
  <["a.tif" := list_byte_of_string "QQ=="]>
    (<["b.tif" := list_byte_of_string "Qg=="]> ∅).

Definition result : gmap string RasterService.raster_value :=
  <["files" := RasterService.RFiles decoded]>
    (<["metadata" := RasterService.RValue "{}"]> ∅).

End RasterExample.

(** Further collaborators and collections: a raster service that
    refuses every request with [e], a scene without a red band, and
    what the service of [Example] answers when asked for red alone. *)
Module MoreExample.

Definition refusing_base (e : exn) : Collaborators := {|
  _bands_to_list := Example.bands_to_list;
  _common_data_type_of_bands := Example.common_data_type_of_bands_from None;
  Scene_ndarray := fun _ _ _ _ => raise (OtherError "NotImplemented" (MsgText ""));
  groupby := Example.group_scenes;
  raster_client_ndarray := fun _ => inl e;
  np_cast := fun _ _ v => v;
|}.

Definition refusing (e : exn) : Collaborators := {|
  _bands_to_list := Example.bands_to_list;
  _common_data_type_of_bands := Example.common_data_type_of_bands_from None;
  Scene_ndarray := fun scene bands ctx kwargs =>
    @mosaic (refusing_base e) [scene] (BandsSeq bands) ctx (kw_mask_nodata kwargs)
      (kw_mask_alpha kwargs) (kw_bands_axis kwargs) (kw_raster_info kwargs);
  groupby := Example.group_scenes;
  raster_client_ndarray := fun _ => inl e;
  np_cast := fun _ _ v => v;
|}.

Definition timed_out : exn := OtherError "ConnectionError" (MsgText "timed out").

Definition scene_no_red : Scene :=
  MkScene "n" (<["alpha" := Example.band "UInt16" None]> ∅).

(** A scene with a red band and no alpha band. *)
Definition scene_red_only : Scene :=
  MkScene "r" (<["red" := Example.band "UInt16" (Some 0%Z)]> ∅).

Definition red : array2 Z := Array2 (2, 2) (Example.pixel 0).
Definition red_answer : raster_array := Raster2D "UInt16" red.
Definition wide_answer : raster_array := Raster2D "Float64" red.

(** The request of [mosaic] for these bands of [Example.collection]. *)
Definition request (bands : list string) : raster_args :=
  mosaic_raster_args Example.collection bands (Some "UInt16") Example.ctx.

(** [mosaic("red", ctx, bands_axis=0, raster_info=True)] on
    [Example.collection]. *)
Definition major : M fetched :=
  @mosaic Example.env Example.collection (BandsStr "red") Example.ctx true true 0 true.

End MoreExample.

(** * Properties *)

Section Properties.

Context `{Collaborators}.

(** ** The call monad *)

Lemma bind_ret_l {A B} (a : A) (k : A -> M B) : bind (ret a) k = k a.
Proof. unfold bind, ret. by destruct (k a). Qed.

Lemma bind_lift_inr {A B} (a : A) (k : A -> M B) : bind (lift (inr a)) k = k a.
Proof. apply bind_ret_l. Qed.

Lemma bind_lift_inl {A B} (e : exn) (k : A -> M B) : bind (lift (inl e)) k = raise e.
Proof. reflexivity. Qed.

Lemma bind_raise {A B} (e : exn) (k : A -> M B) : bind (raise e) k = raise e.
Proof. reflexivity. Qed.

Lemma calls_raise {A} (e : exn) : calls (@raise A e) = [].
Proof. reflexivity. Qed.

(** ** The guards of [mosaic] and [stack] *)

Lemma length_eqb_0 {A} (l : list A) : l ≠ [] -> (length l =? 0) = false.
Proof. by destruct l. Qed.

Lemma valid_bands_axis_spec (bands_axis : Z) :
  valid_bands_axis bands_axis = true <-> (-3 < bands_axis < 3)%Z.
Proof. unfold valid_bands_axis. rewrite andb_true_iff, !Z.ltb_lt. lia. Qed.

Lemma mosaic_guards self bands ctx mask_nodata mask_alpha bands_axis raster_info :
  self ≠ [] -> valid_bands_axis bands_axis = true ->
  mosaic self bands ctx mask_nodata mask_alpha bands_axis raster_info
  = mosaic_load self bands ctx mask_nodata mask_alpha bands_axis raster_info.
Proof.
  intros Hne Hax. unfold mosaic. by rewrite (length_eqb_0 _ Hne), Hax.
Qed.

(** ** [_common_data_type] *)

Lemma check_data_types_differ common i data_types d :
  d ∈ data_types -> d ≠ common ->
  exists j data_type,
    check_data_types (Some common) i data_types
    = inl (ValueError (MsgDtypeMismatch j data_type common)).
Proof.
  revert i. induction data_types as [|dt rest IH]; intros i Hin Hd.
  - by apply elem_of_nil in Hin.
  - simpl. destruct (String.eqb dt common) eqn:E.
    + apply String.eqb_eq in E. subst dt.
      apply elem_of_cons in Hin as [->|Hin]; [done|]. by apply IH.
    + by exists i, dt.
Qed.

Lemma common_data_type_inconsistent self bands :
  inconsistent_data_types self bands ->
  exists i data_type common,
    _common_data_type self bands
    = inl (ValueError (MsgDtypeMismatch i data_type common)).
Proof.
  intros (dts & d & d' & Hdts & Hd & Hd' & Hne).
  unfold _common_data_type. rewrite Hdts. simpl.
  destruct dts as [|c rest]; [by apply elem_of_nil in Hd|]. simpl.
  destruct (decide (d = c)) as [->|Hdc].
  - apply elem_of_cons in Hd' as [->|Hd']; [done|].
    destruct (check_data_types_differ c 1 rest d') as (j & dt & E); [done|congruence|].
    by exists j, dt, c.
  - apply elem_of_cons in Hd as [->|Hd]; [done|].
    destruct (check_data_types_differ c 1 rest d) as (j & dt & E); [done..|].
    by exists j, dt, c.
Qed.

(** ** Alpha order *)

Lemma mosaic_alpha_not_last bands i :
  bands !! i = Some "alpha" -> i ≠ length bands - 1 ->
  mosaic_alpha_bands true bands = inl (ValueError MsgAlphaNotLast).
Proof.
  intros Hi Hlast. unfold mosaic_alpha_bands.
  destruct (list_find (fun b => b = "alpha") bands) as [[j b]|] eqn:E.
  - apply list_find_Some in E as (Hj & -> & Hmin).
    destruct (j =? length bands - 1) eqn:Ej; [|done].
    apply Nat.eqb_eq in Ej.
    apply lookup_lt_Some in Hi as Hlt.
    assert (i < j) as Hij by lia.
    by destruct (Hmin i "alpha" Hi Hij).
  - apply list_find_None in E. rewrite Forall_forall in E.
    destruct (E "alpha"); [|done]. by eapply list_elem_of_lookup_2.
Qed.

Lemma stack_guards self bands ctx flatten mask_nodata mask_alpha bands_axis
    raster_info max_workers futures :
  self ≠ [] -> bands_axis ≠ 0%Z -> bands_axis ≠ (-4)%Z ->
  stack self bands ctx flatten mask_nodata mask_alpha bands_axis raster_info
    max_workers futures
  = stack_load self bands ctx flatten mask_nodata mask_alpha bands_axis raster_info
      max_workers futures.
Proof.
  intros Hne H0 H4. unfold stack. rewrite (length_eqb_0 _ Hne).
  destruct (bands_axis =? 0)%Z eqn:E0; [lia|].
  destruct (bands_axis =? -4)%Z eqn:E4; [lia|]. done.
Qed.

(** ** Pre-flight errors *)

(** C8. On an empty SceneCollection both [stack] and [mosaic] raise
    [ValueError("This SceneCollection is empty")], the error the design
    document calls EmptyCollectionError, whatever the other arguments
    are, and no request is sent. *)
Theorem C8_empty_collection bands ctx flatten mask_nodata mask_alpha bands_axis
    raster_info max_workers futures :
  stack [] bands ctx flatten mask_nodata mask_alpha bands_axis raster_info
    max_workers futures = raise (ValueError MsgEmptyCollection)
  /\ mosaic [] bands ctx mask_nodata mask_alpha bands_axis raster_info
     = raise (ValueError MsgEmptyCollection)
  /\ spec_error_of (ValueError MsgEmptyCollection) = Some EmptyCollectionError.
Proof. done. Qed.

(** C9 (amended). On a non-empty SceneCollection, [stack] with
    [bands_axis = 0] raises [NotImplementedError], the error the design
    document calls UnsupportedAxisError, and no request is sent. On an
    empty collection the emptiness check comes first. *)
Theorem C9_stack_bands_axis_0 self bands ctx flatten mask_nodata mask_alpha
    raster_info max_workers futures (Hne : self ≠ []) :
  stack self bands ctx flatten mask_nodata mask_alpha 0 raster_info
    max_workers futures = raise (NotImplementedError MsgStackBandsAxis)
  /\ calls (stack self bands ctx flatten mask_nodata mask_alpha 0 raster_info
              max_workers futures) = []
  /\ spec_error_of (NotImplementedError MsgStackBandsAxis) = Some UnsupportedAxisError.
Proof. unfold stack. by rewrite (length_eqb_0 _ Hne). Qed.

(** C10. On a non-empty SceneCollection, [mosaic] with a [bands_axis]
    outside the open interval (-3, 3) raises [ValueError] and sends no
    request; every [bands_axis] strictly between -3 and 3 passes the
    check, and the call goes on to load. *)
Theorem C10_mosaic_bands_axis self bands ctx mask_nodata mask_alpha bands_axis
    raster_info (Hne : self ≠ []) :
  (~ (-3 < bands_axis < 3)%Z ->
     mosaic self bands ctx mask_nodata mask_alpha bands_axis raster_info
     = raise (ValueError (MsgInvalidBandsAxis bands_axis))
     /\ calls (mosaic self bands ctx mask_nodata mask_alpha bands_axis raster_info) = [])
  /\ ((-3 < bands_axis < 3)%Z ->
      valid_bands_axis bands_axis = true
      /\ mosaic self bands ctx mask_nodata mask_alpha bands_axis raster_info
         = mosaic_load self bands ctx mask_nodata mask_alpha bands_axis raster_info).
Proof.
  split.
  - intros Hout. unfold mosaic. rewrite (length_eqb_0 _ Hne).
    destruct (valid_bands_axis bands_axis) eqn:E; [|done].
    by apply valid_bands_axis_spec in E.
  - intros Hin. apply valid_bands_axis_spec in Hin. split; [done|].
    by apply mosaic_guards.
Qed.

(** C3 (amended). When the checks that come earlier pass ([stack]: a
    non-empty collection, a [bands_axis] other than 0 and -4, the
    [flatten] grouping and the band list; [mosaic]: a non-empty
    collection, a [bands_axis] in (-3, 3), the band list and the alpha
    order), every scene resolves the checked bands (the requested
    ones, with alpha appended when masking needs it) to a data type
    and these data types are not all the same, the call raises the
    [ValueError] of [_common_data_type], which the design document
    calls InconsistentDataTypeError, and no request is sent. A scene
    that does not resolve the bands raises its own error first. *)
Theorem C3_inconsistent_data_types self bands bl ctx
    (Hne : self ≠ []) (Hbands : _bands_to_list bands = inr bl) :
  (forall flatten scenes mask_nodata mask_alpha bands_axis raster_info max_workers futures,
     bands_axis ≠ 0%Z -> bands_axis ≠ (-4)%Z ->
     stack_items self flatten = inr scenes ->
     inconsistent_data_types self (stack_check_bands mask_nodata mask_alpha bl) ->
     exists i data_type common,
       stack self bands ctx flatten mask_nodata mask_alpha bands_axis raster_info
         max_workers futures
       = raise (ValueError (MsgDtypeMismatch i data_type common)))
  /\ (forall mask_nodata mask_alpha bands_axis raster_info checked drop_alpha,
       (-3 < bands_axis < 3)%Z ->
       mosaic_alpha_bands mask_alpha bl = inr (checked, drop_alpha) ->
       inconsistent_data_types self checked ->
       exists i data_type common,
         mosaic self bands ctx mask_nodata mask_alpha bands_axis raster_info
         = raise (ValueError (MsgDtypeMismatch i data_type common))).
Proof.
  split.
  - intros flatten scenes mn ma b ri mw fu H0 H4 Hitems Hinc.
    destruct (common_data_type_inconsistent _ _ Hinc) as (i & dt & c & E).
    exists i, dt, c. rewrite stack_guards by done. unfold stack_load.
    rewrite Hitems, bind_lift_inr, Hbands, bind_lift_inr, E. done.
  - intros mn ma b ri checked drop Hax Halpha Hinc.
    destruct (common_data_type_inconsistent _ _ Hinc) as (i & dt & c & E).
    exists i, dt, c. rewrite mosaic_guards by (done || by apply valid_bands_axis_spec).
    unfold mosaic_load.
    rewrite Hbands, bind_lift_inr, Halpha, bind_lift_inr, E. done.
Qed.

(** ** Alpha order in [stack] *)

Lemma outcome_bind_inl {A B} (m : M A) (k : A -> M B) e :
  outcome m = inl e -> outcome (bind m k) = inl e.
Proof. destruct m as [log [e'|a]]; unfold outcome; simpl; congruence. Qed.

Lemma stack_items_collection self flatten scenes sc :
  stack_items self flatten = inr scenes -> ItemCollection sc ∈ scenes -> sc ≠ [].
Proof.
  unfold stack_items. destruct flatten as [fl|].
  - destruct (groupby self _) as [e|groups]; [done|]. simpl.
    revert scenes. induction groups as [|[key g] groups IH]; intros scenes.
    + intros [= <-] Hin. by apply elem_of_nil in Hin.
    + simpl. destruct g as [|s1 [|s2 g]]; [done|..];
        (destruct (comprehension _ groups) as [e|items]; [done|]);
        simpl; intros [= <-] Hin;
        apply elem_of_cons in Hin as [Heq|Hin]; try by eapply IH.
      by injection Heq as ->.
  - intros [= <-] Hin. apply list_elem_of_fmap in Hin as (s & Hs & _). discriminate Hs.
Qed.

Lemma pool_loop_workers_ok n raster_info max_workers completion loaders st :
  workers_ok max_workers ->
  pool_loop n raster_info max_workers completion loaders st
  = (concat (map calls loaders),
     completed_loop n raster_info (map outcome loaders) completion st).
Proof.
  intros Hmw. unfold pool_loop. destruct max_workers as [w|]; [|by rewrite bind_ret_l].
  simpl in Hmw. destruct (w <=? 0)%Z eqn:E; [lia|by rewrite bind_ret_l].
Qed.

Lemma data_loader_alpha_not_last sc bl ctx kwargs i :
  sc ≠ [] -> valid_bands_axis (kw_bands_axis kwargs) = true ->
  kw_mask_alpha kwargs = true -> _bands_to_list (BandsSeq bl) = inr bl ->
  bl !! i = Some "alpha" -> i ≠ length bl - 1 ->
  data_loader (ItemCollection sc) bl ctx kwargs = raise (ValueError MsgAlphaNotLast).
Proof.
  intros Hne Hax Hma Hbl Hi Hlast. simpl.
  rewrite mosaic_guards by done. unfold mosaic_load.
  rewrite Hbl, bind_lift_inr, Hma, (mosaic_alpha_not_last _ _ Hi Hlast). done.
Qed.

(** C4 (amended). [mosaic] checks the alpha order only under
    [mask_alpha]: on a non-empty collection with a [bands_axis] in
    (-3, 3) and [mask_alpha=True], a band list holding alpha at a
    position other than the last raises [ValueError("Alpha must be the
    last band ...")], the design document's AlphaOrderError, before any
    request. [stack] has no alpha check of its own; with
    [mask_alpha=True] and a [bands_axis] among -2, -1, 1, 2 and 3 (an
    axis the nested [mosaic] accepts once [stack] has lowered a
    positive one by 1) it raises that error once its pre-flight checks
    pass (the [flatten] grouping, the band list, which [_bands_to_list]
    returns unchanged when handed over as a list, and one common data
    type), [max_workers] is one the pool accepts, and the first result
    its loop takes is that of a [flatten] group of several scenes,
    which is loaded by [mosaic]. *)
Theorem C4_alpha_not_last self bands bl ctx i
    (Hne : self ≠ []) (Hbands : _bands_to_list bands = inr bl)
    (Hi : bl !! i = Some "alpha") (Hlast : i ≠ length bl - 1) :
  (forall mask_nodata bands_axis raster_info,
     (-3 < bands_axis < 3)%Z ->
     mosaic self bands ctx mask_nodata true bands_axis raster_info
     = raise (ValueError MsgAlphaNotLast))
  /\ (forall flatten scenes k sc mask_nodata bands_axis raster_info max_workers
             futures common,
       bands_axis ≠ 0%Z -> (-3 < bands_axis <= 3)%Z ->
       stack_items self flatten = inr scenes ->
       _common_data_type self (stack_check_bands mask_nodata true bl) = inr common ->
       _bands_to_list (BandsSeq bl) = inr bl ->
       workers_ok max_workers ->
       first_taken futures = Some k -> scenes !! k = Some (ItemCollection sc) ->
       outcome (stack self bands ctx flatten mask_nodata true bands_axis raster_info
                  max_workers futures)
       = inl (ValueError MsgAlphaNotLast))
  /\ spec_error_of (ValueError MsgAlphaNotLast) = Some AlphaOrderError.
Proof.
  split; [|split; [|done]].
  - intros mn b ri Hax. apply valid_bands_axis_spec in Hax.
    rewrite mosaic_guards by done. unfold mosaic_load.
    by rewrite Hbands, bind_lift_inr, (mosaic_alpha_not_last _ _ Hi Hlast).
  - intros flatten scenes k sc mn b ri mw fu common H0 Hax Hitems Hcommon Hbl Hmw
      Hfirst Hk.
    assert (data_loader (ItemCollection sc) bl ctx (stack_kwargs mn true b ri)
            = raise (ValueError MsgAlphaNotLast)) as Hload.
    { eapply data_loader_alpha_not_last; eauto.
      - eapply stack_items_collection; [done|]. by eapply list_elem_of_lookup_2.
      - apply valid_bands_axis_spec. simpl. destruct (0 <? b)%Z eqn:E; lia. }
    rewrite stack_guards by (done || lia). unfold stack_load.
    rewrite Hitems, bind_lift_inr, Hbands, bind_lift_inr, Hcommon, bind_lift_inr.
    apply outcome_bind_inl.
    destruct fu as [|completion]; simpl in Hfirst.
    + injection Hfirst as <-. destruct scenes as [|it rest]; [done|].
      injection Hk as ->. cbn [map serial_loop].
      by rewrite Hload.
    + destruct completion as [|k' rest]; [done|]. injection Hfirst as ->.
      rewrite pool_loop_workers_ok by done. unfold outcome. cbn [snd completed_loop].
      rewrite !list_lookup_fmap, Hk. cbn [fmap option_fmap option_map]. cbv beta.
      by rewrite Hload.
Qed.

(** ** The final axis move of [mosaic] *)

Lemma bind_assoc {A B C} (m : M A) (f : A -> M B) (g : B -> M C) :
  bind (bind m f) g = bind m (fun a => bind (f a) g).
Proof.
  destruct m as [l [e|a]]; simpl; [done|].
  destruct (f a) as [l1 [e|b]]; simpl; [done|].
  destruct (g b) as [l2 r]. by rewrite app_assoc.
Qed.

Lemma bind_ext {A B} (m : M A) (k k' : A -> M B) :
  (forall a, k a = k' a) -> bind m k = bind m k'.
Proof. intros Hk. destruct m as [l [e|a]]; [done|]. simpl. by rewrite Hk. Qed.

Lemma moveaxis3_0 {A} (a : array3 A) : moveaxis3 a 0 = inr a.
Proof. unfold moveaxis3. by destruct (a3_shape a) as [[nb h] w]. Qed.

Lemma moveaxis_0 arr : moveaxis arr 0 = inr arr.
Proof.
  destruct arr as [[dt v]|[dt v] m]; simpl; by rewrite ?moveaxis3_0.
Qed.

Lemma moveaxis3_last {A} (a : array3 A) :
  exists a', moveaxis3 a (-1) = inr a' /\ axis_moved_last a a'.
Proof.
  unfold moveaxis3, axis_moved_last.
  destruct (a3_shape a) as [[nb h] w] eqn:E. simpl.
  by eexists.
Qed.

Lemma moveaxis_last arr :
  exists arr', moveaxis arr (-1) = inr arr' /\ band_axis_moved_last arr arr'.
Proof.
  destruct arr as [[dt v]|[dt v] m]; simpl.
  - destruct (moveaxis3_last v) as (v' & -> & Hv). by eexists.
  - destruct (moveaxis3_last v) as (v' & -> & Hv).
    destruct (moveaxis3_last m) as (m' & -> & Hm). by eexists.
Qed.

Lemma mosaic_load_moves self bands ctx mask_nodata mask_alpha bands_axis raster_info :
  mosaic_load self bands ctx mask_nodata mask_alpha bands_axis raster_info
  = (r <- mosaic_load self bands ctx mask_nodata mask_alpha 0 raster_info ;;
     arr <- lift (moveaxis (fst r) bands_axis) ;;
     ret (arr, snd r)).
Proof.
  unfold mosaic_load.
  destruct (_bands_to_list bands) as [e|bl]; [done|]. rewrite !bind_lift_inr.
  destruct (mosaic_alpha_bands mask_alpha bl) as [e|[bl' drop]]; [done|].
  rewrite !bind_lift_inr.
  destruct (_common_data_type self bl') as [e|common]; [done|].
  rewrite !bind_lift_inr, bind_assoc. apply bind_ext. intros [raw info].
  destruct (if mask_nodata || mask_alpha then _ else _) as [e|arr]; [done|].
  rewrite !bind_lift_inr. simpl (0 =? 0)%Z. cbv iota.
  rewrite !bind_lift_inr, bind_ret_l. cbn [fst snd].
  destruct (bands_axis =? 0)%Z eqn:E; [|done].
  apply Z.eqb_eq in E. subst bands_axis. by rewrite moveaxis_0.
Qed.

(** C5. For a [bands_axis] in (-3, 3), [mosaic] returns what it returns
    for [bands_axis=0] with [np.moveaxis(arr, 0, bands_axis)] applied
    last, to the already masked array; with [bands_axis=-1] the band
    axis of the band-major result becomes the innermost axis, and every
    value and every mask entry is kept. *)
Theorem C5_bands_axis_moved_last self bands ctx mask_nodata mask_alpha bands_axis
    raster_info (Hax : (-3 < bands_axis < 3)%Z) :
  mosaic self bands ctx mask_nodata mask_alpha bands_axis raster_info
  = (r <- mosaic self bands ctx mask_nodata mask_alpha 0 raster_info ;;
     arr <- lift (moveaxis (fst r) bands_axis) ;;
     ret (arr, snd r))
  /\ (forall log arr info,
       mosaic self bands ctx mask_nodata mask_alpha 0 raster_info
       = (log, inr (arr, info)) ->
       exists arr',
         mosaic self bands ctx mask_nodata mask_alpha (-1) raster_info
         = (log, inr (arr', info))
         /\ band_axis_moved_last arr arr').
Proof.
  assert (forall b, (-3 < b < 3)%Z ->
            mosaic self bands ctx mask_nodata mask_alpha b raster_info
            = (r <- mosaic self bands ctx mask_nodata mask_alpha 0 raster_info ;;
               arr <- lift (moveaxis (fst r) b) ;;
               ret (arr, snd r))) as Hmove.
  { intros b Hb. unfold mosaic. destruct (length self =? 0); [done|].
    apply valid_bands_axis_spec in Hb. rewrite Hb. simpl.
    apply mosaic_load_moves. }
  split; [by apply Hmove|].
  intros log arr info E. rewrite (Hmove (-1)%Z) by lia. rewrite E.
  destruct (moveaxis_last arr) as (arr' & Hmv & Hlast).
  exists arr'. split; [|done]. unfold bind. cbn [fst snd].
  rewrite Hmv. simpl. by rewrite app_nil_r.
Qed.

(** ** Client-side masking *)

Lemma mask_band_values (arr : array3 Z) (i : nat) (l : list (option Z)) :
  forall (mask : array3 bool) nb h w,
    a3_shape mask = (nb, h, w) -> i < nb ->
    exists mask',
      for_each (fun mask nodata =>
                  match nodata with
                  | None => inr mask
                  | Some v => mask_band_eq mask arr i v
                  end) mask l = inr mask'
      /\ a3_shape mask' = (nb, h, w)
      /\ forall b y x,
           a3_at mask' b y x = true
           <-> a3_at mask b y x = true
               \/ (b = i /\ exists v, Some v ∈ l /\ a3_at arr b y x = v).
Proof.
  induction l as [|nodata l IH]; intros mask nb h w Hsh Hi.
  - exists mask. split_and!; [done..|]. intros b y x. split; [by left|].
    intros [?|(_ & v & Hv & _)]; [done|]. by apply elem_of_nil in Hv.
  - cbn [for_each]. destruct nodata as [v|].
    + unfold mask_band_eq at 1. rewrite Hsh.
      destruct (i <? nb) eqn:E; [|apply Nat.ltb_ge in E; lia].
      cbn [bind_sum].
      edestruct IH as (mask' & -> & Hsh' & Hat); [..|exists mask'; split_and!; [done..|]].
      { done. }
      { done. }
      intros b y x. rewrite Hat. cbn [a3_at].
      destruct (b =? i) eqn:Eb.
      * apply Nat.eqb_eq in Eb. subst b. rewrite orb_true_iff, Z.eqb_eq.
        split.
        -- intros [[?|Hv]|(_ & v' & Hv' & Hat')]; [by left|..].
           ++ right. split; [done|]. exists v. split; [apply list_elem_of_here|done].
           ++ right. split; [done|]. exists v'. split; [by apply list_elem_of_further|done].
        -- intros [?|(_ & v' & Hv' & Hat')]; [by left; left|].
           apply elem_of_cons in Hv' as [[= ->]|Hv'].
           ++ left. by right.
           ++ right. split; [done|]. by exists v'.
      * apply Nat.eqb_neq in Eb. split.
        -- intros [?|(? & _)]; [by left|done].
        -- intros [?|(? & _)]; [by left|done].
    + cbn [bind_sum].
      edestruct IH as (mask' & -> & Hsh' & Hat); [..|exists mask'; split_and!; [done..|]].
      { done. }
      { done. }
      intros b y x. rewrite Hat. split.
      * intros [?|(-> & v & Hv & Hat')]; [by left|].
        right. split; [done|]. exists v. split; [by apply list_elem_of_further|done].
      * intros [?|(-> & v & Hv & Hat')]; [by left|].
        apply elem_of_cons in Hv as [?|Hv]; [done|].
        right. split; [done|]. by exists v.
Qed.

Lemma mask_nodata_bands_values (band_nodata_values : gmap string (gset (option Z)))
    (arr : array3 Z) (bands : list string) :
  forall i (mask : array3 bool) nb h w,
    a3_shape mask = (nb, h, w) -> i + length bands <= nb ->
    exists mask',
      mask_nodata_bands band_nodata_values arr i bands mask = inr mask'
      /\ a3_shape mask' = (nb, h, w)
      /\ forall b y x,
           a3_at mask' b y x = true
           <-> a3_at mask b y x = true
               \/ (exists j bandname v,
                     b = i + j /\ bands !! j = Some bandname
                     /\ Some v ∈ default ∅ (band_nodata_values !! bandname)
                     /\ a3_at arr b y x = v).
Proof.
  induction bands as [|bandname rest IH]; intros i mask nb h w Hsh Hlen.
  - exists mask. split_and!; [done..|]. intros b y x. split; [by left|].
    intros [?|(j & name & v & _ & Hj & _)]; [done|]. by rewrite lookup_nil in Hj.
  - cbn [mask_nodata_bands]. simpl in Hlen.
    destruct (mask_band_values arr i
                (elements (default ∅ (band_nodata_values !! bandname)))
                mask nb h w Hsh) as (mask1 & -> & Hsh1 & Hat1); [lia|].
    cbn [bind_sum].
    destruct (IH (S i) mask1 nb h w Hsh1) as (mask' & -> & Hsh' & Hat'); [lia|].
    exists mask'. split_and!; [done..|]. intros b y x. rewrite Hat', Hat1. split.
    + intros [[?|(-> & v & Hv & Hat)]|(j & name & v & -> & Hj & Hv & Hat)].
      * by left.
      * right. exists 0, bandname, v. split_and!; [lia|done| |done].
        by apply elem_of_elements in Hv.
      * right. exists (S j), name, v. split_and!; [lia|done..].
    + intros [?|(j & name & v & -> & Hj & Hv & Hat)]; [by left; left|].
      destruct j as [|j]; simpl in Hj.
      * injection Hj as <-. left. right. split; [lia|]. exists v.
        split; [by apply elem_of_elements|done].
      * right. exists j, name, v. split_and!; [lia|done..].
Qed.

Lemma collect_scene_values (scene : Scene) (bands : list string) :
  forall m : gmap string (gset (option Z)),
    (forall name, name ∈ bands -> is_Some (scene_bands scene !! name)) ->
    exists m',
      for_each (add_nodata_value scene) m bands = inr m'
      /\ forall name v,
           v ∈ default ∅ (m' !! name)
           <-> v ∈ default ∅ (m !! name)
               \/ (name ∈ bands
                   /\ exists props, scene_bands scene !! name = Some props
                                    /\ band_nodata props = v).
Proof.
  induction bands as [|b rest IH]; intros m Hdecl.
  - exists m. split; [done|]. intros name v. split; [by left|].
    intros [?|(Hin & _)]; [done|]. by apply elem_of_nil in Hin.
  - cbn [for_each]. unfold add_nodata_value at 1.
    destruct (Hdecl b) as [props Hprops]; [apply list_elem_of_here|].
    rewrite Hprops. cbn [bind_sum].
    edestruct IH as (m' & -> & Hm'); [..|exists m'; split; [done|]].
    { intros name Hname. apply Hdecl. by apply list_elem_of_further. }
    intros name v. rewrite Hm', lookup_insert. case_decide as Hname.
    + subst name. simpl. rewrite elem_of_union, elem_of_singleton. split.
      * intros [[->|?]|(Hin & props' & Hp & Hv)].
        -- right. split; [apply list_elem_of_here|]. by exists props.
        -- by left.
        -- right. split; [by apply list_elem_of_further|]. by exists props'.
      * intros [?|(Hin & props' & Hp & Hv)]; [by left; right|].
        rewrite Hprops in Hp. injection Hp as <-. left. by left.
    + split.
      * intros [?|(Hin & Hp)]; [by left|].
        right. split; [by apply list_elem_of_further|done].
      * intros [?|(Hin & Hp)]; [by left|].
        apply elem_of_cons in Hin as [?|Hin]; [done|]. by right.
Qed.

Lemma collect_nodata_values_spec (bands : list string) (self : list Scene) :
  (forall scene name, scene ∈ self -> name ∈ bands ->
                      is_Some (scene_bands scene !! name)) ->
  exists m,
    collect_nodata_values self bands = inr m
    /\ forall name v,
         v ∈ default ∅ (m !! name)
         <-> name ∈ bands
             /\ exists scene props,
                  scene ∈ self /\ scene_bands scene !! name = Some props
                  /\ band_nodata props = v.
Proof.
  unfold collect_nodata_values. intros Hdecl.
  cut (forall m0 : gmap string (gset (option Z)),
         exists m,
           for_each (fun band_nodata_values scene =>
                       for_each (add_nodata_value scene) band_nodata_values bands)
             m0 self = inr m
           /\ forall name v,
                v ∈ default ∅ (m !! name)
                <-> v ∈ default ∅ (m0 !! name)
                    \/ (name ∈ bands
                        /\ exists scene props,
                             scene ∈ self /\ scene_bands scene !! name = Some props
                             /\ band_nodata props = v)).
  { intros Hcut. destruct (Hcut ∅) as (m & Hm & Hv). exists m. split; [done|].
    intros name v. rewrite Hv, lookup_empty. simpl. split; [|by right].
    intros [Hv0|?]; [by apply elem_of_empty in Hv0|done]. }
  induction self as [|scene self IH]; intros m0.
  - exists m0. split; [done|]. intros name v. split; [by left|].
    intros [?|(_ & s & props & Hin & _)]; [done|]. by apply elem_of_nil in Hin.
  - cbn [for_each].
    destruct (collect_scene_values scene bands m0) as (m1 & -> & Hm1).
    { intros name Hname. apply Hdecl; [apply list_elem_of_here|done]. }
    cbn [bind_sum].
    destruct IH with (m0 := m1) as (m & -> & Hm).
    { intros s name Hs. apply Hdecl. by apply list_elem_of_further. }
    exists m. split; [done|]. intros name v. rewrite Hm, Hm1. split.
    + intros [[?|(Hin & props & Hp & Hv)]|(Hin & s & props & Hs & Hp & Hv)].
      * by left.
      * right. split; [done|]. exists scene, props.
        split_and!; [apply list_elem_of_here|done..].
      * right. split; [done|]. exists s, props.
        split_and!; [by apply list_elem_of_further|done..].
    + intros [?|(Hin & s & props & Hs & Hp & Hv)]; [by left; left|].
      apply elem_of_cons in Hs as [->|Hs].
      * left. right. split; [done|]. by exists props.
      * right. split; [done|]. by exists s, props.
Qed.

Lemma nodata_stage self bl (mask_nodata : bool) (v : array3 Z) h w :
  a3_shape v = (length bl, h, w) ->
  (mask_nodata = true -> bands_declared self bl) ->
  exists mask,
    (if mask_nodata then
       band_nodata_values <~ collect_nodata_values self bl ;;
       mask_nodata_bands band_nodata_values v 0 bl (zeros_like v)
     else inr (zeros_like v)) = inr mask
    /\ a3_shape mask = (length bl, h, w)
    /\ forall i y x,
         a3_at mask i y x = true
         <-> mask_nodata = true
             /\ exists bandname,
                  bl !! i = Some bandname
                  /\ declares_nodata self bandname (a3_at v i y x).
Proof.
  intros Hsh Hdecl. destruct mask_nodata.
  - destruct (collect_nodata_values_spec bl self) as (m & -> & Hm); [by apply Hdecl|].
    cbn [bind_sum].
    destruct (mask_nodata_bands_values m v bl 0 (zeros_like v) (length bl) h w)
      as (mask & -> & Hmsh & Hat); [done|lia|].
    exists mask. split_and!; [done..|]. intros i y x. rewrite Hat. cbn [zeros_like a3_at].
    split.
    + intros [?|(j & name & val & -> & Hj & Hval & Hv)]; [done|].
      split; [done|]. exists name. split; [done|].
      apply Hm in Hval as (_ & s & props & Hs & Hp & Hn). subst val.
      by exists s, props.
    + intros (_ & name & Hi & s & props & Hs & Hp & Hn). right.
      exists i, name, (a3_at v i y x). split_and!; [done..| |done].
      apply Hm. split; [by eapply list_elem_of_lookup_2|]. by exists s, props.
  - exists (zeros_like v). split_and!; [done..|]. intros i y x. split; [done|].
    by intros [? _].
Qed.

Lemma mosaic_alpha_bands_cases mask_alpha bl req drop :
  mosaic_alpha_bands mask_alpha bl = inr (req, drop) ->
  (mask_alpha = true /\ ("alpha" ∉ bl) /\ req = bl ++ ["alpha"] /\ drop = true)
  \/ (mask_alpha = true /\ ("alpha" ∈ bl) /\ req = bl /\ drop = false)
  \/ (mask_alpha = false /\ req = bl /\ drop = false).
Proof.
  unfold mosaic_alpha_bands. destruct mask_alpha; [|intros [= <- <-]; right; right; done].
  destruct (list_find _ bl) as [[j b]|] eqn:E.
  - destruct (j =? length bl - 1); [|done]. intros [= <- <-]. right; left.
    apply list_find_Some in E as (Hj & -> & _).
    split_and!; [done| |done..]. by eapply list_elem_of_lookup_2.
  - intros [= <- <-]. left. split_and!; [done| |done..].
    apply list_find_None in E. rewrite Forall_forall in E. intros Hin. by apply E in Hin.
Qed.

Lemma mosaic_mask_spec self bl req drop mask_nodata mask_alpha arr h w :
  mosaic_alpha_bands mask_alpha bl = inr (req, drop) ->
  a3_shape (nd_values arr) = (length req, h, w) ->
  (mask_nodata = true -> bands_declared self bl) ->
  exists data mask,
    mosaic_mask self req drop mask_nodata mask_alpha arr = inr (MaskedArray data mask)
    /\ nd_dtype data = nd_dtype arr
    /\ a3_shape (nd_values data) = (length bl, h, w)
    /\ a3_at (nd_values data) = a3_at (nd_values arr)
    /\ a3_shape mask = (length bl, h, w)
    /\ forall i y x,
         a3_at mask i y x = true
         <-> (mask_nodata = true
              /\ exists bandname,
                   bl !! i = Some bandname
                   /\ declares_nodata self bandname (a3_at (nd_values arr) i y x))
             \/ (mask_alpha = true
                 /\ a3_at (nd_values arr) (length req - 1) y x = 0%Z).
Proof.
  intros Halpha Hsh Hdecl. unfold mosaic_mask.
  destruct (mosaic_alpha_bands_cases _ _ _ _ Halpha)
    as [(-> & Hnot & -> & ->)|[(-> & Hin & -> & ->)|(-> & -> & ->)]].
  - (* alpha appended, then dropped *)
    rewrite length_app in Hsh. simpl in Hsh.
    unfold last_band. rewrite Hsh. rewrite Nat.add_1_r. cbn [bind_sum].
    rewrite removelast_last.
    assert (a3_shape (drop_last_band (nd_values arr)) = (length bl, h, w)) as Hsh'.
    { unfold drop_last_band. rewrite Hsh, Nat.add_1_r. done. }
    assert (a3_at (drop_last_band (nd_values arr)) = a3_at (nd_values arr)) as Hat'.
    { unfold drop_last_band. by rewrite Hsh. }
    cbn [nd_values].
    destruct (nodata_stage self bl mask_nodata _ h w Hsh' Hdecl)
      as (mask & -> & Hmsh & Hmat).
    cbn [bind_sum]. eexists _, _. split_and!; [done..|].
    intros i y x. cbn [mask_alpha_zero a3_at a2_at]. rewrite orb_true_iff, Hmat, Hat'.
    rewrite Z.eqb_eq, length_app. simpl. rewrite Nat.add_sub. split.
    + intros [?|?]; [by left|by right].
    + intros [?|[_ ?]]; [by left|by right].
  - (* alpha requested last *)
    apply list_elem_of_lookup_1 in Hin as [j Hj]. apply lookup_lt_Some in Hj.
    unfold last_band. rewrite Hsh.
    destruct (length bl) as [|n] eqn:En; [lia|]. cbn [bind_sum].
    destruct (nodata_stage self bl mask_nodata (nd_values arr) h w) as
      (mask & Hmask & Hmsh & Hmat); [by rewrite En|done|].
    rewrite Hmask. cbn [bind_sum]. eexists _, _. rewrite <- En.
    split_and!; [done|done|by rewrite En|done|done|].
    intros i y x. cbn [mask_alpha_zero a3_at a2_at]. rewrite orb_true_iff, Hmat.
    rewrite Z.eqb_eq, En. simpl. rewrite Nat.sub_0_r. split.
    + intros [?|?]; [by left|by right].
    + intros [?|[_ ?]]; [by left|by right].
  - (* no alpha masking *)
    cbn [bind_sum].
    destruct (nodata_stage self bl mask_nodata (nd_values arr) h w) as
      (mask & Hmask & Hmsh & Hmat); [done..|].
    rewrite Hmask. cbn [bind_sum]. eexists _, _. split_and!; [done..|].
    intros i y x. rewrite Hmat. split; [by left|]. by intros [?|[? _]].
Qed.

Lemma moveaxis_valid arr bands_axis :
  (-3 < bands_axis < 3)%Z -> exists arr', moveaxis arr bands_axis = inr arr'.
Proof.
  intros Hax.
  assert (bands_axis = (-2)%Z \/ bands_axis = (-1)%Z \/ bands_axis = 0%Z
          \/ bands_axis = 1%Z \/ bands_axis = 2%Z) as Hcases by lia.
  destruct arr as [[dt v]|[dt v] m]; unfold moveaxis, moveaxis3; cbn [nd_values];
    destruct (a3_shape v) as [[nb h] w]; try destruct (a3_shape m) as [[nb' h'] w'];
    destruct Hcases as [->|[->|[->|[->| ->]]]]; simpl; by eexists.
Qed.

(** What [mosaic] returns under [mask_nodata or mask_alpha], when every
    check passes and the service answers with one band per requested
    band. *)
Lemma mosaic_returns self bands bl req drop common raw info h w ctx
    mask_nodata mask_alpha bands_axis raster_info :
  self ≠ [] -> (-3 < bands_axis < 3)%Z ->
  _bands_to_list bands = inr bl ->
  mosaic_alpha_bands mask_alpha bl = inr (req, drop) ->
  _common_data_type self req = inr common ->
  raster_client_ndarray (mosaic_raster_args self req common ctx) = inr (raw, info) ->
  a3_shape (nd_values (as_3d raw)) = (length req, h, w) ->
  (mask_nodata = true -> bands_declared self bl) ->
  mask_nodata || mask_alpha = true ->
  exists data mask arr',
    mosaic self bands ctx mask_nodata mask_alpha bands_axis raster_info
    = ([RasterCall (mosaic_raster_args self req common ctx)],
       inr (arr', if raster_info then Some info else None))
    /\ moveaxis (MaskedArray data mask) bands_axis = inr arr'
    /\ nd_dtype data = nd_dtype (as_3d raw)
    /\ a3_shape (nd_values data) = (length bl, h, w)
    /\ a3_at (nd_values data) = a3_at (nd_values (as_3d raw))
    /\ a3_shape mask = (length bl, h, w)
    /\ forall i y x,
         a3_at mask i y x = true
         <-> (mask_nodata = true
              /\ exists bandname,
                   bl !! i = Some bandname
                   /\ declares_nodata self bandname
                        (a3_at (nd_values (as_3d raw)) i y x))
             \/ (mask_alpha = true
                 /\ a3_at (nd_values (as_3d raw)) (length req - 1) y x = 0%Z).
Proof.
  intros Hne Hax Hbands Halpha Hcommon Hraster Hsh Hdecl Hmask.
  destruct (mosaic_mask_spec self bl req drop mask_nodata mask_alpha (as_3d raw) h w
              Halpha Hsh Hdecl)
    as (data & mask & Hmm & Hdt & Hdsh & Hdat & Hmsh & Hmat).
  destruct (moveaxis_valid (MaskedArray data mask) bands_axis Hax) as [arr' Hmove].
  exists data, mask, arr'. split_and!; [|done..].
  rewrite mosaic_guards by (done || by apply valid_bands_axis_spec).
  unfold mosaic_load.
  rewrite Hbands, bind_lift_inr, Halpha, bind_lift_inr, Hcommon, bind_lift_inr.
  cbv zeta. unfold raster_call. rewrite Hraster.
  unfold bind at 1. rewrite Hmask, Hmm, bind_lift_inr.
  destruct (bands_axis =? 0)%Z eqn:E.
  - apply Z.eqb_eq in E. subst bands_axis. rewrite moveaxis_0 in Hmove.
    injection Hmove as <-. by rewrite bind_lift_inr.
  - by rewrite Hmove, bind_lift_inr.
Qed.

(** C2. A [mosaic] call with [mask_nodata=True] that passes its checks
    and gets one band per requested band from the service returns a
    masked array (in band-major layout before the final axis move) in
    which the pixel [(y, x)] of output band [i] is masked exactly when
    its value is a nodata value (not [None]) that some scene of the
    collection declares for the band of that name, or when
    [mask_alpha=True] and the alpha band, the last band of the
    service's answer, is zero at [(y, x)]. *)
Theorem C2_mosaic_masks self bands bl req drop common raw info h w ctx
    mask_alpha bands_axis raster_info
    (Hne : self ≠ []) (Hax : (-3 < bands_axis < 3)%Z)
    (Hbands : _bands_to_list bands = inr bl)
    (Halpha : mosaic_alpha_bands mask_alpha bl = inr (req, drop))
    (Hcommon : _common_data_type self req = inr common)
    (Hraster : raster_client_ndarray (mosaic_raster_args self req common ctx)
               = inr (raw, info))
    (Hshape : a3_shape (nd_values (as_3d raw)) = (length req, h, w))
    (Hdecl : bands_declared self bl) :
  exists data mask arr',
    mosaic self bands ctx true mask_alpha bands_axis raster_info
    = ([RasterCall (mosaic_raster_args self req common ctx)],
       inr (arr', if raster_info then Some info else None))
    /\ moveaxis (MaskedArray data mask) bands_axis = inr arr'
    /\ a3_shape (nd_values data) = (length bl, h, w)
    /\ a3_shape mask = (length bl, h, w)
    /\ forall i bandname y x,
         bl !! i = Some bandname ->
         (a3_at mask i y x = true
          <-> declares_nodata self bandname (a3_at (nd_values data) i y x)
              \/ (mask_alpha = true
                  /\ a3_at (nd_values (as_3d raw)) (length req - 1) y x = 0%Z)).
Proof.
  destruct (mosaic_returns self bands bl req drop common raw info h w ctx
              true mask_alpha bands_axis raster_info)
    as (data & mask & arr' & Hret & Hmove & _ & Hdsh & Hdat & Hmsh & Hmat);
    [done..|].
  exists data, mask, arr'. split_and!; [done..|].
  intros i bandname y x Hi. rewrite Hmat, Hdat. split.
  - intros [(_ & name & Hname & Hnodata)|?]; [|by right].
    left. congruence.
  - intros [Hnodata|?]; [|by right]. left. split; [done|]. by exists bandname.
Qed.



(** ** Slot placement in [stack] *)

Section Placement.

Variables (dtype : string) (shape : shape3) (masked raster_info : bool).
Variable results : list fetched.
Hypothesis Huniform : uniform dtype shape masked results.

Lemma filled_nil {X} (slot : fetched -> option X) :
  filled slot results [] = replicate (length results) None.
Proof.
  apply list_eq. intros i. unfold filled. rewrite list_lookup_imap.
  destruct (results !! i) as [r|] eqn:E; simpl.
  - symmetry. apply lookup_replicate_2. by eapply lookup_lt_Some.
  - symmetry. apply lookup_replicate_None. by apply lookup_ge_None.
Qed.

Lemma length_filled {X} (slot : fetched -> option X) placed :
  length (filled slot results placed) = length results.
Proof. apply length_imap. Qed.

Lemma filled_insert {X} (slot : fetched -> option X) placed i r :
  results !! i = Some r ->
  <[i := slot r]> (filled slot results placed) = filled slot results (i :: placed).
Proof.
  intros Hi. apply list_eq. intros j. unfold filled.
  rewrite list_lookup_insert, !list_lookup_imap, length_imap.
  destruct (decide (i = j)) as [->|Hij].
  - rewrite Hi. simpl. apply lookup_lt_Some in Hi as Hlt.
    rewrite decide_True by done. rewrite bool_decide_true; [done|apply list_elem_of_here].
  - rewrite decide_False by (intros [? _]; done).
    destruct (results !! j) as [r'|]; [|done]. simpl. f_equal.
    destruct (decide (j ∈ placed)) as [Hin|Hnin].
    + rewrite !bool_decide_true; [done|by apply list_elem_of_further|done].
    + rewrite !bool_decide_false; [done| |done].
      intros [?|?]%elem_of_cons; done.
Qed.

Lemma filled_ext {X} (slot : fetched -> option X) placed placed' :
  (forall i, i < length results -> (i ∈ placed <-> i ∈ placed')) ->
  filled slot results placed = filled slot results placed'.
Proof.
  intros Hext. apply list_eq. intros i. unfold filled. rewrite !list_lookup_imap.
  destruct (results !! i) as [r|] eqn:E; [|done]. simpl. f_equal.
  apply lookup_lt_Some in E. by rewrite (bool_decide_ext _ _ (Hext i E)).
Qed.

Lemma filled_all {X} (slot : fetched -> option X) placed :
  (forall i, i < length results -> i ∈ placed) ->
  filled slot results placed = map slot results.
Proof.
  intros Hall. apply list_eq. intros i. unfold filled.
  rewrite list_lookup_imap, list_lookup_fmap.
  destruct (results !! i) as [r|] eqn:E; [|done]. simpl.
  apply lookup_lt_Some in E. by rewrite bool_decide_true by auto.
Qed.

Lemma uniform_lookup i r :
  results !! i = Some r ->
  layout (fst r) = (dtype, shape, if masked then Some shape else None).
Proof.
  intros Hi. unfold uniform in Huniform. rewrite Forall_forall in Huniform.
  apply Huniform. by eapply list_elem_of_lookup_2.
Qed.

Lemma setitem_same {A} n slots i (a : array3 A) :
  i < n -> a3_shape a = shape ->
  setitem (Buffer (n, shape) slots) i a
  = inr (Buffer (n, shape) (<[i := Some a]> slots)).
Proof.
  intros Hi Hsh. unfold setitem. cbn [buf_shape buf_slots fst snd].
  apply Nat.ltb_lt in Hi. rewrite Hi. by rewrite bool_decide_true.
Qed.

Lemma setitem_cast_same n slots i (a : ndarray) :
  i < n -> nd_dtype a = dtype -> a3_shape (nd_values a) = shape ->
  setitem_cast dtype (Buffer (n, shape) slots) i a
  = inr (Buffer (n, shape) (<[i := Some (nd_values a)]> slots)).
Proof.
  intros Hi Hdt Hsh. unfold setitem_cast.
  apply String.eqb_eq in Hdt. rewrite Hdt. by apply setitem_same.
Qed.

Lemma place_step placed i r :
  results !! i = Some r ->
  place (length results) raster_info
    (state_after dtype shape masked raster_info results placed) i r
  = inr (state_after dtype shape masked raster_info results (i :: placed)).
Proof.
  intros Hi. pose proof (uniform_lookup i r Hi) as Hlay.
  apply lookup_lt_Some in Hi as Hlt.
  destruct r as [arr meta]. unfold layout in Hlay. cbn [fst] in Hlay.
  injection Hlay as Hdt Hsh Hmk.
  pose proof (filled_insert (X := raster_meta) snd placed i (arr, meta) Hi) as Hinfo.
  pose proof (filled_insert data_slot placed i (arr, meta) Hi) as Hdata.
  pose proof (filled_insert mask_slot placed i (arr, meta) Hi) as Hmask.
  cbn [fst snd] in Hinfo.
  assert ((if raster_info
           then list_setitem
                  (raster_infos (state_after dtype shape masked raster_info results placed))
                  i meta
           else inr (raster_infos
                       (state_after dtype shape masked raster_info results placed)))
          = inr (if raster_info then filled snd results (i :: placed) else []))
    as Hinfos.
  { destruct raster_info; [|by destruct placed].
    unfold list_setitem.
    assert (raster_infos (state_after dtype shape masked true results placed)
            = filled snd results placed) as ->.
     { destruct placed; [|done]. simpl. by rewrite filled_nil. }
    rewrite length_filled. apply Nat.ltb_lt in Hlt. by rewrite Hlt, Hinfo. }
  unfold place. rewrite Hinfos. cbn [bind_sum].
  unfold arr_dtype, arr_shape in Hdt, Hsh.
  destruct arr as [a|data m]; cbn [arr_data arr_mask] in *.
  - (* a plain array *)
    destruct masked; [done|].
    destruct placed as [|j placed]; cbn [state_after full_stack mask].
    + unfold np_empty, arr_dtype, arr_shape. cbn [fst arr_data]. rewrite Hdt, Hsh.
      rewrite setitem_cast_same by done. cbn [bind_sum].
      by rewrite <- Hdata, filled_nil.
    + rewrite setitem_cast_same by done. cbn [bind_sum]. by rewrite <- Hdata.
  - (* a masked array *)
    destruct masked; [|done]. injection Hmk as Hmk.
    destruct placed as [|j placed]; cbn [state_after full_stack mask].
    + unfold np_empty, arr_dtype, arr_shape. cbn [fst arr_data]. rewrite Hdt, Hsh.
      rewrite setitem_cast_same by done. cbn [bind_sum].
      rewrite setitem_same by done. cbn [bind_sum].
      by rewrite <- Hdata, <- Hmask, !filled_nil.
    + rewrite setitem_cast_same by done. cbn [bind_sum].
      rewrite setitem_same by done. cbn [bind_sum]. by rewrite <- Hdata, <- Hmask.
Qed.

Lemma completed_loop_places completion :
  forall placed,
    (forall i, i ∈ completion -> i < length results) ->
    completed_loop (length results) raster_info (map inr results) completion
      (state_after dtype shape masked raster_info results placed)
    = inr (state_after dtype shape masked raster_info results (rev completion ++ placed)).
Proof.
  induction completion as [|i rest IH]; intros placed Hlt; [done|].
  cbn [completed_loop]. rewrite list_lookup_fmap.
  destruct (results !! i) as [r|] eqn:E.
  - simpl. rewrite place_step by done. cbn [bind_sum]. rewrite IH.
    + by rewrite <- app_assoc.
    + intros j Hj. apply Hlt. by apply list_elem_of_further.
  - apply lookup_ge_None in E. specialize (Hlt i (list_elem_of_here _ _)). lia.
Qed.

Lemma serial_loop_places loaders :
  forall rs i placed,
    map outcome loaders = map inr rs ->
    (forall j r, rs !! j = Some r -> results !! (i + j) = Some r) ->
    serial_loop (length results) raster_info i loaders
      (state_after dtype shape masked raster_info results placed)
    = (concat (map calls loaders),
       inr (state_after dtype shape masked raster_info results
              (rev (seq i (length rs)) ++ placed))).
Proof.
  induction loaders as [|loader rest IH]; intros rs i placed Hout Hrs.
  - destruct rs; [done|discriminate].
  - destruct rs as [|r rs]; [discriminate|]. injection Hout as Hloader Hout.
    destruct loader as [log0 [e|r']]; [discriminate|]. cbn in Hloader.
    injection Hloader as ->. cbn [serial_loop].
    assert (results !! i = Some r) as Hi.
    { rewrite <- (Nat.add_0_r i). by apply Hrs. }
    unfold bind at 1. rewrite (place_step placed i r Hi), bind_lift_inr.
    rewrite (IH rs (S i) (i :: placed) Hout).
    + cbn [map concat calls fst length seq rev]. by rewrite <- app_assoc.
    + intros j r' Hj. replace (S i + j) with (i + S j) by lia. by apply Hrs.
Qed.

Lemma state_after_ext placed placed' :
  (forall i, i ∈ placed <-> i ∈ placed') ->
  state_after dtype shape masked raster_info results placed
  = state_after dtype shape masked raster_info results placed'.
Proof.
  intros Hext. destruct placed as [|i placed], placed' as [|i' placed'].
  - done.
  - pose proof (proj2 (Hext i') (list_elem_of_here _ _)) as Hin.
    by apply elem_of_nil in Hin.
  - pose proof (proj1 (Hext i) (list_elem_of_here _ _)) as Hin.
    by apply elem_of_nil in Hin.
  - unfold state_after.
    rewrite (filled_ext data_slot (i :: placed) (i' :: placed')) by (intros; apply Hext).
    rewrite (filled_ext mask_slot (i :: placed) (i' :: placed')) by (intros; apply Hext).
    by rewrite (filled_ext (X := raster_meta) snd (i :: placed) (i' :: placed'))
      by (intros; apply Hext).
Qed.

Lemma state_after_all placed :
  results ≠ [] -> (forall i, i < length results -> i ∈ placed) ->
  stack_return raster_info (state_after dtype shape masked raster_info results placed)
  = (Some (stacked dtype shape masked results),
     if raster_info then Some (map snd results) else None).
Proof.
  intros Hne Hall. destruct placed as [|i placed].
  - destruct results; [done|]. specialize (Hall 0). simpl in Hall.
    assert (0 ∈ @nil nat) as Hin by (apply Hall; lia). by apply elem_of_nil in Hin.
  - unfold state_after, stack_return, stacked. cbn [full_stack mask raster_infos].
    rewrite !(filled_all _ _ Hall). by destruct masked, raster_info.
Qed.

Lemma elem_of_rev {A} (x : A) (l : list A) : x ∈ rev l <-> x ∈ l.
Proof. rewrite !list_elem_of_In. symmetry. apply in_rev. Qed.

(** The loop of [stack], serial or over the pool, from its first
    iteration to its last. *)
Lemma stack_loop_places loaders max_workers futures :
  map outcome loaders = map inr results ->
  futures_ok (length results) max_workers futures ->
  exists placed,
    match futures with
    | FuturesUnavailable =>
        serial_loop (length results) raster_info 0 loaders
          (state_after dtype shape masked raster_info results [])
    | FuturesAvailable completion =>
        pool_loop (length results) raster_info max_workers completion loaders
          (state_after dtype shape masked raster_info results [])
    end
    = (concat (map calls loaders),
       inr (state_after dtype shape masked raster_info results placed))
    /\ forall i, i ∈ placed <-> i < length results.
Proof.
  intros Hout Hfut. destruct futures as [|completion].
  - exists (rev (seq 0 (length results)) ++ []). split.
    + by apply serial_loop_places.
    + intros i. rewrite app_nil_r, elem_of_rev, elem_of_seq. lia.
  - destruct Hfut as [Hmw Hperm]. exists (rev completion ++ []). split.
    + rewrite pool_loop_workers_ok by done. rewrite Hout. f_equal.
      apply completed_loop_places. intros i Hi. rewrite Hperm in Hi.
      apply elem_of_seq in Hi. lia.
    + intros i. rewrite app_nil_r, elem_of_rev, Hperm, elem_of_seq. lia.
Qed.

End Placement.

Lemma fetched_lengths {A} (f : A -> exn + fetched) (scenes : list A) results :
  map f scenes = map inr results -> length scenes = length results.
Proof.
  intros Hfetch. apply (f_equal length) in Hfetch. by rewrite !length_map in Hfetch.
Qed.

(** The loop of [stack] over the loaders of [scenes], when every loader
    returns and the results are uniform. *)
Lemma stack_loop_fetched scenes bl ctx kwargs raster_info max_workers futures
    results dtype shape masked :
  map (fun s => outcome (data_loader s bl ctx kwargs)) scenes = map inr results ->
  uniform dtype shape masked results ->
  futures_ok (length scenes) max_workers futures ->
  exists placed,
    match futures with
    | FuturesUnavailable =>
        serial_loop (length scenes) raster_info 0
          (map (fun s => data_loader s bl ctx kwargs) scenes)
          (StackState None None
             (if raster_info then replicate (length scenes) None else []))
    | FuturesAvailable completion =>
        pool_loop (length scenes) raster_info max_workers completion
          (map (fun s => data_loader s bl ctx kwargs) scenes)
          (StackState None None
             (if raster_info then replicate (length scenes) None else []))
    end
    = (concat (map calls (map (fun s => data_loader s bl ctx kwargs) scenes)),
       inr (state_after dtype shape masked raster_info results placed))
    /\ forall i, i ∈ placed <-> i < length results.
Proof.
  intros Hfetch Huni Hfut. rewrite (fetched_lengths _ _ _ Hfetch) in *.
  apply (stack_loop_places dtype shape masked raster_info results Huni
           (map (fun s => data_loader s bl ctx kwargs) scenes) max_workers futures);
    [|done].
  by rewrite map_map.
Qed.

(** C1 (amended). On a non-empty SceneCollection, with a [bands_axis]
    other than 0 and -4, when the [flatten] grouping is accepted and
    gives at least one item, the band list is accepted, the scenes
    share one data type for the checked bands (the requested ones,
    with alpha appended when it is not listed and [mask_nodata] or
    [mask_alpha] is set), every per-item fetch returns, the fetched
    arrays have one dtype and one shape and are all masked or all
    plain, and, in a pool, [max_workers] is [None] or positive and
    every future completes once: [stack] returns a stack whose first
    axis has one position per (flattened) item; position [i] holds the
    values and the mask fetched for item [i], and [raster_infos[i]]
    its raster information, whether the fetches ran one after the
    other or in a pool, in whatever order they completed. *)
Theorem C1_stack_positions self bands bl ctx flatten scenes mask_nodata mask_alpha
    bands_axis raster_info max_workers futures common results dtype shape masked
    (Hne : self ≠ [])
    (H0 : bands_axis ≠ 0%Z) (H4 : bands_axis ≠ (-4)%Z)
    (Hitems : stack_items self flatten = inr scenes)
    (Hsome : scenes ≠ [])
    (Hbands : _bands_to_list bands = inr bl)
    (Hcommon : _common_data_type self (stack_check_bands mask_nodata mask_alpha bl)
               = inr common)
    (Hfetch : map (fun s => outcome (data_loader s bl ctx
                     (stack_kwargs mask_nodata mask_alpha bands_axis raster_info)))
                scenes
              = map inr results)
    (Huniform : uniform dtype shape masked results)
    (Hfutures : futures_ok (length scenes) max_workers futures) :
  exists log arr,
    stack self bands ctx flatten mask_nodata mask_alpha bands_axis raster_info
      max_workers futures
    = (log, inr (Some arr, if raster_info then Some (map snd results) else None))
    /\ arr = stacked dtype shape masked results
    /\ fst (buf_shape (stack_data arr)) = length scenes
    /\ length (buf_slots (stack_data arr)) = length scenes
    /\ forall i (r : fetched),
         results !! i = Some r ->
         buf_slots (stack_data arr) !! i = Some (Some (nd_values (arr_data (fst r))))
         /\ match arr_mask (fst r) with
            | Some m =>
                exists mask, stack_mask arr = Some mask
                             /\ buf_slots mask !! i = Some (Some m)
            | None => stack_mask arr = None
            end
         /\ map snd results !! i = Some (snd r).
Proof.
  destruct (stack_loop_fetched scenes bl ctx
              (stack_kwargs mask_nodata mask_alpha bands_axis raster_info)
              raster_info max_workers futures results dtype shape masked)
    as (placed & Hloop & Hplaced); [done..|].
  pose proof (fetched_lengths _ _ _ Hfetch) as Hlen.
  eexists _, (stacked dtype shape masked results). split_and!.
  - rewrite stack_guards by done. unfold stack_load.
    rewrite Hitems, bind_lift_inr, Hbands, bind_lift_inr, Hcommon, bind_lift_inr.
    cbv zeta. rewrite Hloop. unfold bind, ret.
    rewrite (state_after_all _ _ _ _ _ Huniform).
    + done.
    + intros ->. by destruct scenes.
    + intros i Hi. by apply Hplaced.
  - done.
  - unfold stacked. by destruct masked.
  - unfold stacked. destruct masked; cbn [stack_data buf_slots];
      by rewrite length_map.
  - intros i r Hi. pose proof (uniform_lookup _ _ _ _ Huniform i r Hi) as Hlay.
    unfold layout in Hlay. injection Hlay as _ _ Hmask.
    split_and!.
    + unfold stacked. destruct masked; cbn [stack_data buf_slots];
        by rewrite list_lookup_fmap, Hi.
    + unfold stacked.
      destruct (arr_mask (fst r)) as [m|] eqn:Em; destruct masked; try done.
      eexists. split; [done|]. cbn [buf_slots].
      rewrite list_lookup_fmap, Hi. simpl. unfold mask_slot. by rewrite Em.
    + rewrite list_lookup_fmap. unfold fetched in *. by rewrite Hi.
Qed.

(** C6 (amended). For the same arguments and the same per-item fetch
    results, when the [flatten] grouping and the band list are
    accepted, every fetch returns, the fetched arrays have one dtype
    and one shape and are all masked or all plain, and [max_workers]
    is [None] or positive, the serial path of [stack] and its
    thread-pool path, in any completion order in which every future
    completes once, end in the same outcome: the same stacked array,
    mask and raster_info list, or the same pre-flight error. *)
Theorem C6_serial_and_pool_agree self bands bl ctx flatten scenes mask_nodata
    mask_alpha bands_axis raster_info max_workers completion results dtype shape
    masked
    (Hitems : stack_items self flatten = inr scenes)
    (Hbands : _bands_to_list bands = inr bl)
    (Hfetch : map (fun s => outcome (data_loader s bl ctx
                     (stack_kwargs mask_nodata mask_alpha bands_axis raster_info)))
                scenes
              = map inr results)
    (Huniform : uniform dtype shape masked results)
    (Hworkers : workers_ok max_workers)
    (Hcompletion : completion ≡ₚ seq 0 (length scenes)) :
  stack self bands ctx flatten mask_nodata mask_alpha bands_axis raster_info
    max_workers FuturesUnavailable
  = stack self bands ctx flatten mask_nodata mask_alpha bands_axis raster_info
      max_workers (FuturesAvailable completion).
Proof.
  unfold stack. destruct (length self =? 0); [done|].
  destruct (_ || _)%Z; [done|]. unfold stack_load.
  rewrite Hitems, !bind_lift_inr, Hbands, !bind_lift_inr.
  destruct (_common_data_type self _) as [e|common]; [done|].
  rewrite !bind_lift_inr. cbv zeta.
  destruct (stack_loop_fetched scenes bl ctx
              (stack_kwargs mask_nodata mask_alpha bands_axis raster_info)
              raster_info max_workers FuturesUnavailable results dtype shape masked)
    as (placed & -> & Hplaced); [done..|].
  destruct (stack_loop_fetched scenes bl ctx
              (stack_kwargs mask_nodata mask_alpha bands_axis raster_info)
              raster_info max_workers (FuturesAvailable completion) results dtype
              shape masked)
    as (placed' & -> & Hplaced'); [done..|].
  rewrite (state_after_ext dtype shape masked raster_info results placed placed');
    [done|].
  intros i. by rewrite Hplaced, Hplaced'.
Qed.

End Properties.

(** * The statements on concrete collections *)

(** C1, as stated, fails: the one scene of this collection resolves
    the requested band, red, to one data type, and [stack] with its
    default masking raises, for the pre-flight check is made on red and
    the appended alpha, which the scene does not have. Nor does [stack]
    return on [Example.collection] with [bands_axis=0], or in a pool
    with [max_workers=0]. *)
Lemma C1_counterexample :
  [MoreExample.scene_red_only] ≠ []
  /\ @_common_data_type Example.env [MoreExample.scene_red_only] ["red"]
     = inr (Some "UInt16")
  /\ @stack Example.env [MoreExample.scene_red_only] (BandsSeq ["red"]) Example.ctx
       None true true 1 false None FuturesUnavailable
     = raise (ValueError (MsgText "band not available: alpha"))
  /\ @_common_data_type Example.env Example.collection ["red"] = inr (Some "UInt16")
  /\ @stack Example.env Example.collection (BandsSeq ["red"]) Example.ctx
       None true true 0 false None FuturesUnavailable
     = raise (NotImplementedError MsgStackBandsAxis)
  /\ outcome (@stack Example.env Example.collection (BandsSeq ["red"]) Example.ctx
                None true true 1 false (Some 0%Z) (FuturesAvailable [0; 1]))
     = inl (ValueError MsgMaxWorkers).
Proof. split_and!; [discriminate|vm_compute; reflexivity..]. Qed.

Lemma C1_stack_positions_witness :
  exists log arr,
    @stack Example.env Example.collection (BandsSeq ["red"]) Example.ctx None
      true true 1 true (Some 4%Z) (FuturesAvailable [1; 0])
    = (log, inr (Some arr, Some (map snd Example.results)))
    /\ arr = stacked "UInt16" (1, 2, 2) true Example.results
    /\ fst (buf_shape (stack_data arr)) = 2
    /\ length (buf_slots (stack_data arr)) = 2
    /\ forall i (r : fetched),
         Example.results !! i = Some r ->
         buf_slots (stack_data arr) !! i = Some (Some (nd_values (arr_data (fst r))))
         /\ match arr_mask (fst r) with
            | Some m =>
                exists mask, stack_mask arr = Some mask
                             /\ buf_slots mask !! i = Some (Some m)
            | None => stack_mask arr = None
            end
         /\ map snd Example.results !! i = Some (snd r).
Proof.
  apply (@C1_stack_positions Example.env Example.collection (BandsSeq ["red"])
           ["red"] Example.ctx None Example.items true true 1%Z true (Some 4%Z)
           (FuturesAvailable [1; 0]) (Some "UInt16") Example.results
           "UInt16" (1, 2, 2) true).
  - discriminate.
  - discriminate.
  - discriminate.
  - reflexivity.
  - discriminate.
  - reflexivity.
  - vm_compute. reflexivity.
  - vm_compute. reflexivity.
  - repeat constructor.
  - split; [reflexivity|]. apply perm_swap.
Defined.

Lemma C2_mosaic_masks_witness :
  exists data mask arr',
    @mosaic Example.env Example.collection (BandsStr "red") Example.ctx
      true true 0 false
    = ([RasterCall (mosaic_raster_args Example.collection ["red"; "alpha"]
                      (Some "UInt16") Example.ctx)],
       inr (arr', None))
    /\ moveaxis (MaskedArray data mask) 0 = inr arr'
    /\ a3_shape (nd_values data) = (1, 2, 2)
    /\ a3_shape mask = (1, 2, 2)
    /\ forall i bandname y x,
         ["red"] !! i = Some bandname ->
         (a3_at mask i y x = true
          <-> declares_nodata Example.collection bandname (a3_at (nd_values data) i y x)
              \/ (true = true
                  /\ a3_at (nd_values (as_3d Example.answer)) 1 y x = 0%Z)).
Proof.
  apply (@C2_mosaic_masks Example.env Example.collection (BandsStr "red") ["red"]
           ["red"; "alpha"] true (Some "UInt16") Example.answer Example.answer_info
           2 2 Example.ctx true 0%Z false).
  - discriminate.
  - lia.
  - reflexivity.
  - reflexivity.
  - vm_compute. reflexivity.
  - reflexivity.
  - reflexivity.
  - intros scene bandname Hscene Hband.
    apply list_elem_of_singleton in Hband as ->.
    apply elem_of_cons in Hscene as [->|Hscene];
      [|apply list_elem_of_singleton in Hscene as ->];
      eexists; vm_compute; reflexivity.
Defined.

(** C3, as stated, fails: the scenes of [Example.mixed] disagree on the
    data type of the checked bands, and [stack] with [bands_axis=0]
    raises [NotImplementedError], not the data type error. *)
Lemma C3_counterexample :
  @inconsistent_data_types Example.env Example.mixed
    (stack_check_bands true true ["red"])
  /\ @stack Example.env Example.mixed (BandsSeq ["red"]) Example.ctx None
       true true 0 false None FuturesUnavailable
     = raise (NotImplementedError MsgStackBandsAxis)
  /\ ~ (exists i data_type common,
          @stack Example.env Example.mixed (BandsSeq ["red"]) Example.ctx None
            true true 0 false None FuturesUnavailable
          = raise (ValueError (MsgDtypeMismatch i data_type common))).
Proof.
  split_and!.
  - exists ["UInt16"; "Float64"], "UInt16", "Float64".
    split_and!; [reflexivity|apply list_elem_of_here| |discriminate].
    apply list_elem_of_further, list_elem_of_here.
  - reflexivity.
  - intros (i & dt & c & E). discriminate E.
Qed.

Lemma C3_inconsistent_data_types_witness :
  (exists i data_type common,
     @stack Example.env Example.mixed (BandsSeq ["red"]) Example.ctx None
       true true 1 false None FuturesUnavailable
     = raise (ValueError (MsgDtypeMismatch i data_type common)))
  /\ (exists i data_type common,
        @mosaic Example.env Example.mixed (BandsSeq ["red"]) Example.ctx
          true true 0 false
        = raise (ValueError (MsgDtypeMismatch i data_type common))).
Proof.
  assert (@inconsistent_data_types Example.env Example.mixed ["red"; "alpha"])
    as Hmixed.
  { exists ["UInt16"; "Float64"], "UInt16", "Float64".
    split_and!; [reflexivity|apply list_elem_of_here| |discriminate].
    apply list_elem_of_further, list_elem_of_here. }
  destruct (@C3_inconsistent_data_types Example.env Example.mixed (BandsSeq ["red"])
              ["red"] Example.ctx) as [Hstack Hmosaic];
    [discriminate|reflexivity|].
  split.
  - apply (Hstack None (map ItemScene Example.mixed));
      [discriminate|discriminate|reflexivity|exact Hmixed].
  - apply (Hmosaic true true 0%Z false ["red"; "alpha"] true);
      [lia|reflexivity|exact Hmixed].
Defined.

(** C4, as stated, fails: with [mask_alpha=False] neither [mosaic] nor
    [stack] (here over one [flatten] group) objects to alpha in the
    first of two positions; both return. *)
Lemma C4_counterexample :
  ["alpha"; "red"] !! 0 = Some "alpha"
  /\ 0 ≠ length ["alpha"; "red"] - 1
  /\ returns (@mosaic Example.env Example.collection (BandsSeq ["alpha"; "red"])
                Example.ctx true false 0 false) = true
  /\ returns (@stack Example.env Example.collection (BandsSeq ["alpha"; "red"])
                Example.ctx Example.one_group true false 1 false None
                FuturesUnavailable) = true.
Proof. split_and!; [reflexivity|discriminate|vm_compute; reflexivity..]. Qed.

Lemma C4_alpha_not_last_witness :
  @mosaic Example.env Example.collection (BandsSeq ["alpha"; "red"]) Example.ctx
    true true 0 false
  = raise (ValueError MsgAlphaNotLast)
  /\ outcome (@stack Example.env Example.collection (BandsSeq ["alpha"; "red"])
                Example.ctx Example.one_group true true 1 false None
                FuturesUnavailable)
     = inl (ValueError MsgAlphaNotLast).
Proof.
  destruct (@C4_alpha_not_last Example.env Example.collection
              (BandsSeq ["alpha"; "red"]) ["alpha"; "red"] Example.ctx 0)
    as (Hmosaic & Hstack & _);
    [discriminate|reflexivity|reflexivity|discriminate|].
  split.
  - apply Hmosaic. lia.
  - apply (Hstack Example.one_group [ItemCollection Example.collection] 0
             Example.collection true 1%Z false None FuturesUnavailable
             (Some "UInt16"));
      [discriminate|lia|reflexivity|reflexivity|reflexivity|exact I
      |reflexivity|reflexivity].
Defined.

Lemma C5_bands_axis_moved_last_witness :
  @mosaic Example.env Example.collection (BandsStr "red") Example.ctx
    true true (-1) false
  = (r <- @mosaic Example.env Example.collection (BandsStr "red") Example.ctx
            true true 0 false ;;
     arr <- lift (moveaxis (fst r) (-1)) ;;
     ret (arr, snd r))
  /\ (forall log arr info,
       @mosaic Example.env Example.collection (BandsStr "red") Example.ctx
         true true 0 false
       = (log, inr (arr, info)) ->
       exists arr',
         @mosaic Example.env Example.collection (BandsStr "red") Example.ctx
           true true (-1) false
         = (log, inr (arr', info))
         /\ band_axis_moved_last arr arr').
Proof.
  apply (@C5_bands_axis_moved_last Example.env Example.collection (BandsStr "red")
           Example.ctx true true (-1)%Z false).
  lia.
Defined.

(** C6, as stated, fails: with [max_workers=0] the serial path, which
    never reads [max_workers], returns the stack, and the pool path
    raises the [ValueError] of [ThreadPoolExecutor]. *)
Lemma C6_counterexample :
  returns (@stack Example.env Example.collection (BandsSeq ["red"]) Example.ctx None
             true true 1 true (Some 0%Z) FuturesUnavailable) = true
  /\ (forall completion,
        outcome (@stack Example.env Example.collection (BandsSeq ["red"]) Example.ctx
                   None true true 1 true (Some 0%Z) (FuturesAvailable completion))
        = inl (ValueError MsgMaxWorkers))
  /\ @stack Example.env Example.collection (BandsSeq ["red"]) Example.ctx None
       true true 1 true (Some 0%Z) FuturesUnavailable
     ≠ @stack Example.env Example.collection (BandsSeq ["red"]) Example.ctx None
         true true 1 true (Some 0%Z) (FuturesAvailable [1; 0]).
Proof.
  split_and!.
  - vm_compute. reflexivity.
  - intros completion. vm_compute. reflexivity.
  - intros Heq. apply (f_equal returns) in Heq. vm_compute in Heq. discriminate Heq.
Qed.

Lemma C6_serial_and_pool_agree_witness :
  @stack Example.env Example.collection (BandsSeq ["red"]) Example.ctx None
    true true 1 true (Some 4%Z) FuturesUnavailable
  = @stack Example.env Example.collection (BandsSeq ["red"]) Example.ctx None
      true true 1 true (Some 4%Z) (FuturesAvailable [1; 0]).
Proof.
  apply (@C6_serial_and_pool_agree Example.env Example.collection (BandsSeq ["red"])
           ["red"] Example.ctx None Example.items true true 1%Z true (Some 4%Z)
           [1; 0] Example.results "UInt16" (1, 2, 2) true).
  - reflexivity.
  - reflexivity.
  - vm_compute. reflexivity.
  - repeat constructor.
  - reflexivity.
  - apply perm_swap.
Defined.


(** C9, as stated, fails: on an empty collection [stack] with
    [bands_axis=0] raises the error of the emptiness check. *)
Lemma C9_counterexample :
  @stack Example.env [] (BandsSeq ["red"]) Example.ctx None true true 0 false None
    FuturesUnavailable
  = raise (ValueError MsgEmptyCollection)
  /\ @stack Example.env [] (BandsSeq ["red"]) Example.ctx None true true 0 false
       None FuturesUnavailable
     ≠ raise (NotImplementedError MsgStackBandsAxis).
Proof. split; [reflexivity|discriminate]. Qed.

Lemma C9_stack_bands_axis_0_witness :
  @stack Example.env Example.collection (BandsSeq ["red"]) Example.ctx None
    true true 0 false None FuturesUnavailable
  = raise (NotImplementedError MsgStackBandsAxis)
  /\ calls (@stack Example.env Example.collection (BandsSeq ["red"]) Example.ctx
              None true true 0 false None FuturesUnavailable) = []
  /\ spec_error_of (NotImplementedError MsgStackBandsAxis) = Some UnsupportedAxisError.
Proof.
  apply (@C9_stack_bands_axis_0 Example.env Example.collection (BandsSeq ["red"])
           Example.ctx None true true false None FuturesUnavailable).
  discriminate.
Defined.

Lemma C10_mosaic_bands_axis_witness :
  (@mosaic Example.env Example.collection (BandsSeq ["red"]) Example.ctx
     true true 3 false
   = raise (ValueError (MsgInvalidBandsAxis 3))
   /\ calls (@mosaic Example.env Example.collection (BandsSeq ["red"]) Example.ctx
               true true 3 false) = [])
  /\ (valid_bands_axis (-2) = true
      /\ @mosaic Example.env Example.collection (BandsSeq ["red"]) Example.ctx
           true true (-2) false
         = @mosaic_load Example.env Example.collection (BandsSeq ["red"])
             Example.ctx true true (-2) false).
Proof.
  split.
  - apply (@C10_mosaic_bands_axis Example.env Example.collection (BandsSeq ["red"])
             Example.ctx true true 3%Z false); [discriminate|lia].
  - apply (@C10_mosaic_bands_axis Example.env Example.collection (BandsSeq ["red"])
             Example.ctx true true (-2)%Z false); [discriminate|lia].
Defined.

(** * Further properties of the code *)

Section MoreProperties.

Context `{Collaborators}.

(** ** [_common_data_type] *)

Lemma comprehension_inr {A B} (f : A -> exn + B) (l : list A) (ys : list B) :
  comprehension f l = inr ys <-> Forall2 (fun x y => f x = inr y) l ys.
Proof.
  revert ys. induction l as [|x l IH]; intros ys; simpl.
  - split; [intros [= <-]; constructor|intros Hf; by inversion Hf].
  - destruct (f x) as [e|y] eqn:E; simpl.
    + split; [done|]. intros Hf. inversion Hf; subst. congruence.
    + destruct (comprehension f l) as [e|ys'] eqn:E'; simpl.
      * split; [done|]. intros Hf. inversion Hf as [|? y' ? ys'' Hx Hl]; subst.
        apply IH in Hl. discriminate Hl.
      * split.
        -- intros [= <-]. constructor; [done|]. by apply IH.
        -- intros Hf. inversion Hf as [|? y' ? ys'' Hx Hl]; subst.
           apply IH in Hl. congruence.
Qed.

Lemma check_data_types_same common i data_types r :
  check_data_types (Some common) i data_types = inr r <->
  r = Some common /\ Forall (fun d => d = common) data_types.
Proof.
  revert i. induction data_types as [|d rest IH]; intros i; simpl.
  - split; [intros [= <-]; by split|intros [-> _]; done].
  - destruct (String.eqb d common) eqn:E.
    + apply String.eqb_eq in E. subst d. rewrite IH. split.
      * intros [-> Hrest]. split; [done|by constructor].
      * intros [-> Hall]. split; [done|]. by inversion Hall.
    + apply String.eqb_neq in E. split; [done|].
      intros [_ Hall]. inversion Hall. congruence.
Qed.

(** X1. [_common_data_type] returns a data type exactly when the
    collection is not empty and every scene resolves the bands to that
    type; it returns [None] exactly on an empty collection. *)
Theorem X1_common_data_type_consistent self bands :
  (forall dtype,
     _common_data_type self bands = inr (Some dtype)
     <-> self ≠ []
         /\ Forall (fun scene => _common_data_type_of_bands scene bands = inr dtype) self)
  /\ (_common_data_type self bands = inr None <-> self = []).
Proof.
  unfold _common_data_type. split.
  - intros dtype. split.
    + destruct (comprehension _ self) as [e|dts] eqn:E; [done|]. simpl.
      apply comprehension_inr in E. destruct dts as [|d rest]; [done|].
      simpl. rewrite check_data_types_same. intros [[= ->] Hall].
      split; [intros ->; inversion E|].
      assert (Forall (fun d' => d' = d) (d :: rest)) as Hall'
        by by constructor.
      clear Hall. revert E Hall'. generalize (d :: rest).
      induction self as [|s self IH]; intros l E Hall; inversion E; subst;
        constructor.
      * inversion Hall. congruence.
      * inversion Hall. by eapply IH.
    + intros [Hne Hall].
      assert (comprehension (fun scene => _common_data_type_of_bands scene bands) self
              = inr (map (fun _ => dtype) self)) as ->.
      { apply comprehension_inr. clear Hne.
        induction Hall; simpl; by constructor. }
      destruct self as [|s self]; [done|]. simpl.
      apply check_data_types_same. split; [done|].
      clear. induction self; simpl; by constructor.
  - split.
    + destruct (comprehension _ self) as [e|dts] eqn:E; [done|]. simpl.
      apply comprehension_inr in E. destruct dts as [|d rest].
      * by inversion E.
      * simpl. rewrite check_data_types_same. by intros [? _].
    + by intros ->.
Qed.

Lemma check_data_types_first_mismatch common i data_types j data_type c :
  check_data_types (Some common) i data_types
  = inl (ValueError (MsgDtypeMismatch j data_type c)) ->
  c = common /\ i <= j
  /\ data_types !! (j - i) = Some data_type /\ data_type ≠ common
  /\ forall k, k < j - i -> data_types !! k = Some common.
Proof.
  revert i. induction data_types as [|d rest IH]; intros i; simpl; [done|].
  destruct (String.eqb d common) eqn:E.
  - apply String.eqb_eq in E. subst d. intros Hrest.
    destruct (IH _ Hrest) as (-> & Hle & Hj & Hne & Hbefore).
    split_and!; [done|lia| |done|].
    + replace (j - i) with (S (j - S i)) by lia. done.
    + intros k Hk. destruct k as [|k]; [done|]. simpl. apply Hbefore. lia.
  - apply String.eqb_neq in E. intros [= <- <- <-].
    rewrite Nat.sub_diag. split_and!; [done|lia|done|done|]. intros k Hk. lia.
Qed.

(** X2. When [_common_data_type] reports a mismatch, "the requested
    bands in Scene i have dtype d, but all prior Scenes had dtype c",
    then [c] is the type of scene 0, [i] is the first scene whose type
    is not [c], and [d] is the type of that scene. *)
Theorem X2_common_data_type_first_mismatch self bands data_types i data_type common
    (Hresolved : comprehension (fun scene => _common_data_type_of_bands scene bands)
                   self = inr data_types)
    (Hraised : _common_data_type self bands
               = inl (ValueError (MsgDtypeMismatch i data_type common))) :
  0 < i
  /\ data_types !! 0 = Some common
  /\ data_types !! i = Some data_type
  /\ data_type ≠ common
  /\ forall k, k < i -> data_types !! k = Some common.
Proof.
  unfold _common_data_type in Hraised. rewrite Hresolved in Hraised. simpl in Hraised.
  destruct data_types as [|d rest]; [done|]. simpl in Hraised.
  apply check_data_types_first_mismatch in Hraised
    as (-> & Hle & Hi & Hne & Hbefore).
  split_and!; [lia|done| |done|].
  - replace i with (S (i - 1)) by lia. done.
  - intros k Hk. destruct k as [|k]; [done|]. simpl. apply Hbefore. lia.
Qed.

Lemma comprehension_raises {A B} (f : A -> exn + B) (before : list A) x after e :
  Forall (fun y => exists r, f y = inr r) before -> f x = inl e ->
  comprehension f (before ++ x :: after) = inl e.
Proof.
  intros Hbefore Hx. induction Hbefore as [|y before [r Hy] _ IH]; simpl.
  - by rewrite Hx.
  - by rewrite Hy, IH.
Qed.

(** X3. The data types of all scenes are resolved before any is
    compared: when a scene fails to resolve the bands, and every scene
    before it resolves them, [_common_data_type] raises the error of
    that scene, even when the scenes before it disagree. *)
Theorem X3_common_data_type_resolution_error_first before scene after bands e
    (Hbefore : Forall (fun s => exists dtype,
                         _common_data_type_of_bands s bands = inr dtype) before)
    (Hscene : _common_data_type_of_bands scene bands = inl e) :
  _common_data_type (before ++ scene :: after) bands = inl e.
Proof.
  unfold _common_data_type.
  by rewrite (comprehension_raises _ before scene after e Hbefore Hscene).
Qed.

(** ** The request of [mosaic] and its failure *)

Lemma mosaic_after_preflight self bands ctx mask_nodata mask_alpha bands_axis
    raster_info bl req drop common :
  mosaic_preflight self bands mask_alpha bands_axis bl req drop common ->
  mosaic self bands ctx mask_nodata mask_alpha bands_axis raster_info
  = (r <- raster_call (mosaic_raster_args self req common ctx) ;;
     lift (mosaic_finish self req drop mask_nodata mask_alpha bands_axis raster_info
             (fst r) (snd r))).
Proof.
  intros (Hne & Hax & Hbands & Halpha & Hcommon).
  rewrite mosaic_guards by (done || by apply valid_bands_axis_spec).
  unfold mosaic_load.
  rewrite Hbands, bind_lift_inr, Halpha, bind_lift_inr, Hcommon, bind_lift_inr.
  cbv zeta. apply bind_ext. intros [raw info]. unfold mosaic_finish. cbn [fst snd].
  destruct (if mask_nodata || mask_alpha then _ else _) as [e|arr]; [done|].
  rewrite bind_lift_inr. cbn [bind_sum].
  destruct (if (bands_axis =? 0)%Z then _ else _) as [e|arr']; [done|].
  by rewrite bind_lift_inr.
Qed.

Lemma mosaic_answered self bands ctx mask_nodata mask_alpha bands_axis raster_info
    bl req drop common raw info :
  mosaic_preflight self bands mask_alpha bands_axis bl req drop common ->
  raster_client_ndarray (mosaic_raster_args self req common ctx) = inr (raw, info) ->
  mosaic self bands ctx mask_nodata mask_alpha bands_axis raster_info
  = ([RasterCall (mosaic_raster_args self req common ctx)],
     mosaic_finish self req drop mask_nodata mask_alpha bands_axis raster_info
       raw info).
Proof.
  intros Hpre Hraster. rewrite (mosaic_after_preflight _ _ _ _ _ _ _ _ _ _ _ Hpre).
  unfold raster_call. rewrite Hraster. unfold bind, lift. cbn [fst snd].
  by rewrite app_nil_r.
Qed.

Lemma mosaic_refused self bands ctx mask_nodata mask_alpha bands_axis raster_info
    bl req drop common e :
  mosaic_preflight self bands mask_alpha bands_axis bl req drop common ->
  raster_client_ndarray (mosaic_raster_args self req common ctx) = inl e ->
  mosaic self bands ctx mask_nodata mask_alpha bands_axis raster_info
  = ([RasterCall (mosaic_raster_args self req common ctx)],
     inl match e with
         | NotFoundError _ =>
             NotFoundError (MsgIdsNotFound (map scene_id self))
         | BadRequestError err =>
             BadRequestError
               (MsgBadRequest err (mosaic_raster_args self req common ctx))
         | _ => e
         end).
Proof.
  intros Hpre Hraster. rewrite (mosaic_after_preflight _ _ _ _ _ _ _ _ _ _ _ Hpre).
  unfold raster_call. rewrite Hraster. by destruct e.
Qed.

(** X4. [mosaic] sends nothing to the raster service unless all its
    pre-flight checks passed (a non-empty collection, a [bands_axis] in
    (-3, 3), the band list, the alpha order, one common data type), and
    then it sends exactly one request, for all scene ids at once. *)
Theorem X4_mosaic_request_after_preflight self bands ctx mask_nodata mask_alpha
    bands_axis raster_info c
    (Hsent : c ∈ calls (mosaic self bands ctx mask_nodata mask_alpha bands_axis
                          raster_info)) :
  exists bl req drop common,
    mosaic_preflight self bands mask_alpha bands_axis bl req drop common
    /\ calls (mosaic self bands ctx mask_nodata mask_alpha bands_axis raster_info)
       = [RasterCall (mosaic_raster_args self req common ctx)]
    /\ ra_inputs (mosaic_raster_args self req common ctx) = map scene_id self.
Proof.
  assert (forall A (e : exn), c ∈ calls (@raise A e) -> False) as Hraise.
  { intros A e Hin. by apply elem_of_nil in Hin. }
  unfold mosaic in Hsent.
  destruct self as [|s self]; [by apply Hraise in Hsent|]. cbn [length Nat.eqb] in Hsent.
  destruct (valid_bands_axis bands_axis) eqn:Hax; [|by apply Hraise in Hsent].
  cbn [negb] in Hsent. unfold mosaic_load in Hsent.
  destruct (_bands_to_list bands) as [e|bl] eqn:Hbands; [by apply Hraise in Hsent|].
  rewrite bind_lift_inr in Hsent.
  destruct (mosaic_alpha_bands mask_alpha bl) as [e|[req drop]] eqn:Halpha;
    [by apply Hraise in Hsent|].
  rewrite bind_lift_inr in Hsent.
  destruct (_common_data_type (s :: self) req) as [e|common] eqn:Hcommon;
    [by apply Hraise in Hsent|].
  clear Hsent. apply valid_bands_axis_spec in Hax.
  assert (mosaic_preflight (s :: self) bands mask_alpha bands_axis bl req drop common)
    as Hpre by done.
  exists bl, req, drop, common. split_and!; [done| |done].
  destruct (raster_client_ndarray (mosaic_raster_args (s :: self) req common ctx))
    as [e|[raw info]] eqn:Hraster.
  - by rewrite (mosaic_refused _ _ _ _ _ _ _ _ _ _ _ _ Hpre Hraster).
  - by rewrite (mosaic_answered _ _ _ _ _ _ _ _ _ _ _ _ _ Hpre Hraster).
Qed.

(** X5. When the service answers [mosaic]'s request with
    [NotFoundError], [mosaic] raises a [NotFoundError] of its own that
    lists the ids of all scenes of the collection, in collection order,
    whatever the message of the service was. *)
Theorem X5_mosaic_not_found self bands ctx mask_nodata mask_alpha bands_axis
    raster_info bl req drop common m
    (Hpre : mosaic_preflight self bands mask_alpha bands_axis bl req drop common)
    (Hraster : raster_client_ndarray (mosaic_raster_args self req common ctx)
               = inl (NotFoundError m)) :
  mosaic self bands ctx mask_nodata mask_alpha bands_axis raster_info
  = ([RasterCall (mosaic_raster_args self req common ctx)],
     inl (NotFoundError (MsgIdsNotFound (map scene_id self)))).
Proof. by rewrite (mosaic_refused _ _ _ _ _ _ _ _ _ _ _ _ Hpre Hraster). Qed.

(** X6. When the service answers with [BadRequestError], [mosaic]
    raises a [BadRequestError] whose message holds the error of the
    service and the arguments of the request that was sent. *)
Theorem X6_mosaic_bad_request self bands ctx mask_nodata mask_alpha bands_axis
    raster_info bl req drop common err
    (Hpre : mosaic_preflight self bands mask_alpha bands_axis bl req drop common)
    (Hraster : raster_client_ndarray (mosaic_raster_args self req common ctx)
               = inl (BadRequestError err)) :
  mosaic self bands ctx mask_nodata mask_alpha bands_axis raster_info
  = ([RasterCall (mosaic_raster_args self req common ctx)],
     inl (BadRequestError
            (MsgBadRequest err (mosaic_raster_args self req common ctx)))).
Proof. by rewrite (mosaic_refused _ _ _ _ _ _ _ _ _ _ _ _ Hpre Hraster). Qed.

(** X7. Any other exception of the raster service leaves [mosaic]
    unchanged: only [NotFoundError] and [BadRequestError] are caught. *)
Theorem X7_mosaic_other_error_unchanged self bands ctx mask_nodata mask_alpha
    bands_axis raster_info bl req drop common e
    (Hpre : mosaic_preflight self bands mask_alpha bands_axis bl req drop common)
    (Hraster : raster_client_ndarray (mosaic_raster_args self req common ctx) = inl e)
    (Hnot_found : forall m, e ≠ NotFoundError m)
    (Hbad_request : forall m, e ≠ BadRequestError m) :
  mosaic self bands ctx mask_nodata mask_alpha bands_axis raster_info
  = ([RasterCall (mosaic_raster_args self req common ctx)], inl e).
Proof.
  rewrite (mosaic_refused _ _ _ _ _ _ _ _ _ _ _ _ Hpre Hraster).
  destruct e; try done.
  - by destruct (Hnot_found m).
  - by destruct (Hbad_request m).
Qed.

(** ** What [mosaic] returns *)

Lemma moveaxis3_valid {A} (a : array3 A) bands_axis :
  (-3 < bands_axis < 3)%Z -> exists v, moveaxis3 a bands_axis = inr v.
Proof.
  intros Hax.
  assert (bands_axis = (-2)%Z \/ bands_axis = (-1)%Z \/ bands_axis = 0%Z
          \/ bands_axis = 1%Z \/ bands_axis = 2%Z) as Hcases by lia.
  unfold moveaxis3. destruct (a3_shape a) as [[nb h] w].
  destruct Hcases as [->|[->|[->|[->| ->]]]]; simpl; by eexists.
Qed.

Lemma ndarray_eq (a b : ndarray) :
  nd_dtype a = nd_dtype b -> a3_shape (nd_values a) = a3_shape (nd_values b) ->
  a3_at (nd_values a) = a3_at (nd_values b) -> a = b.
Proof.
  destruct a as [dta [sa fa]], b as [dtb [sb fb]]. simpl. by intros -> -> ->.
Qed.

Lemma mosaic_alpha_bands_off bl : mosaic_alpha_bands false bl = inr (bl, false).
Proof. done. Qed.

Lemma mosaic_finish_unmasked self req drop bands_axis raster_info raw info :
  (-3 < bands_axis < 3)%Z ->
  exists v,
    moveaxis3 (nd_values (as_3d raw)) bands_axis = inr v
    /\ mosaic_finish self req drop false false bands_axis raster_info raw info
       = inr (Plain (NdArray (nd_dtype (as_3d raw)) v),
              if raster_info then Some info else None).
Proof.
  intros Hax. destruct (moveaxis3_valid (nd_values (as_3d raw)) bands_axis Hax)
    as [v Hv].
  exists v. split; [done|]. unfold mosaic_finish. cbn [orb bind_sum].
  destruct (bands_axis =? 0)%Z eqn:E.
  - apply Z.eqb_eq in E. subst bands_axis. rewrite moveaxis3_0 in Hv.
    injection Hv as <-. cbn [bind_sum]. by destruct (as_3d raw).
  - cbn [moveaxis]. by rewrite Hv.
Qed.

(** X8. With [mask_nodata=False] and [mask_alpha=False], [mosaic]
    requests exactly the listed bands (no alpha is appended) and
    returns a plain array, not a masked one: the answer of the service
    with its band axis moved to [bands_axis]. *)
Theorem X8_mosaic_unmasked self bands ctx bands_axis raster_info bl req drop common
    raw info
    (Hpre : mosaic_preflight self bands false bands_axis bl req drop common)
    (Hraster : raster_client_ndarray (mosaic_raster_args self req common ctx)
               = inr (raw, info)) :
  req = bl
  /\ exists v,
       moveaxis3 (nd_values (as_3d raw)) bands_axis = inr v
       /\ mosaic self bands ctx false false bands_axis raster_info
          = ([RasterCall (mosaic_raster_args self bl common ctx)],
             inr (Plain (NdArray (nd_dtype (as_3d raw)) v),
                  if raster_info then Some info else None)).
Proof.
  pose proof Hpre as (_ & Hax & _ & Halpha & _).
  rewrite mosaic_alpha_bands_off in Halpha. injection Halpha as <- <-.
  split; [done|].
  destruct (mosaic_finish_unmasked self bl false bands_axis raster_info raw info Hax)
    as (v & Hv & Hfinish).
  exists v. split; [done|].
  by rewrite (mosaic_answered _ _ _ _ _ _ _ _ _ _ _ _ _ Hpre Hraster), Hfinish.
Qed.

(** X9. Masking does not touch the data: with [mask_alpha=False], the
    data of the masked array that [mosaic] returns under
    [mask_nodata=True] is the plain array it returns under
    [mask_nodata=False], from the same single request. *)
Theorem X9_mosaic_masked_data_is_unmasked self bands ctx bands_axis raster_info
    bl req drop common raw info h w
    (Hpre : mosaic_preflight self bands false bands_axis bl req drop common)
    (Hraster : raster_client_ndarray (mosaic_raster_args self req common ctx)
               = inr (raw, info))
    (Hshape : a3_shape (nd_values (as_3d raw)) = (length bl, h, w))
    (Hdecl : bands_declared self bl) :
  exists plain mask,
    mosaic self bands ctx false false bands_axis raster_info
    = ([RasterCall (mosaic_raster_args self req common ctx)],
       inr (Plain plain, if raster_info then Some info else None))
    /\ mosaic self bands ctx true false bands_axis raster_info
       = ([RasterCall (mosaic_raster_args self req common ctx)],
          inr (MaskedArray plain mask, if raster_info then Some info else None)).
Proof.
  pose proof Hpre as (_ & Hax & _ & Halpha & _).
  pose proof Halpha as Halpha'.
  rewrite mosaic_alpha_bands_off in Halpha'. injection Halpha' as <- <-.
  destruct (mosaic_finish_unmasked self bl false bands_axis raster_info raw info Hax)
    as (v & Hv & Hfinish).
  destruct (mosaic_mask_spec self bl bl false true false (as_3d raw) h w
              Halpha Hshape (fun _ => Hdecl))
    as (data & mask & Hmm & Hdt & Hdsh & Hdat & Hmsh & _).
  assert (data = as_3d raw) as ->.
  { apply ndarray_eq; [done|by rewrite Hdsh, Hshape|done]. }
  destruct (moveaxis3_valid mask bands_axis Hax) as [m' Hm'].
  exists (NdArray (nd_dtype (as_3d raw)) v), m'. split.
  - by rewrite (mosaic_answered _ _ _ _ _ _ _ _ _ _ _ _ _ Hpre Hraster), Hfinish.
  - rewrite (mosaic_answered _ _ _ _ _ _ _ _ _ _ _ _ _ Hpre Hraster).
    unfold mosaic_finish. cbn [orb]. rewrite Hmm. cbn [bind_sum].
    destruct (bands_axis =? 0)%Z eqn:E.
    + apply Z.eqb_eq in E. subst bands_axis.
      rewrite moveaxis3_0 in Hv. rewrite moveaxis3_0 in Hm'.
      injection Hv as <-. injection Hm' as <-. cbn [bind_sum].
      by destruct (as_3d raw).
    + cbn [moveaxis]. by rewrite Hv, Hm'.
Qed.

(** X10. "If only 1 band requested, still return a 3d array": when the
    service answers with a two-axis raster, [mosaic] (here without
    masking, band axis first) returns it with a leading band axis of
    length 1. *)
Theorem X10_mosaic_single_band_3d self bands ctx raster_info bl req drop common
    dtype a info
    (Hpre : mosaic_preflight self bands false 0 bl req drop common)
    (Hraster : raster_client_ndarray (mosaic_raster_args self req common ctx)
               = inr (Raster2D dtype a, info)) :
  exists arr,
    mosaic self bands ctx false false 0 raster_info
    = ([RasterCall (mosaic_raster_args self req common ctx)],
       inr (Plain arr, if raster_info then Some info else None))
    /\ nd_dtype arr = dtype
    /\ a3_shape (nd_values arr) = (1, fst (a2_shape a), snd (a2_shape a))
    /\ forall b y x, a3_at (nd_values arr) b y x = a2_at a y x.
Proof.
  exists (newaxis dtype a). split.
  - by rewrite (mosaic_answered _ _ _ _ _ _ _ _ _ _ _ _ _ Hpre Hraster).
  - unfold newaxis. by destruct (a2_shape a).
Qed.

Lemma mosaic_alpha_last front :
  "alpha" ∉ front ->
  mosaic_alpha_bands true (front ++ ["alpha"]) = inr (front ++ ["alpha"], false).
Proof.
  intros Hfront. unfold mosaic_alpha_bands.
  destruct (list_find _ (front ++ ["alpha"])) as [[j b]|] eqn:E.
  - apply list_find_Some in E as (Hj & -> & _).
    assert (j = length front) as ->.
    { destruct (decide (j < length front)) as [Hlt|Hge].
      - rewrite lookup_app_l in Hj by done. destruct Hfront.
        by eapply list_elem_of_lookup_2.
      - apply lookup_lt_Some in Hj. rewrite length_app in Hj. simpl in Hj. lia. }
    rewrite length_app. simpl. rewrite Nat.add_sub. by rewrite Nat.eqb_refl.
  - apply list_find_None in E. rewrite Forall_forall in E.
    destruct (E "alpha"); [|done]. apply elem_of_app. right. apply list_elem_of_here.
Qed.

(** X11. An alpha band that is listed (last) is not fetched twice and
    not dropped: with [mask_alpha=True] the request carries the band
    list as given, the returned array keeps all its bands, alpha
    included, and every band, alpha itself too, is masked where alpha
    is zero. *)
Theorem X11_mosaic_listed_alpha_kept self bands front common raw info h w ctx
    mask_nodata bands_axis raster_info
    (Hne : self ≠ []) (Hax : (-3 < bands_axis < 3)%Z)
    (Hbands : _bands_to_list bands = inr (front ++ ["alpha"]))
    (Hfront : "alpha" ∉ front)
    (Hcommon : _common_data_type self (front ++ ["alpha"]) = inr common)
    (Hraster : raster_client_ndarray
                 (mosaic_raster_args self (front ++ ["alpha"]) common ctx)
               = inr (raw, info))
    (Hshape : a3_shape (nd_values (as_3d raw)) = (length front + 1, h, w))
    (Hdecl : mask_nodata = true -> bands_declared self (front ++ ["alpha"])) :
  exists data mask arr',
    mosaic self bands ctx mask_nodata true bands_axis raster_info
    = ([RasterCall (mosaic_raster_args self (front ++ ["alpha"]) common ctx)],
       inr (arr', if raster_info then Some info else None))
    /\ moveaxis (MaskedArray data mask) bands_axis = inr arr'
    /\ a3_shape (nd_values data) = (length front + 1, h, w)
    /\ a3_shape mask = (length front + 1, h, w)
    /\ (forall i y x,
          a3_at (nd_values data) i y x = a3_at (nd_values (as_3d raw)) i y x)
    /\ (forall i y x,
          a3_at (nd_values data) (length front) y x = 0%Z ->
          a3_at mask i y x = true).
Proof.
  destruct (mosaic_returns self bands (front ++ ["alpha"]) (front ++ ["alpha"]) false
              common raw info h w ctx mask_nodata true bands_axis raster_info)
    as (data & mask & arr' & Hret & Hmove & _ & Hdsh & Hdat & Hmsh & Hmat);
    [done|done|done|by apply mosaic_alpha_last|done|done| |done| |].
  { by rewrite length_app. }
  { by rewrite orb_true_r. }
  rewrite length_app in Hdsh, Hmsh. simpl in Hdsh, Hmsh.
  exists data, mask, arr'. split_and!; [done..| |].
  - intros i y x. by rewrite Hdat.
  - intros i y x Hzero. apply Hmat. right. split; [done|].
    rewrite length_app. simpl. rewrite Nat.add_sub. by rewrite <- Hdat.
Qed.

Lemma moveaxis_negative arr :
  moveaxis arr (-1) = moveaxis arr 2 /\ moveaxis arr (-2) = moveaxis arr 1.
Proof.
  destruct arr as [[dt v]|[dt v] m]; unfold moveaxis, moveaxis3; cbn [nd_values];
    destruct (a3_shape v) as [[nb h] w]; try destruct (a3_shape m) as [[nb' h'] w'];
    done.
Qed.

Lemma mosaic_moves self bands ctx mask_nodata mask_alpha bands_axis raster_info :
  (-3 < bands_axis < 3)%Z ->
  mosaic self bands ctx mask_nodata mask_alpha bands_axis raster_info
  = (r <- mosaic self bands ctx mask_nodata mask_alpha 0 raster_info ;;
     arr <- lift (moveaxis (fst r) bands_axis) ;;
     ret (arr, snd r)).
Proof.
  intros Hax. unfold mosaic. destruct (length self =? 0); [done|].
  apply valid_bands_axis_spec in Hax. rewrite Hax. simpl.
  apply mosaic_load_moves.
Qed.

(** X12. A negative [bands_axis] counts from the last axis: [mosaic]
    with [bands_axis=-1] is [mosaic] with [bands_axis=2], and with
    [bands_axis=-2] it is [mosaic] with [bands_axis=1]. *)
Theorem X12_mosaic_negative_axis self bands ctx mask_nodata mask_alpha raster_info :
  mosaic self bands ctx mask_nodata mask_alpha (-1) raster_info
  = mosaic self bands ctx mask_nodata mask_alpha 2 raster_info
  /\ mosaic self bands ctx mask_nodata mask_alpha (-2) raster_info
     = mosaic self bands ctx mask_nodata mask_alpha 1 raster_info.
Proof.
  split.
  - rewrite (mosaic_moves _ _ _ _ _ (-1)%Z) by lia.
    rewrite (mosaic_moves _ _ _ _ _ 2%Z) by lia.
    apply bind_ext. intros r. by rewrite (proj1 (moveaxis_negative (fst r))).
  - rewrite (mosaic_moves _ _ _ _ _ (-2)%Z) by lia.
    rewrite (mosaic_moves _ _ _ _ _ 1%Z) by lia.
    apply bind_ext. intros r. by rewrite (proj2 (moveaxis_negative (fst r))).
Qed.

Lemma moveaxis3_middle {A} (a : array3 A) :
  exists a', moveaxis3 a 1 = inr a' /\ axis_moved_middle a a'.
Proof.
  unfold moveaxis3, axis_moved_middle.
  destruct (a3_shape a) as [[nb h] w] eqn:E. simpl. by eexists.
Qed.

(** X13. With [bands_axis=1] the band axis of the band-major result is
    the middle axis of what [mosaic] returns: shape [(y, band, x)], the
    value and the mask entry at [(y, b, x)] being those of
    [(b, y, x)]. *)
Theorem X13_mosaic_bands_axis_middle self bands ctx mask_nodata mask_alpha
    raster_info log arr info
    (Hmajor : mosaic self bands ctx mask_nodata mask_alpha 0 raster_info
              = (log, inr (arr, info))) :
  exists arr',
    mosaic self bands ctx mask_nodata mask_alpha 1 raster_info
    = (log, inr (arr', info))
    /\ arr_dtype arr' = arr_dtype arr
    /\ axis_moved_middle (nd_values (arr_data arr)) (nd_values (arr_data arr'))
    /\ match arr_mask arr, arr_mask arr' with
       | Some m, Some m' => axis_moved_middle m m'
       | None, None => True
       | _, _ => False
       end.
Proof.
  rewrite (mosaic_moves _ _ _ _ _ 1%Z) by lia. rewrite Hmajor.
  unfold bind. cbn [fst snd].
  destruct arr as [[dt v]|[dt v] m]; cbn [moveaxis nd_values nd_dtype].
  - destruct (moveaxis3_middle v) as (v' & -> & Hv). eexists. split.
    + simpl. by rewrite app_nil_r.
    + done.
  - destruct (moveaxis3_middle v) as (v' & -> & Hv).
    destruct (moveaxis3_middle m) as (m' & -> & Hm). eexists. split.
    + simpl. by rewrite app_nil_r.
    + done.
Qed.

(** X14. A nodata value of [None] masks nothing: with
    [mask_nodata=True] and [mask_alpha=False], when no scene declares a
    nodata value for any listed band, [mosaic] still returns a masked
    array, and no entry of its mask is set. *)
Theorem X14_mosaic_no_sentinel_no_mask self bands ctx bands_axis raster_info
    bl req drop common raw info h w
    (Hpre : mosaic_preflight self bands false bands_axis bl req drop common)
    (Hraster : raster_client_ndarray (mosaic_raster_args self req common ctx)
               = inr (raw, info))
    (Hshape : a3_shape (nd_values (as_3d raw)) = (length req, h, w))
    (Hdecl : bands_declared self bl)
    (Hnone : forall scene bandname props,
               scene ∈ self -> bandname ∈ bl ->
               scene_bands scene !! bandname = Some props ->
               band_nodata props = None) :
  exists data mask arr',
    mosaic self bands ctx true false bands_axis raster_info
    = ([RasterCall (mosaic_raster_args self req common ctx)],
       inr (arr', if raster_info then Some info else None))
    /\ moveaxis (MaskedArray data mask) bands_axis = inr arr'
    /\ a3_shape mask = (length bl, h, w)
    /\ forall i y x, a3_at mask i y x = false.
Proof.
  destruct Hpre as (Hne & Hax & Hbands & Halpha & Hcommon).
  destruct (mosaic_returns self bands bl req drop common raw info h w ctx
              true false bands_axis raster_info)
    as (data & mask & arr' & Hret & Hmove & _ & _ & _ & Hmsh & Hmat); [done..|].
  exists data, mask, arr'. split_and!; [done..|].
  intros i y x. destruct (a3_at mask i y x) eqn:E; [|done].
  apply Hmat in E as [(_ & name & Hi & s & props & Hs & Hp & Hn)|[? _]]; [|done].
  rewrite (Hnone s name props) in Hn; [done|done| |done].
  by eapply list_elem_of_lookup_2.
Qed.

(** ** [stack]: guards, items and fetches *)

(** X15. [stack] rejects [bands_axis=-4], the negative name of axis 0 of
    a four-axis array, like [bands_axis=0]: on a non-empty collection
    it raises [NotImplementedError] and sends nothing. *)
Theorem X15_stack_bands_axis_minus_4 self bands ctx flatten mask_nodata mask_alpha
    raster_info max_workers futures (Hne : self ≠ []) :
  stack self bands ctx flatten mask_nodata mask_alpha (-4) raster_info
    max_workers futures = raise (NotImplementedError MsgStackBandsAxis).
Proof. unfold stack. by rewrite (length_eqb_0 _ Hne). Qed.

Lemma stack_after_preflight self bands ctx flatten mask_nodata mask_alpha bands_axis
    raster_info max_workers futures scenes bl common :
  stack_preflight self bands flatten mask_nodata mask_alpha bands_axis scenes bl
    common ->
  stack self bands ctx flatten mask_nodata mask_alpha bands_axis raster_info
    max_workers futures
  = (st <- match futures with
           | FuturesUnavailable =>
               serial_loop (length scenes) raster_info 0
                 (map (fun s => data_loader s bl ctx
                                  (stack_kwargs mask_nodata mask_alpha bands_axis
                                     raster_info)) scenes)
                 (StackState None None
                    (if raster_info then replicate (length scenes) None else []))
           | FuturesAvailable completion =>
               pool_loop (length scenes) raster_info max_workers completion
                 (map (fun s => data_loader s bl ctx
                                  (stack_kwargs mask_nodata mask_alpha bands_axis
                                     raster_info)) scenes)
                 (StackState None None
                    (if raster_info then replicate (length scenes) None else []))
           end ;;
     ret (stack_return raster_info st)).
Proof.
  intros (Hne & H0 & H4 & Hitems & Hbands & Hcommon).
  rewrite stack_guards by done. unfold stack_load.
  by rewrite Hitems, bind_lift_inr, Hbands, bind_lift_inr, Hcommon, bind_lift_inr.
Qed.

Lemma first_taken_raises n raster_info max_workers futures loaders st k loader e :
  workers_ok max_workers -> first_taken futures = Some k ->
  loaders !! k = Some loader -> outcome loader = inl e ->
  outcome match futures with
          | FuturesUnavailable => serial_loop n raster_info 0 loaders st
          | FuturesAvailable completion =>
              pool_loop n raster_info max_workers completion loaders st
          end = inl e.
Proof.
  intros Hmw Hfirst Hk He. destruct futures as [|completion]; simpl in Hfirst.
  - injection Hfirst as <-. destruct loaders as [|l rest]; [done|].
    injection Hk as ->. cbn [serial_loop]. by apply outcome_bind_inl.
  - destruct completion as [|k' rest]; [done|]. injection Hfirst as ->.
    rewrite pool_loop_workers_ok by done. unfold outcome at 1.
    cbn [snd completed_loop]. rewrite list_lookup_fmap, Hk. simpl. by rewrite He.
Qed.

Lemma stack_first_raises self bands ctx flatten mask_nodata mask_alpha bands_axis
    raster_info max_workers futures scenes bl common k it e :
  stack_preflight self bands flatten mask_nodata mask_alpha bands_axis scenes bl
    common ->
  workers_ok max_workers -> first_taken futures = Some k ->
  scenes !! k = Some it ->
  outcome (data_loader it bl ctx
             (stack_kwargs mask_nodata mask_alpha bands_axis raster_info)) = inl e ->
  outcome (stack self bands ctx flatten mask_nodata mask_alpha bands_axis raster_info
             max_workers futures) = inl e.
Proof.
  intros Hpre Hworkers Hfirst Hitem Hraises.
  rewrite (stack_after_preflight _ _ _ _ _ _ _ _ _ _ _ _ _ Hpre).
  apply outcome_bind_inl.
  apply (first_taken_raises _ _ _ _ _ _ k
           (data_loader it bl ctx
              (stack_kwargs mask_nodata mask_alpha bands_axis raster_info)));
    [done|done| |done].
  by rewrite list_lookup_fmap, Hitem.
Qed.

(** X16. A failing fetch fails the stack: once the pre-flight checks
    passed, when the loader of the item whose result the loop takes
    first (item 0 on the serial path, the first future to complete in
    the pool) raises an exception, [stack] raises that exception. *)
Theorem X16_stack_first_failure_propagates self bands ctx flatten mask_nodata
    mask_alpha bands_axis raster_info max_workers futures scenes bl common k it e
    (Hpre : stack_preflight self bands flatten mask_nodata mask_alpha bands_axis
              scenes bl common)
    (Hworkers : workers_ok max_workers)
    (Hfirst : first_taken futures = Some k)
    (Hitem : scenes !! k = Some it)
    (Hraises : outcome (data_loader it bl ctx
                          (stack_kwargs mask_nodata mask_alpha bands_axis raster_info))
               = inl e) :
  outcome (stack self bands ctx flatten mask_nodata mask_alpha bands_axis raster_info
             max_workers futures) = inl e.
Proof. by eapply stack_first_raises. Qed.

(** X17. [stack] does not check the upper end of [bands_axis] itself.
    Over a [flatten] group of several scenes an axis that [mosaic]
    cannot place is rejected by the nested [mosaic], whose message
    names the axis it was handed: [bands_axis - 1] for a [bands_axis]
    above 3, and [bands_axis] itself for one below -2. *)
Theorem X17_stack_group_axis_out_of_range self bands ctx flatten mask_nodata
    mask_alpha bands_axis raster_info max_workers futures scenes bl common k sc
    (Hpre : stack_preflight self bands flatten mask_nodata mask_alpha bands_axis
              scenes bl common)
    (Hworkers : workers_ok max_workers)
    (Hfirst : first_taken futures = Some k)
    (Hitem : scenes !! k = Some (ItemCollection sc))
    (Hout : (3 < bands_axis \/ bands_axis < -2)%Z) :
  outcome (stack self bands ctx flatten mask_nodata mask_alpha bands_axis raster_info
             max_workers futures)
  = inl (ValueError (MsgInvalidBandsAxis
                       (if (3 <? bands_axis)%Z then (bands_axis - 1)%Z
                        else bands_axis))).
Proof.
  apply (stack_first_raises self bands ctx flatten mask_nodata
           mask_alpha bands_axis raster_info max_workers futures scenes bl common k
           (ItemCollection sc)); [done..|].
  pose proof Hpre as (_ & _ & _ & Hitems & _).
  assert (sc ≠ []) as Hsc.
  { eapply stack_items_collection; [done|]. by eapply list_elem_of_lookup_2. }
  cbn [data_loader stack_kwargs kw_mask_nodata kw_mask_alpha kw_bands_axis
         kw_raster_info].
  unfold mosaic. rewrite (length_eqb_0 _ Hsc).
  destruct (3 <? bands_axis)%Z eqn:E3.
  - apply Z.ltb_lt in E3. destruct (0 <? bands_axis)%Z eqn:E0; [|lia].
    destruct (valid_bands_axis (bands_axis - 1)) eqn:Ev; [|done].
    apply valid_bands_axis_spec in Ev. lia.
  - apply Z.ltb_ge in E3. destruct (0 <? bands_axis)%Z eqn:E0; [lia|].
    destruct (valid_bands_axis bands_axis) eqn:Ev; [|done].
    apply valid_bands_axis_spec in Ev. lia.
Qed.

(** X18. With [flatten], [stack] has one item per group, in the order
    of the groups: a group of one scene is that scene, a group of
    several scenes is a collection to mosaic; no item is ever a
    collection of fewer than two scenes. A group without scenes makes
    [stack] raise [IndexError]. *)
Theorem X18_stack_items_groups self flatten groups
    (Hgroups : groupby self (flatten_predicates flatten) = inr groups) :
  (Forall (fun g => snd g ≠ []) groups ->
     stack_items self (Some flatten) = inr (map (fun g => group_item (snd g)) groups)
     /\ forall sc, ItemCollection sc ∈ map (fun g => group_item (snd g)) groups ->
                   2 <= length sc)
  /\ (Exists (fun g => snd g = []) groups ->
      stack_items self (Some flatten) = inl (IndexError (MsgIndex 0))).
Proof.
  unfold stack_items, flatten_predicates in *. rewrite Hgroups. cbn [bind_sum].
  clear Hgroups. split.
  - intros Hall. split.
    + induction Hall as [|[key sc] groups Hsc _ IH]; [done|]. simpl in *.
      rewrite IH. by destruct sc as [|s1 [|s2 sc]].
    + intros sc Hin. apply list_elem_of_fmap in Hin as ([key sc'] & Heq & Hmem).
      rewrite Forall_forall in Hall. specialize (Hall _ Hmem).
      simpl in Heq, Hall. destruct sc' as [|s1 [|s2 sc']]; simpl in Heq;
        [done|discriminate Heq|]. injection Heq as ->. simpl. lia.
  - intros Hex. induction groups as [|[key sc] groups IH]; [by inversion Hex|].
    simpl. destruct sc as [|s1 [|s2 sc]]; [done|..];
      (inversion Hex as [? ? Hhd|? ? Htl]; subst; [done|]; by rewrite IH).
Qed.

Lemma bind_logged {A B} (log : list call) (a : A) (k : A -> M B) :
  bind (log, inr a) k = (log ++ calls (k a), outcome (k a)).
Proof. unfold bind, calls, outcome. by destruct (k a). Qed.

Lemma serial_loop_calls n raster_info loaders :
  forall i st,
    exists k,
      k <= length loaders
      /\ calls (serial_loop n raster_info i loaders st)
         = concat (map calls (take k loaders))
      /\ (forall st', outcome (serial_loop n raster_info i loaders st) = inr st' ->
                      k = length loaders).
Proof.
  induction loaders as [|loader rest IH]; intros i st.
  - exists 0. by split_and!.
  - cbn [serial_loop]. destruct loader as [log0 [e|result]].
    + exists 1. split_and!; [simpl; lia|simpl; by rewrite app_nil_r|done].
    + rewrite bind_logged.
      destruct (place n raster_info st i result) as [e|st1].
      * rewrite bind_lift_inl.
        exists 1. split_and!; [simpl; lia|simpl; by rewrite app_nil_r|done].
      * rewrite bind_lift_inr.
        destruct (IH (S i) st1) as (k & Hk & Hcalls & Hret).
        exists (S k). split_and!; [simpl; lia|simpl; by rewrite Hcalls|].
        intros st' Hst'. simpl. f_equal. by eapply Hret.
Qed.


Lemma elem_of_concat {A} (x : A) (ls : list (list A)) :
  x ∈ concat ls <-> exists l, x ∈ l /\ l ∈ ls.
Proof.
  rewrite list_elem_of_In, in_concat. split.
  - intros (l & Hl & Hx). exists l. by rewrite !list_elem_of_In.
  - intros (l & Hx & Hl). exists l. by rewrite <- !list_elem_of_In.
Qed.

Lemma elem_of_take_1 {A} (x : A) n (l : list A) : x ∈ take n l -> x ∈ l.
Proof.
  intros (i & Hi & _)%elem_of_take. by eapply list_elem_of_lookup_2.
Qed.

(** X20. [stack] sends nothing to the raster service unless all its
    pre-flight checks passed (a non-empty collection, a [bands_axis]
    other than 0 and -4, the [flatten] grouping, the band list, one
    common data type), and every request it sends is a request of the
    loader of one of its items. *)
Theorem X20_stack_request_after_preflight self bands ctx flatten mask_nodata
    mask_alpha bands_axis raster_info max_workers futures c
    (Hsent : c ∈ calls (stack self bands ctx flatten mask_nodata mask_alpha
                          bands_axis raster_info max_workers futures)) :
  exists scenes bl common,
    stack_preflight self bands flatten mask_nodata mask_alpha bands_axis scenes bl
      common
    /\ exists it,
         it ∈ scenes
         /\ c ∈ calls (data_loader it bl ctx
                         (stack_kwargs mask_nodata mask_alpha bands_axis raster_info)).
Proof.
  assert (forall A (e : exn), c ∈ calls (@raise A e) -> False) as Hraise.
  { intros A e Hin. by apply elem_of_nil in Hin. }
  pose proof Hsent as Hsent'. unfold stack in Hsent'.
  destruct self as [|s self]; [by apply Hraise in Hsent'|].
  cbn [length Nat.eqb] in Hsent'.
  destruct (bands_axis =? 0)%Z eqn:E0; [by apply Hraise in Hsent'|].
  destruct (bands_axis =? -4)%Z eqn:E4; [by apply Hraise in Hsent'|].
  cbn [orb] in Hsent'. unfold stack_load in Hsent'.
  destruct (stack_items (s :: self) flatten) as [e|scenes] eqn:Hitems;
    [by apply Hraise in Hsent'|].
  rewrite bind_lift_inr in Hsent'.
  destruct (_bands_to_list bands) as [e|bl] eqn:Hbands; [by apply Hraise in Hsent'|].
  rewrite bind_lift_inr in Hsent'.
  destruct (_common_data_type (s :: self) _) as [e|common] eqn:Hcommon;
    [by apply Hraise in Hsent'|].
  clear Hsent'. apply Z.eqb_neq in E0, E4.
  assert (stack_preflight (s :: self) bands flatten mask_nodata mask_alpha bands_axis
            scenes bl common) as Hpre by done.
  exists scenes, bl, common. split; [done|].
  rewrite (stack_after_preflight _ _ _ _ _ _ _ _ _ _ _ _ _ Hpre) in Hsent.
  set (loaders := map (fun s => data_loader s bl ctx
                                  (stack_kwargs mask_nodata mask_alpha bands_axis
                                     raster_info)) scenes) in *.
  assert (c ∈ concat (map calls loaders)) as Hin.
  { destruct futures as [|completion].
    - destruct (serial_loop_calls (length scenes) raster_info loaders 0
                  (StackState None None
                     (if raster_info then replicate (length scenes) None else [])))
        as (k & _ & Hcalls & _).
      destruct (serial_loop _ _ _ _ _) as [log [e|st]];
        unfold calls, bind in *; cbn [fst snd ret] in *;
        rewrite ?app_nil_r, Hcalls in Hsent.
      + apply elem_of_concat in Hsent as (l & Hc & Hl).
        apply elem_of_concat. exists l. split; [done|].
        apply list_elem_of_fmap in Hl as (ld & -> & Hld).
        apply list_elem_of_fmap. exists ld. split; [done|].
        by eapply elem_of_take_1.
      + apply elem_of_concat in Hsent as (l & Hc & Hl).
        apply elem_of_concat. exists l. split; [done|].
        apply list_elem_of_fmap in Hl as (ld & -> & Hld).
        apply list_elem_of_fmap. exists ld. split; [done|].
        by eapply elem_of_take_1.
    - unfold pool_loop in Hsent.
      destruct (match max_workers with
                | Some w => if (w <=? 0)%Z then raise (ValueError MsgMaxWorkers)
                            else ret tt
                | None => ret tt
                end) as [log0 [e|[]]] eqn:Emw.
      + assert (log0 = []) as -> by (destruct max_workers as [w|];
          [destruct (w <=? 0)%Z|]; by injection Emw).
        by apply elem_of_nil in Hsent.
      + assert (log0 = []) as -> by (destruct max_workers as [w|];
          [destruct (w <=? 0)%Z|]; by injection Emw).
        unfold bind, calls in Hsent. cbn [fst snd] in Hsent.
        destruct (completed_loop _ _ _ _ _) as [e|st];
          cbn [fst snd ret] in Hsent; by rewrite ?app_nil_r in Hsent. }
  apply elem_of_concat in Hin as (l & Hc & Hl).
  apply list_elem_of_fmap in Hl as (ld & -> & Hld).
  apply list_elem_of_fmap in Hld as (it & -> & Hit).
  by exists it.
Qed.

End MoreProperties.

(** * Properties of the raster client *)

Section RasterProperties.

Import RasterService.

Context `{Transport}.

Variable url : string.

Lemma hbind_ret {A B} (a : A) (k : A -> H B) : hbind (hret a) k = k a.
Proof. unfold hbind, hret. simpl. by destruct (k a). Qed.

Lemma hbind_local_inr {A B} (a : A) (k : A -> H B) : hbind (local (inr a)) k = k a.
Proof. apply hbind_ret. Qed.

(** X21. An answer with a status code other than 200 makes [raster]
    and [ndarray] raise [RuntimeError] with that status code and the
    text of the answer; nothing of the answer is decoded. *)
Theorem X21_raster_client_status_error kw r_raster r_array
    (Hlocation : location kw = None)
    (Hraster : session_post (url +:+ "/raster")
                 (make_params kw (shape kw) (Some (output_format kw)))
               = inr r_raster)
    (Harray : session_post (url +:+ "/featurearray") (make_params kw (shape kw) None)
              = inr r_array)
    (Hsr : status_code r_raster ≠ 200%Z)
    (Hsa : status_code r_array ≠ 200%Z) :
  raster url kw
  = ([Post (url +:+ "/raster") (make_params kw (shape kw) (Some (output_format kw)))],
     inl (RuntimeError (status_code r_raster) (text r_raster)))
  /\ ndarray url kw
     = ([Post (url +:+ "/featurearray") (make_params kw (shape kw) None)],
        inl (RuntimeError (status_code r_array) (text r_array))).
Proof.
  apply Z.eqb_neq in Hsr, Hsa. split.
  - unfold raster. rewrite Hlocation, hbind_ret. unfold post. rewrite Hraster.
    unfold hbind at 1. unfold check_status. by rewrite Hsr.
  - unfold ndarray, feature_array. rewrite Hlocation, hbind_ret. unfold post.
    rewrite Harray. unfold hbind at 2. unfold check_status. by rewrite Hsa.
Qed.

Lemma transpose_120_moved {A} (a : array3 A) :
  moveaxis3 a (-1) = inr (transpose_120 a) /\ axis_moved_last a (transpose_120 a).
Proof.
  unfold moveaxis3, transpose_120, axis_moved_last.
  by destruct (a3_shape a) as [[nb h] w].
Qed.

(** X22. The two orders of [ndarray] hold the same values: for the same
    arguments, and from the same requests, the array of
    [order='image'] is the array of [order='gdal'] with its band axis
    moved last ([np.moveaxis(arr, 0, -1)]): shape (row, column, band)
    and [image[y][x][b] = gdal[b][y][x]]. *)
Theorem X22_ndarray_image_is_gdal_moved kw log fa
    (Hgdal : ndarray url (with_order "gdal" kw) = (log, inr (Some fa))) :
  exists image,
    ndarray url (with_order "image" kw) = (log, inr (Some image))
    /\ moveaxis (Plain fa) (-1) = inr (Plain image)
    /\ nd_dtype image = nd_dtype fa
    /\ axis_moved_last (nd_values fa) (nd_values image).
Proof.
  exists (NdArray (nd_dtype fa) (transpose_120 (nd_values fa))).
  destruct (transpose_120_moved (nd_values fa)) as [Hmove Hlast].
  split_and!; [|by cbn [moveaxis]; rewrite Hmove|done|done].
  revert Hgdal. unfold ndarray.
  change (feature_array url (with_order "gdal" kw)) with (feature_array url kw).
  change (feature_array url (with_order "image" kw)) with (feature_array url kw).
  destruct (feature_array url kw) as [log0 [e|fa']]; [done|].
  simpl. by intros [= <- <-].
Qed.

(** X23. [ndarray] does not reject an [order] it does not know: for an
    [order] other than ['image'] and ['gdal'] it sends the same
    requests and, where [order='gdal'] returns an array, returns
    [None]. *)
Theorem X23_ndarray_unknown_order_returns_none kw log r
    (Himage : order kw ≠ "image") (Hgdal : order kw ≠ "gdal")
    (Hreturns : ndarray url (with_order "gdal" kw) = (log, inr r)) :
  ndarray url kw = (log, inr None).
Proof.
  apply String.eqb_neq in Himage, Hgdal.
  revert Hreturns. unfold ndarray.
  change (feature_array url (with_order "gdal" kw)) with (feature_array url kw).
  cbn [order with_order]. rewrite Himage, Hgdal.
  destruct (feature_array url kw) as [log0 [e|fa']]; [done|].
  simpl. by intros [= <- _].
Qed.

Lemma hbind_lookup {A B} (m : H A) (k : A -> H B) i c :
  fst m !! i = Some c -> fst (hbind m k) !! i = Some c.
Proof.
  destruct m as [log [e|a]]; simpl; [done|]. apply lookup_app_l_Some.
Qed.

Lemma hbind_head {A B} (m : H A) (k : A -> H B) c :
  head (fst m) = Some c -> head (fst (hbind m k)) = Some c.
Proof. rewrite !head_lookup. apply hbind_lookup. Qed.

Lemma places_shape_head l : head (fst (places_shape l)) = Some (PlacesShape l).
Proof. done. Qed.

Lemma hbind_logged {A B} (log : list request) (a : A) (k : A -> H B) i :
  fst (hbind (log, inr a) k) !! (length log + i) = fst (k a) !! i.
Proof. simpl. by rewrite lookup_app_r, Nat.add_sub' by lia. Qed.

(** X24. A location overrides the shape: with a non-empty [location],
    [raster] and [ndarray] first ask Places for its geometry and then
    post that geometry as the cutline; the [shape] argument is not
    read. *)
Theorem X24_location_overrides_shape kw c l s geometry
    (Hlocation : location kw = Some (String c l))
    (Hgeometry : places_geometry (String c l) = inr geometry) :
  raster url (with_shape s kw) = raster url kw
  /\ ndarray url (with_shape s kw) = ndarray url kw
  /\ fst (raster url kw) !! 0 = Some (PlacesShape (String c l))
  /\ fst (raster url kw) !! 1
     = Some (Post (url +:+ "/raster")
               (make_params kw (Some geometry) (Some (output_format kw))))
  /\ fst (ndarray url kw) !! 0 = Some (PlacesShape (String c l))
  /\ fst (ndarray url kw) !! 1
     = Some (Post (url +:+ "/featurearray") (make_params kw (Some geometry) None)).
Proof.
  unfold raster, ndarray, feature_array.
  change (location (with_shape s kw)) with (location kw). rewrite Hlocation.
  split_and!; [reflexivity|reflexivity|..].
  - by apply hbind_lookup.
  - unfold places_shape. rewrite Hgeometry.
    rewrite (hbind_logged [PlacesShape (String c l)] (Some geometry) _ 0).
    by apply hbind_lookup.
  - by do 2 apply hbind_lookup.
  - apply hbind_lookup. unfold places_shape. rewrite Hgeometry.
    rewrite (hbind_logged [PlacesShape (String c l)] (Some geometry) _ 0).
    by apply hbind_lookup.
Qed.

(** X25. The two methods disagree on an empty [location]: [raster]
    ([if location:]) treats it as no location and sends the [shape] it
    was given, whereas [ndarray] ([if location is not None:]) asks
    Places for the geometry of the empty name. *)
Theorem X25_empty_location kw :
  raster url (with_location (Some "") kw) = raster url (with_location None kw)
  /\ head (fst (ndarray url (with_location (Some "") kw))) = Some (PlacesShape "").
Proof.
  split; [done|]. unfold ndarray, feature_array.
  cbn [location with_location]. repeat apply hbind_head. apply places_shape_head.
Qed.

Lemma hbind_inr {A B} (m : H A) (k : A -> H B) log b :
  hbind m k = (log, inr b) ->
  exists log1 a log2, m = (log1, inr a) /\ k a = (log2, inr b) /\ log = log1 ++ log2.
Proof.
  destruct m as [log1 [e|a]]; simpl; [done|]. destruct (k a) as [log2 r] eqn:E.
  simpl. intros [= <- ->]. by exists log1, a, log2.
Qed.

Lemma local_inr {A} (r : exn + A) log a : local r = (log, inr a) -> r = inr a.
Proof. unfold local. destruct r; [done|]. by intros [= _ ->]. Qed.

Lemma decode_list l :
  forall acc decoded,
    NoDup l.*1 ->
    for_each (fun (decoded : gmap string (list Byte.byte)) (kv : string * string) =>
                d <~ b64decode (snd kv) ;; inr (<[fst kv := d]> decoded)) acc l
    = inr decoded ->
    forall k,
      (forall s, (k, s) ∈ l -> exists d, b64decode s = inr d /\ decoded !! k = Some d)
      /\ (k ∉ l.*1 -> decoded !! k = acc !! k).
Proof.
  induction l as [|[k0 s0] l IH]; intros acc decoded Hnd Hrun k; cbn [for_each] in Hrun.
  - injection Hrun as <-. split; [|done]. intros s Hin. by apply elem_of_nil in Hin.
  - cbn [fst snd] in Hrun. destruct (b64decode s0) as [e|d0] eqn:E0; [done|].
    cbn [bind_sum] in Hrun. simpl in Hnd. apply NoDup_cons in Hnd as [Hk0 Hnd].
    destruct (IH _ _ Hnd Hrun k) as [Hin Hout]. split.
    + intros s [[= -> ->]|Hs]%elem_of_cons; [|by apply Hin].
      exists d0. split; [done|]. rewrite Hout by done. apply lookup_insert_eq.
    + simpl. intros [Hne Hnot]%not_elem_of_cons. rewrite Hout by done.
      by rewrite lookup_insert_ne.
Qed.

Lemma decode_files_spec files decoded :
  decode_files files = inr decoded ->
  forall k, match files !! k with
            | Some s => exists d, b64decode s = inr d /\ decoded !! k = Some d
            | None => decoded !! k = None
            end.
Proof.
  intros Hrun k.
  destruct (decode_list _ _ _ (NoDup_fst_map_to_list files) Hrun k) as [Hin Hout].
  destruct (files !! k) as [s|] eqn:E.
  - apply Hin. by apply elem_of_map_to_list.
  - rewrite Hout; [apply lookup_empty|].
    intros ([k' s] & -> & Hks)%list_elem_of_fmap.
    apply elem_of_map_to_list in Hks. simpl in E. congruence.
Qed.

(** X26. When [raster] returns, the answer had status 200 and the
    result is its JSON object with every file of ['files'] base64
    decoded: the decoded files have the names of the files of the
    answer, each holding the decoded text of the file of its name, and
    every other entry of the JSON object is returned as it came. *)
Theorem X26_raster_returns_decoded_files kw log result
    (Hreturns : raster url kw = (log, inr result)) :
  exists shape r json_resp files decoded,
    session_post (url +:+ "/raster")
      (make_params kw shape (Some (output_format kw))) = inr r
    /\ status_code r = 200%Z
    /\ json r = inr json_resp
    /\ json_resp !! "files" = Some (JObject files)
    /\ result !! "files" = Some (RFiles decoded)
    /\ (forall k, k ≠ "files" -> result !! k = kept <$> json_resp !! k)
    /\ (forall k, match files !! k with
                  | Some s => exists d, b64decode s = inr d /\ decoded !! k = Some d
                  | None => decoded !! k = None
                  end).
Proof.
  unfold raster in Hreturns.
  apply hbind_inr in Hreturns as (log1 & shape & log2 & _ & Hreturns & _).
  apply hbind_inr in Hreturns as (log3 & r & log4 & Hpost & Hreturns & _).
  apply hbind_inr in Hreturns as (log5 & [] & log6 & Hstatus & Hreturns & _).
  apply hbind_inr in Hreturns as (log7 & json_resp & log8 & Hjson & Hreturns & _).
  apply hbind_inr in Hreturns as (log9 & files & log10 & Hfiles & Hreturns & _).
  apply hbind_inr in Hreturns as (log11 & decoded & log12 & Hdecoded & Hreturns & _).
  injection Hreturns as _ <-.
  apply local_inr in Hjson, Hfiles, Hdecoded.
  exists shape, r, json_resp, files, decoded. split_and!.
  - unfold post in Hpost. destruct (session_post _ _); [done|]. by injection Hpost as _ ->.
  - unfold check_status in Hstatus. destruct (status_code r =? 200)%Z eqn:E; [|done].
    by apply Z.eqb_eq.
  - done.
  - destruct (json_resp !! "files") as [[repr|files']|]; [done| |done].
    by injection Hfiles as ->.
  - apply lookup_insert_eq.
  - intros k Hk. by rewrite lookup_insert_ne, lookup_fmap.
  - by apply decode_files_spec.
Qed.

Lemma decode_list_raises l :
  forall acc,
    Exists (fun kv => exists e, b64decode (snd kv) = inl e) l ->
    exists kv e,
      kv ∈ l /\ b64decode (snd kv) = inl e
      /\ for_each (fun (decoded : gmap string (list Byte.byte)) (kv : string * string) =>
                     d <~ b64decode (snd kv) ;; inr (<[fst kv := d]> decoded)) acc l
         = inl e.
Proof.
  induction l as [|kv0 l IH]; intros acc Hex; [by inversion Hex|].
  cbn [for_each]. destruct (b64decode (snd kv0)) as [e|d0] eqn:E0.
  - exists kv0, e. split_and!; [apply list_elem_of_here|done|done].
  - cbn [bind_sum].
    assert (Exists (fun kv => exists e, b64decode (snd kv) = inl e) l) as Hl.
    { inversion Hex as [? ? [e He]|]; subst; [congruence|done]. }
    destruct (IH (<[fst kv0 := d0]> acc) Hl) as (kv & e & Hin & He & Hrun).
    exists kv, e. split_and!; [by apply list_elem_of_further|done|done].
Qed.

(** X27. One file that does not decode fails the whole call: when the
    answer has status 200 and some file of ['files'] is not valid
    base64, [raster] raises the error of decoding one of the files and
    returns none of them. *)
Theorem X27_raster_undecodable_file kw r json_resp files name encoded e
    (Hlocation : location kw = None)
    (Hpost : session_post (url +:+ "/raster")
               (make_params kw (shape kw) (Some (output_format kw))) = inr r)
    (Hstatus : status_code r = 200%Z)
    (Hjson : json r = inr json_resp)
    (Hfiles : json_resp !! "files" = Some (JObject files))
    (Hfile : files !! name = Some encoded)
    (Hencoded : b64decode encoded = inl e) :
  exists name' encoded' e',
    files !! name' = Some encoded'
    /\ b64decode encoded' = inl e'
    /\ raster url kw
       = ([Post (url +:+ "/raster")
             (make_params kw (shape kw) (Some (output_format kw)))],
          inl (Raised e')).
Proof.
  destruct (decode_list_raises (map_to_list files) ∅)
    as ([name' encoded'] & e' & Hin & He' & Hrun).
  { apply Exists_exists. exists (name, encoded). split.
    - by apply elem_of_map_to_list.
    - by exists e. }
  exists name', encoded', e'. split_and!; [by apply elem_of_map_to_list|done|].
  unfold raster. rewrite Hlocation, hbind_ret. unfold post. rewrite Hpost.
  unfold hbind at 1. cbv beta iota. unfold check_status. rewrite Hstatus.
  change (200 =? 200)%Z with true. cbv iota.
  rewrite hbind_ret, Hjson, hbind_local_inr, Hfiles, hbind_local_inr.
  unfold decode_files. by rewrite Hrun.
Qed.

End RasterProperties.

(** * The further statements on concrete collections and requests *)

Ltac members :=
  repeat match goal with
         | Hm : _ ∈ _ |- _ =>
             first [by apply elem_of_nil in Hm | apply elem_of_cons in Hm as [->|Hm]]
         end.

Ltac checks :=
  split_and!; first [discriminate | lia | reflexivity | vm_compute; reflexivity].

Lemma X2_common_data_type_first_mismatch_witness :
  @_common_data_type Example.env Example.mixed ["red"]
  = inl (ValueError (MsgDtypeMismatch 1 "Float64" "UInt16"))
  /\ 0 < 1
  /\ ["UInt16"; "Float64"] !! 0 = Some "UInt16"
  /\ ["UInt16"; "Float64"] !! 1 = Some "Float64"
  /\ "Float64" ≠ "UInt16"
  /\ forall k, k < 1 -> ["UInt16"; "Float64"] !! k = Some "UInt16".
Proof.
  split; [reflexivity|].
  apply (@X2_common_data_type_first_mismatch Example.env Example.mixed ["red"]
           ["UInt16"; "Float64"] 1 "Float64" "UInt16"); reflexivity.
Defined.

Lemma X3_common_data_type_resolution_error_first_witness :
  @_common_data_type Example.env
    ([Example.scene_a; Example.scene_wide]
     ++ MoreExample.scene_no_red :: [Example.scene_b]) ["red"]
  = inl (ValueError (MsgText "band not available: red")).
Proof.
  apply (@X3_common_data_type_resolution_error_first Example.env
           [Example.scene_a; Example.scene_wide] MoreExample.scene_no_red
           [Example.scene_b] ["red"]).
  - repeat (constructor; [eexists; reflexivity|]). constructor.
  - reflexivity.
Defined.

Lemma X4_mosaic_request_after_preflight_witness :
  exists bl req drop common,
    @mosaic_preflight Example.env Example.collection (BandsStr "red") true 0
      bl req drop common
    /\ calls (@mosaic Example.env Example.collection (BandsStr "red") Example.ctx
                true true 0 false)
       = [RasterCall (mosaic_raster_args Example.collection req common Example.ctx)]
    /\ ra_inputs (mosaic_raster_args Example.collection req common Example.ctx)
       = map scene_id Example.collection.
Proof.
  apply (@X4_mosaic_request_after_preflight Example.env Example.collection
           (BandsStr "red") Example.ctx true true 0%Z false
           (RasterCall (MoreExample.request ["red"; "alpha"]))).
  apply list_elem_of_here.
Defined.

Lemma X5_mosaic_not_found_witness :
  @mosaic (MoreExample.refusing (NotFoundError (MsgText "no such id")))
    Example.collection (BandsStr "red") Example.ctx true true 0 false
  = ([RasterCall (MoreExample.request ["red"; "alpha"])],
     inl (NotFoundError (MsgIdsNotFound ["a"; "b"]))).
Proof.
  apply (@X5_mosaic_not_found
           (MoreExample.refusing (NotFoundError (MsgText "no such id")))
           Example.collection (BandsStr "red") Example.ctx true true 0%Z false
           ["red"] ["red"; "alpha"] true (Some "UInt16") (MsgText "no such id")).
  - unfold mosaic_preflight. checks.
  - reflexivity.
Defined.

Lemma X6_mosaic_bad_request_witness :
  @mosaic (MoreExample.refusing (BadRequestError (MsgText "bad resolution")))
    Example.collection (BandsStr "red") Example.ctx true true 0 false
  = ([RasterCall (MoreExample.request ["red"; "alpha"])],
     inl (BadRequestError
            (MsgBadRequest (MsgText "bad resolution")
               (MoreExample.request ["red"; "alpha"])))).
Proof.
  apply (@X6_mosaic_bad_request
           (MoreExample.refusing (BadRequestError (MsgText "bad resolution")))
           Example.collection (BandsStr "red") Example.ctx true true 0%Z false
           ["red"] ["red"; "alpha"] true (Some "UInt16") (MsgText "bad resolution")).
  - unfold mosaic_preflight. checks.
  - reflexivity.
Defined.

Lemma X7_mosaic_other_error_unchanged_witness :
  @mosaic (MoreExample.refusing MoreExample.timed_out)
    Example.collection (BandsStr "red") Example.ctx true true 0 false
  = ([RasterCall (MoreExample.request ["red"; "alpha"])], inl MoreExample.timed_out).
Proof.
  apply (@X7_mosaic_other_error_unchanged (MoreExample.refusing MoreExample.timed_out)
           Example.collection (BandsStr "red") Example.ctx true true 0%Z false
           ["red"] ["red"; "alpha"] true (Some "UInt16") MoreExample.timed_out).
  - unfold mosaic_preflight. checks.
  - reflexivity.
  - intros m. discriminate.
  - intros m. discriminate.
Defined.

Lemma X8_mosaic_unmasked_witness :
  ["red"] = ["red"]
  /\ exists v,
       moveaxis3 (nd_values (as_3d MoreExample.red_answer)) (-1) = inr v
       /\ @mosaic Example.env Example.collection (BandsSeq ["red"]) Example.ctx
            false false (-1) true
          = ([RasterCall (MoreExample.request ["red"])],
             inr (Plain (NdArray (nd_dtype (as_3d MoreExample.red_answer)) v),
                  Some Example.answer_info)).
Proof.
  apply (@X8_mosaic_unmasked Example.env Example.collection (BandsSeq ["red"])
           Example.ctx (-1)%Z true ["red"] ["red"] false (Some "UInt16")
           MoreExample.red_answer Example.answer_info).
  - unfold mosaic_preflight. checks.
  - reflexivity.
Defined.

Lemma X9_mosaic_masked_data_is_unmasked_witness :
  exists plain mask,
    @mosaic Example.env Example.collection (BandsSeq ["red"]) Example.ctx
      false false 0 false
    = ([RasterCall (MoreExample.request ["red"])], inr (Plain plain, None))
    /\ @mosaic Example.env Example.collection (BandsSeq ["red"]) Example.ctx
         true false 0 false
       = ([RasterCall (MoreExample.request ["red"])],
          inr (MaskedArray plain mask, None)).
Proof.
  apply (@X9_mosaic_masked_data_is_unmasked Example.env Example.collection
           (BandsSeq ["red"]) Example.ctx 0%Z false ["red"] ["red"] false
           (Some "UInt16") MoreExample.red_answer Example.answer_info 2 2).
  - unfold mosaic_preflight. checks.
  - reflexivity.
  - reflexivity.
  - intros scene bandname Hscene Hband. members; eexists; vm_compute; reflexivity.
Defined.

Lemma X10_mosaic_single_band_3d_witness :
  exists arr,
    @mosaic Example.env Example.collection (BandsSeq ["red"]) Example.ctx
      false false 0 true
    = ([RasterCall (MoreExample.request ["red"])],
       inr (Plain arr, Some Example.answer_info))
    /\ nd_dtype arr = "UInt16"
    /\ a3_shape (nd_values arr) = (1, 2, 2)
    /\ forall b y x, a3_at (nd_values arr) b y x = a2_at MoreExample.red y x.
Proof.
  apply (@X10_mosaic_single_band_3d Example.env Example.collection (BandsSeq ["red"])
           Example.ctx true ["red"] ["red"] false (Some "UInt16") "UInt16"
           MoreExample.red Example.answer_info).
  - unfold mosaic_preflight. checks.
  - reflexivity.
Defined.

Lemma X11_mosaic_listed_alpha_kept_witness :
  exists data mask arr',
    @mosaic Example.env Example.collection (BandsSeq ["red"; "alpha"]) Example.ctx
      true true 0 false
    = ([RasterCall (MoreExample.request ["red"; "alpha"])], inr (arr', None))
    /\ moveaxis (MaskedArray data mask) 0 = inr arr'
    /\ a3_shape (nd_values data) = (2, 2, 2)
    /\ a3_shape mask = (2, 2, 2)
    /\ (forall i y x,
          a3_at (nd_values data) i y x = a3_at (nd_values (as_3d Example.answer)) i y x)
    /\ (forall i y x,
          a3_at (nd_values data) 1 y x = 0%Z -> a3_at mask i y x = true).
Proof.
  apply (@X11_mosaic_listed_alpha_kept Example.env Example.collection
           (BandsSeq ["red"; "alpha"]) ["red"] (Some "UInt16") Example.answer
           Example.answer_info 2 2 Example.ctx true 0%Z false).
  - discriminate.
  - lia.
  - reflexivity.
  - intros Hin. apply list_elem_of_singleton in Hin. discriminate Hin.
  - vm_compute. reflexivity.
  - reflexivity.
  - reflexivity.
  - intros _ scene bandname Hscene Hband. members; eexists; vm_compute; reflexivity.
Defined.

Lemma X13_mosaic_bands_axis_middle_witness :
  exists arr',
    @mosaic Example.env Example.collection (BandsStr "red") Example.ctx true true 1 true
    = (calls MoreExample.major, inr (arr', snd (Example.result_of MoreExample.major)))
    /\ arr_dtype arr' = arr_dtype (fst (Example.result_of MoreExample.major))
    /\ axis_moved_middle
         (nd_values (arr_data (fst (Example.result_of MoreExample.major))))
         (nd_values (arr_data arr'))
    /\ match arr_mask (fst (Example.result_of MoreExample.major)), arr_mask arr' with
       | Some m, Some m' => axis_moved_middle m m'
       | None, None => True
       | _, _ => False
       end.
Proof.
  apply (@X13_mosaic_bands_axis_middle Example.env Example.collection (BandsStr "red")
           Example.ctx true true true).
  reflexivity.
Defined.

Lemma X14_mosaic_no_sentinel_no_mask_witness :
  exists data mask arr',
    @mosaic Example.env [Example.scene_wide] (BandsSeq ["red"]) Example.ctx
      true false 0 false
    = ([RasterCall (mosaic_raster_args [Example.scene_wide] ["red"] (Some "Float64")
                      Example.ctx)],
       inr (arr', None))
    /\ moveaxis (MaskedArray data mask) 0 = inr arr'
    /\ a3_shape mask = (1, 2, 2)
    /\ forall i y x, a3_at mask i y x = false.
Proof.
  apply (@X14_mosaic_no_sentinel_no_mask Example.env [Example.scene_wide]
           (BandsSeq ["red"]) Example.ctx 0%Z false ["red"] ["red"] false
           (Some "Float64") MoreExample.wide_answer [("order", "gdal")] 2 2).
  - unfold mosaic_preflight. checks.
  - reflexivity.
  - reflexivity.
  - intros scene bandname Hscene Hband. members; eexists; vm_compute; reflexivity.
  - intros scene bandname props Hscene Hband Hprops. members.
    vm_compute in Hprops. injection Hprops as <-. reflexivity.
Defined.

Lemma X15_stack_bands_axis_minus_4_witness :
  @stack Example.env Example.collection (BandsSeq ["red"]) Example.ctx None
    true true (-4) false None FuturesUnavailable
  = raise (NotImplementedError MsgStackBandsAxis).
Proof.
  apply (@X15_stack_bands_axis_minus_4 Example.env Example.collection
           (BandsSeq ["red"]) Example.ctx None true true false None FuturesUnavailable).
  discriminate.
Defined.

Lemma X16_stack_first_failure_propagates_witness :
  outcome (@stack (MoreExample.refusing MoreExample.timed_out) Example.collection
             (BandsSeq ["red"]) Example.ctx None true true 1 false (Some 4%Z)
             (FuturesAvailable [1; 0]))
  = inl MoreExample.timed_out.
Proof.
  apply (@X16_stack_first_failure_propagates
           (MoreExample.refusing MoreExample.timed_out) Example.collection
           (BandsSeq ["red"]) Example.ctx None true true 1%Z false (Some 4%Z)
           (FuturesAvailable [1; 0]) Example.items ["red"] (Some "UInt16") 1
           (ItemScene Example.scene_b)).
  - unfold stack_preflight. checks.
  - reflexivity.
  - reflexivity.
  - reflexivity.
  - reflexivity.
Defined.

Lemma X17_stack_group_axis_out_of_range_witness :
  outcome (@stack Example.env Example.collection (BandsSeq ["red"]) Example.ctx
             Example.one_group true true 4 false None FuturesUnavailable)
  = inl (ValueError (MsgInvalidBandsAxis 3)).
Proof.
  apply (@X17_stack_group_axis_out_of_range Example.env Example.collection
           (BandsSeq ["red"]) Example.ctx Example.one_group true true 4%Z false None
           FuturesUnavailable [ItemCollection Example.collection] ["red"]
           (Some "UInt16") 0 Example.collection).
  - unfold stack_preflight. checks.
  - exact I.
  - reflexivity.
  - reflexivity.
  - lia.
Defined.

Lemma X18_stack_items_groups_witness :
  @stack_items Example.env Example.collection Example.one_group
  = inr [ItemCollection Example.collection]
  /\ forall sc, ItemCollection sc ∈ [ItemCollection Example.collection] ->
                2 <= length sc.
Proof.
  destruct (@X18_stack_items_groups Example.env Example.collection
              (FlattenOne (PredFn (fun _ => "g"))) [("g", Example.collection)])
    as [Hgroups _]; [reflexivity|].
  apply Hgroups. repeat constructor. discriminate.
Defined.


Lemma X20_stack_request_after_preflight_witness :
  exists scenes bl common,
    @stack_preflight Example.env Example.collection (BandsSeq ["red"]) None true true 1
      scenes bl common
    /\ exists it,
         it ∈ scenes
         /\ RasterCall (mosaic_raster_args [Example.scene_b] ["red"; "alpha"]
                          (Some "UInt16") Example.ctx)
            ∈ calls (@data_loader Example.env it bl Example.ctx Example.kwargs).
Proof.
  apply (@X20_stack_request_after_preflight Example.env Example.collection
           (BandsSeq ["red"]) Example.ctx None true true 1%Z true (Some 4%Z)
           (FuturesAvailable [1; 0])).
  apply list_elem_of_further, list_elem_of_here.
Defined.

Lemma X21_raster_client_status_error_witness :
  @RasterService.raster RasterExample.transport RasterExample.url
    RasterExample.no_inputs
  = ([RasterService.Post (RasterExample.url +:+ "/raster")
        (RasterService.make_params RasterExample.no_inputs None (Some "GTiff"))],
     inl (RasterService.RuntimeError 404 "no inputs"))
  /\ @RasterService.ndarray RasterExample.transport RasterExample.url
       RasterExample.no_inputs
     = ([RasterService.Post (RasterExample.url +:+ "/featurearray")
           (RasterService.make_params RasterExample.no_inputs None None)],
        inl (RasterService.RuntimeError 404 "no inputs")).
Proof.
  apply (@X21_raster_client_status_error RasterExample.transport RasterExample.url
           RasterExample.no_inputs
           (RasterService.Response 404 "no inputs" (inr ∅) [])
           (RasterService.Response 404 "no inputs" (inr ∅) []));
    first [reflexivity | discriminate].
Defined.

Lemma X22_ndarray_image_is_gdal_moved_witness :
  exists image,
    @RasterService.ndarray RasterExample.transport RasterExample.url
      (RasterService.with_order "image" RasterExample.kw)
    = ([RasterService.Post (RasterExample.url +:+ "/featurearray")
          (RasterService.make_params RasterExample.kw (Some "{}") None)],
       inr (Some image))
    /\ moveaxis (Plain (NdArray "UInt16" (Array3 (2, 2, 2) Example.pixel))) (-1)
       = inr (Plain image)
    /\ nd_dtype image = "UInt16"
    /\ axis_moved_last (Array3 (2, 2, 2) Example.pixel) (nd_values image).
Proof.
  apply (@X22_ndarray_image_is_gdal_moved RasterExample.transport RasterExample.url
           RasterExample.kw
           [RasterService.Post (RasterExample.url +:+ "/featurearray")
              (RasterService.make_params RasterExample.kw (Some "{}") None)]
           (NdArray "UInt16" (Array3 (2, 2, 2) Example.pixel))).
  reflexivity.
Defined.

Lemma X23_ndarray_unknown_order_returns_none_witness :
  @RasterService.ndarray RasterExample.transport RasterExample.url
    RasterExample.band_interleaved
  = ([RasterService.Post (RasterExample.url +:+ "/featurearray")
        (RasterService.make_params RasterExample.kw (Some "{}") None)],
     inr None).
Proof.
  apply (@X23_ndarray_unknown_order_returns_none RasterExample.transport
           RasterExample.url RasterExample.band_interleaved
           [RasterService.Post (RasterExample.url +:+ "/featurearray")
              (RasterService.make_params RasterExample.kw (Some "{}") None)]
           (Some (NdArray "UInt16" (Array3 (2, 2, 2) Example.pixel)))).
  - discriminate.
  - discriminate.
  - reflexivity.
Defined.

Lemma X24_location_overrides_shape_witness :
  @RasterService.raster RasterExample.transport RasterExample.url
    (RasterService.with_shape None RasterExample.located)
  = @RasterService.raster RasterExample.transport RasterExample.url
      RasterExample.located
  /\ @RasterService.ndarray RasterExample.transport RasterExample.url
       (RasterService.with_shape None RasterExample.located)
     = @RasterService.ndarray RasterExample.transport RasterExample.url
         RasterExample.located
  /\ fst (@RasterService.raster RasterExample.transport RasterExample.url
            RasterExample.located) !! 0
     = Some (RasterService.PlacesShape "iowa")
  /\ fst (@RasterService.raster RasterExample.transport RasterExample.url
            RasterExample.located) !! 1
     = Some (RasterService.Post (RasterExample.url +:+ "/raster")
               (RasterService.make_params RasterExample.located
                  (Some "geometry of iowa") (Some "GTiff")))
  /\ fst (@RasterService.ndarray RasterExample.transport RasterExample.url
            RasterExample.located) !! 0
     = Some (RasterService.PlacesShape "iowa")
  /\ fst (@RasterService.ndarray RasterExample.transport RasterExample.url
            RasterExample.located) !! 1
     = Some (RasterService.Post (RasterExample.url +:+ "/featurearray")
               (RasterService.make_params RasterExample.located
                  (Some "geometry of iowa") None)).
Proof.
  apply (@X24_location_overrides_shape RasterExample.transport RasterExample.url
           RasterExample.located "i"%char "owa" None "geometry of iowa");
    reflexivity.
Defined.

Lemma X26_raster_returns_decoded_files_witness :
  exists shape r json_resp files decoded,
    RasterExample.post (RasterExample.url +:+ "/raster")
      (RasterService.make_params RasterExample.kw shape (Some "GTiff")) = inr r
    /\ RasterService.status_code r = 200%Z
    /\ RasterService.json r = inr json_resp
    /\ json_resp !! "files" = Some (RasterService.JObject files)
    /\ RasterExample.result !! "files" = Some (RasterService.RFiles decoded)
    /\ (forall k, k ≠ "files" ->
                  RasterExample.result !! k = RasterService.kept <$> json_resp !! k)
    /\ (forall k, match files !! k with
                  | Some s => exists d,
                      @RasterService.b64decode RasterExample.transport s = inr d
                      /\ decoded !! k = Some d
                  | None => decoded !! k = None
                  end).
Proof.
  apply (@X26_raster_returns_decoded_files RasterExample.transport RasterExample.url
           RasterExample.kw
           [RasterService.Post (RasterExample.url +:+ "/raster")
              (RasterService.make_params RasterExample.kw (Some "{}") (Some "GTiff"))]
           RasterExample.result).
  vm_compute. reflexivity.
Defined.

Lemma X27_raster_undecodable_file_witness :
  exists name' encoded' e',
    RasterExample.files !! name' = Some encoded'
    /\ @RasterService.b64decode RasterExample.strict encoded' = inl e'
    /\ @RasterService.raster RasterExample.strict RasterExample.url RasterExample.kw
       = ([RasterService.Post (RasterExample.url +:+ "/raster")
             (RasterService.make_params RasterExample.kw (Some "{}") (Some "GTiff"))],
          inl (RasterService.Raised e')).
Proof.
  apply (@X27_raster_undecodable_file RasterExample.strict RasterExample.url
           RasterExample.kw
           (RasterService.Response 200 "OK" (inr RasterExample.answer_json) [])
           RasterExample.answer_json RasterExample.files "b.tif" "Qg=="
           (OtherError "binascii.Error" (MsgText "Incorrect padding")));
    reflexivity.
Defined.
